(** * Sales-bonus report: a shallow embedding of [src/main.js]

    The development follows [analyzeSalesData] of [src/src/main.js] (the same
    text is repeated at the end of [src/unnamed/part_002]) stage by stage:
    input validation, index construction, the fold over purchase records, the
    ranking by profit, the bonus assignment and the top-10 product list.

    Modelling conventions.
    - A JavaScript number that carries money is an exact rational ([Q]); the
      model therefore has no [NaN], no infinities and no binary rounding
      error.  Numeric results are compared with [==] ([Qeq]).
    - Quantities are integers ([Z]), counters are [nat].
    - A plain JavaScript object used as a map is the association list of its
      own properties in the order of their creation.  [sellerIndex],
      [productIndex] and [addQuantity] read own properties only.  What the
      code finds under a key that is the name of a member of
      [Object.prototype] is given by [getProperty]; the statements that
      depend on it say so with [ownKeysOnly].  [objectEntries] gives the
      order of [Object.entries].
    - A caller-supplied strategy is a pure function; [None] stands for a
      thrown value that a handler can log, one other than [null] and
      [undefined].  [Exceptions] tells the thrown values apart.
    - [console.log], [console.warn] and [console.error] are not modelled. *)

From Stdlib Require Import List String Ascii Bool Arith ZArith QArith Qround.
From Stdlib Require Import Lia Lqa Permutation Sorted.
Import ListNotations.

Local Open Scope Q_scope.

(** ** Numbers *)

(** [Math.round(x)]: the nearest integer, halves going up. *)
Definition Math_round (x : Q) : Z := Qfloor (x + (1 # 2)).

(** [Math.round(x * 100) / 100] *)
Definition round2 (x : Q) : Q := inject_Z (Math_round (x * 100)) / 100.

(** ** Data model *)

Record Customer := mkCustomer { customer_id : string }.

Record Product := mkProduct {
  sku : string;
  purchase_price : Q
}.

Record Seller := mkSeller {
  id : string;
  first_name : string;
  last_name : string
}.

(** A line item of a receipt; [discount] may be missing. *)
Record Item := mkItem {
  item_sku : string;
  quantity : Z;
  sale_price : Q;
  discount : option Q
}.

Record PurchaseRecord := mkRecord {
  receipt_id : string;
  seller_id : string;
  total_amount : Q;
  items : list Item
}.

(** The object built for every seller by [data.sellers.map(...)]. *)
Record SellerStat := mkStat {
  stat_id : string;
  name : string;
  revenue : Q;
  profit : Q;
  sales_count : nat;
  products_sold : list (string * Z)
}.

(** The object built for every ranked seller by the final [map]. *)
Record ReportEntry := mkEntry {
  out_seller_id : string;
  out_name : string;
  out_revenue : Q;
  out_profit : Q;
  out_sales_count : nat;
  top_products : list string;
  bonus : Q
}.

(** [data]: a property that is not an array is [None]. *)
Record Data := mkData {
  customers : option (list Customer);
  products : option (list Product);
  sellers : option (list Seller);
  purchase_records : option (list PurchaseRecord)
}.

Definition RevenueStrategy := Item -> Product -> option Q.
Definition BonusStrategy := Z -> Z -> SellerStat -> option Q.

(** The value found under a key of [options]: missing or falsy, truthy but
    not callable, or a function. *)
Inductive JsValue (A : Type) : Type :=
| Undefined
| NotAFunction
| Function (f : A).

Arguments Undefined {A}.
Arguments NotAFunction {A}.
Arguments Function {A} f.

Record Options := mkOptions {
  calculateRevenue : JsValue RevenueStrategy;
  calculateBonus : JsValue BonusStrategy
}.

(** The six [throw new Error(...)] sites of [analyzeSalesData], in source
    order. *)
Inductive Error :=
| InvalidInputData
| OptionsMissing
| StrategiesMissing
| StrategiesNotFunctions
| NoValidPurchases
| NoSalesData.

(** ** The reference strategies *)

Definition calculateSimpleRevenue (purchase : Item) (_product : Product) : Q :=
  let discount := match discount purchase with Some d => d | None => 0 end in
  let discountMultiplier := 1 - discount / 100 in
  let revenue := sale_price purchase * inject_Z (quantity purchase) * discountMultiplier in
  round2 revenue.

Definition calculateBonusByProfit (index total : Z) (_seller : SellerStat) : Q :=
  if (index =? 0)%Z then 15 # 100
  else if ((index =? 1) || (index =? 2))%Z then 10 # 100
  else if (index =? total - 1)%Z then 0
  else 5 # 100.

(** The reference strategies as passed in [options]; they never throw. *)
Definition referenceRevenue : RevenueStrategy :=
  fun item product => Some (calculateSimpleRevenue item product).

Definition referenceBonus : BonusStrategy :=
  fun index total seller => Some (calculateBonusByProfit index total seller).

Definition defaultOptions : Options :=
  {| calculateRevenue := Function referenceRevenue;
     calculateBonus := Function referenceBonus |}.

(** ** Arrays and objects used as maps *)

Section Arrays.
Context {A : Type}.

(** [Array.prototype.sort(cmp)] is stable.  The comparator is given by the
    test [cmp(x, y) <= 0], which says that [x] may stay in front of [y]. *)
Fixpoint insertSorted (cmp_le : A -> A -> bool) (x : A) (l : list A) : list A :=
  match l with
  | [] => [x]
  | y :: t => if cmp_le x y then x :: y :: t else y :: insertSorted cmp_le x t
  end.

Definition sortBy (cmp_le : A -> A -> bool) (l : list A) : list A :=
  fold_right (insertSorted cmp_le) [] l.

(** Assignment to the element at position [k]. *)
Fixpoint setAt (k : nat) (x : A) (l : list A) : list A :=
  match l, k with
  | [], _ => []
  | _ :: t, O => x :: t
  | y :: t, S k' => y :: setAt k' x t
  end.
End Arrays.

(** [Object.fromEntries(sellerStats.map(seller => [seller.id, seller]))]:
    the own properties of the index.  The value under a key is a reference to
    an element of [sellerStats], kept here as its position; a later seller
    with the same id wins.  [lookupSeller] below is the read
    [sellerIndex[key]], which also finds inherited members. *)
Fixpoint sellerIndex (sellerStats : list SellerStat) (key : string) : option nat :=
  match sellerStats with
  | [] => None
  | s :: t =>
      match sellerIndex t key with
      | Some k => Some (S k)
      | None => if String.eqb (stat_id s) key then Some O else None
      end
  end.

(** [Object.fromEntries(data.products.map(product => [product.sku, product]))]:
    the own properties of the index; [lookupProduct] below is the read
    [productIndex[key]]. *)
Fixpoint productIndex (products : list Product) (key : string) : option Product :=
  match products with
  | [] => None
  | p :: t =>
      match productIndex t key with
      | Some q => Some q
      | None => if String.eqb (sku p) key then Some p else None
      end
  end.

(** [if (!sold[key]) sold[key] = 0; sold[key] += q;] on an object whose keys
    are listed in insertion order, for a key that is not the name of a member
    of [Object.prototype]. *)
Fixpoint addQuantity (key : string) (q : Z) (sold : list (string * Z)) : list (string * Z) :=
  match sold with
  | [] => [(key, (0 + q)%Z)]
  | (k, v) :: t =>
      if String.eqb k key
      then (k, ((if (v =? 0)%Z then 0 else v) + q)%Z) :: t
      else (k, v) :: addQuantity key q t
  end.

Fixpoint soldQuantity (key : string) (sold : list (string * Z)) : option Z :=
  match sold with
  | [] => None
  | (k, v) :: t => if String.eqb k key then Some v else soldQuantity key t
  end.

(** ** Aggregation *)

Definition initStat (seller : Seller) : SellerStat :=
  {| stat_id := id seller;
     name := (first_name seller ++ " " ++ last_name seller)%string;
     revenue := 0;
     profit := 0;
     sales_count := 0;
     products_sold := [] |}.

(** The mutable state of the double loop. *)
Record AggState := mkAgg {
  sellerStats : list SellerStat;
  validPurchasesCount : nat;
  skippedPurchases : nat
}.

Section Aggregator.
Variable calcRevenue : RevenueStrategy.
Variable pIndex : string -> option Product.
Variable sIndex : string -> option nat.

(** The body of [record.items.forEach]; the pair is the seller object of
    the record and [validPurchasesCount].  [None] from the strategy is a
    thrown value that the handler of line 150 logs; [Exceptions.processItem]
    below follows the handler for every thrown value. *)
Definition processItem (acc : SellerStat * nat) (item : Item) : SellerStat * nat :=
  let (seller, valid) := acc in
  match pIndex (item_sku item) with
  | None => acc
  | Some product =>
      let cost := purchase_price product * inject_Z (quantity item) in
      match calcRevenue item product with
      | None => acc
      | Some itemRevenue =>
          let itemProfit := itemRevenue - cost in
          ({| stat_id := stat_id seller;
              name := name seller;
              revenue := revenue seller;
              profit := profit seller + itemProfit;
              sales_count := sales_count seller;
              products_sold :=
                addQuantity (item_sku item) (quantity item) (products_sold seller) |},
           S valid)
      end
  end.

(** The receipt-level updates made before the items are visited. *)
Definition countReceipt (record : PurchaseRecord) (seller : SellerStat) : SellerStat :=
  {| stat_id := stat_id seller;
     name := name seller;
     revenue := revenue seller + total_amount record;
     profit := profit seller;
     sales_count := sales_count seller + 1;
     products_sold := products_sold seller |}.

(** The body of [data.purchase_records.forEach]. *)
Definition processRecord (st : AggState) (record : PurchaseRecord) : AggState :=
  match sIndex (seller_id record) with
  | None =>
      {| sellerStats := sellerStats st;
         validPurchasesCount := validPurchasesCount st;
         skippedPurchases := S (skippedPurchases st) |}
  | Some k =>
      match nth_error (sellerStats st) k with
      | None => st (* not reached: the index holds positions of [sellerStats] *)
      | Some seller =>
          let (seller', valid) :=
            fold_left processItem (items record)
                      (countReceipt record seller, validPurchasesCount st) in
          {| sellerStats := setAt k seller' (sellerStats st);
             validPurchasesCount := valid;
             skippedPurchases := skippedPurchases st |}
      end
  end.

Definition aggregate (st : AggState) (records : list PurchaseRecord) : AggState :=
  fold_left processRecord records st.
End Aggregator.

(** ** The numeric suffix of a SKU

    [naturalSKUCompare] of [src/unnamed/part_000], lines 43-47, reads a SKU
    with [parseInt(sku.replace('SKU_', ''), 10)]; [None] is [NaN]. *)

Definition isDigit (c : ascii) : bool :=
  (48 <=? nat_of_ascii c)%nat && (nat_of_ascii c <=? 57)%nat.

Definition isBlank (c : ascii) : bool :=
  let n := nat_of_ascii c in
  ((n =? 32) || ((9 <=? n) && (n <=? 13)))%nat.

(** The digits at the front of [s], read in base ten after [acc]. *)
Fixpoint readDigits (s : string) (acc : option Z) : option Z :=
  match s with
  | EmptyString => acc
  | String c t =>
      if isDigit c
      then readDigits t
             (Some (10 * (match acc with Some a => a | None => 0 end)
                    + Z.of_nat (nat_of_ascii c - 48))%Z)
      else acc
  end.

Fixpoint skipBlanks (s : string) : string :=
  match s with
  | String c t => if isBlank c then skipBlanks t else s
  | EmptyString => s
  end.

(** [parseInt(s, 10)] *)
Definition parseInt (s : string) : option Z :=
  match skipBlanks s with
  | String "-" t => option_map Z.opp (readDigits t None)
  | String "+" t => readDigits t None
  | t => readDigits t None
  end.

(** [s.replace(pat, '')]: the first occurrence of [pat] is removed. *)
Fixpoint removeFirst (pat s : string) : string :=
  if String.prefix pat s
  then String.substring (String.length pat) (String.length s - String.length pat) s
  else
    match s with
    | EmptyString => EmptyString
    | String c t => String c (removeFirst pat t)
    end.

Definition getNumber (sku : string) : option Z :=
  parseInt (removeFirst "SKU_" sku).

(** ** The entries of an object

    [Object.entries] lists the own keys that are array indexes first, in
    ascending numeric order, and then the other keys in the order of their
    creation. *)

Fixpoint allDigits (s : string) : bool :=
  match s with
  | EmptyString => true
  | String c t => isDigit c && allDigits t
  end.

(** The array index that a key stands for: the key is the canonical decimal
    form of an integer below [2^32 - 1]. *)
Definition arrayIndex (key : string) : option Z :=
  match key with
  | EmptyString => None
  | String c t =>
      if allDigits key && (negb (Ascii.eqb c "0") || (String.length t =? 0)%nat)
      then match readDigits key None with
           | Some n => if (n <=? 4294967294)%Z then Some n else None
           | None => None
           end
      else None
  end.

Definition isArrayIndex (key : string) : bool :=
  match arrayIndex key with Some _ => true | None => false end.

(** [Object.entries(obj)] for an object whose own properties are listed in
    [obj] in the order of their creation. *)
Definition objectEntries {A : Type} (obj : list (string * A)) : list (string * A) :=
  sortBy (fun a b =>
            match arrayIndex (fst a), arrayIndex (fst b) with
            | Some x, Some y => (x <=? y)%Z
            | _, _ => true
            end)
         (filter (fun p => isArrayIndex (fst p)) obj)
  ++ filter (fun p => negb (isArrayIndex (fst p))) obj.

(** ** Ranking *)

(** [Object.entries(sold).map(...).sort((a, b) => b.quantity - a.quantity)
      .slice(0, 10).map(item => item.sku)] *)
Definition topProducts (sold : list (string * Z)) : list string :=
  map fst
      (firstn 10
              (sortBy (fun a b => (snd b - snd a <=? 0)%Z) (objectEntries sold))).

(** [sellersArray.sort((a, b) => b.profit - a.profit)] *)
Definition sortByProfit (l : list SellerStat) : list SellerStat :=
  sortBy (fun a b => Qle_bool (profit b - profit a) 0) l.

(** The [try]/[catch] of the bonus loop: the values left in [seller.bonus]
    and [seller.top_products]. *)
Definition rateSeller (calcBonus : BonusStrategy) (totalSellers index : nat)
           (seller : SellerStat) : Q * list string :=
  match calcBonus (Z.of_nat index) (Z.of_nat totalSellers) seller with
  | Some b => (b, topProducts (products_sold seller))
  | None => (0, [])
  end.

Definition toEntry (seller : SellerStat) (rated : Q * list string) : ReportEntry :=
  {| out_seller_id := stat_id seller;
     out_name := name seller;
     out_revenue := round2 (revenue seller);
     out_profit := round2 (profit seller);
     out_sales_count := sales_count seller;
     top_products := snd rated;
     bonus := fst rated |}.

Fixpoint rank (calcBonus : BonusStrategy) (totalSellers index : nat)
         (l : list SellerStat) : list ReportEntry :=
  match l with
  | [] => []
  | seller :: t =>
      toEntry seller (rateSeller calcBonus totalSellers index seller)
      :: rank calcBonus totalSellers (S index) t
  end.

(** ** The pipeline *)

Definition isEmpty {A : Type} (l : list A) : bool := (List.length l =? 0)%nat.

(** The statements after the validation of [data] and [options]. *)
Definition aggregateAll (calcRevenue : RevenueStrategy) (ps : list Product)
           (ss : list Seller) (prs : list PurchaseRecord) : AggState :=
  let stats := map initStat ss in
  aggregate calcRevenue (productIndex ps) (sellerIndex stats)
            {| sellerStats := stats; validPurchasesCount := 0; skippedPurchases := 0 |}
            prs.

Definition withSales (st : AggState) : list SellerStat :=
  filter (fun seller => (0 <? sales_count seller)%nat) (sellerStats st).

Definition report (calcRevenue : RevenueStrategy) (calcBonus : BonusStrategy)
           (ps : list Product) (ss : list Seller) (prs : list PurchaseRecord)
  : Error + list ReportEntry :=
  let st := aggregateAll calcRevenue ps ss prs in
  if (validPurchasesCount st =? 0)%nat then inl NoValidPurchases
  else
    let sellersArray := withSales st in
    if isEmpty sellersArray then inl NoSalesData
    else
      let sellersArray := sortByProfit sellersArray in
      inr (rank calcBonus (List.length sellersArray) 0 sellersArray).

Definition analyzeSalesData (data : option Data) (options : option Options)
  : Error + list ReportEntry :=
  match data with
  | None => inl InvalidInputData
  | Some d =>
      match purchase_records d, products d, sellers d with
      | Some prs, Some ps, Some ss =>
          if isEmpty prs || isEmpty ps || isEmpty ss then inl InvalidInputData
          else
            match options with
            | None => inl OptionsMissing
            | Some o =>
                match calculateRevenue o, calculateBonus o with
                | Undefined, _ | _, Undefined => inl StrategiesMissing
                | NotAFunction, _ | _, NotAFunction => inl StrategiesNotFunctions
                | Function calcRevenue, Function calcBonus =>
                    report calcRevenue calcBonus ps ss prs
                end
            end
      | _, _, _ => inl InvalidInputData
      end
  end.

(** ** Vocabulary of the statements *)

(** A line item that the inner loop counts: its SKU is in the product index
    and the revenue strategy returns for it. *)
Definition validItem (calcRevenue : RevenueStrategy) (pIndex : string -> option Product)
           (item : Item) : bool :=
  match pIndex (item_sku item) with
  | Some product =>
      match calcRevenue item product with Some _ => true | None => false end
  | None => false
  end.

(** The receipt is credited to the seller object at position [k]. *)
Definition creditedTo (sIndex : string -> option nat) (k : nat)
           (record : PurchaseRecord) : bool :=
  match sIndex (seller_id record) with
  | Some j => (j =? k)%nat
  | None => false
  end.

Definition receiptsOf (sIndex : string -> option nat) (k : nat)
           (records : list PurchaseRecord) : nat :=
  List.length (filter (creditedTo sIndex k) records).

(** The number of line items of a receipt that the inner loop counts. *)
Definition validItemsIn (calcRevenue : RevenueStrategy) (pIndex : string -> option Product)
           (sIndex : string -> option nat) (record : PurchaseRecord) : nat :=
  match sIndex (seller_id record) with
  | Some _ => List.length (filter (validItem calcRevenue pIndex) (items record))
  | None => 0
  end.

(** What the rest of the run reads from the state of the loops. *)
Definition totals (st : AggState) : list SellerStat * nat :=
  (sellerStats st, validPurchasesCount st).

(** The seller objects that are ranked: those with a receipt, by profit. *)
Definition rankedSellers (calcRevenue : RevenueStrategy) (ps : list Product)
           (ss : list Seller) (prs : list PurchaseRecord) : list SellerStat :=
  sortByProfit (withSales (aggregateAll calcRevenue ps ss prs)).


(** The quantity recorded for a SKU, 0 when the key is absent. *)
Definition quantityOf (sold : list (string * Z)) (key : string) : Z :=
  match soldQuantity key sold with Some v => v | None => 0%Z end.

(** ** The order claimed by the specification *)

(** Follows the spec's words: the pairs of [products_sold] sorted by quantity
    descending, ties by ascending numeric suffix of the SKU, the first ten
    kept.  The comparator is
    [(a, b) => b.quantity - a.quantity || getNumber(a.sku) - getNumber(b.sku)];
    a [NaN] result leaves the two elements in their order. *)
Definition claimedOrder (a b : string * Z) : bool :=
  if (snd b - snd a =? 0)%Z
  then match getNumber (fst a), getNumber (fst b) with
       | Some x, Some y => (x - y <=? 0)%Z
       | _, _ => true
       end
  else (snd b - snd a <=? 0)%Z.

Definition claimedTopProducts (sold : list (string * Z)) : list (string * Z) :=
  firstn 10 (sortBy claimedOrder sold).

(** The keys of a seller's [products_sold] are distinct. *)
Definition distinctKeys (seller : SellerStat) : Prop :=
  NoDup (map fst (products_sold seller)).

(** ** Sibling variants of the pipeline

    The repository holds other versions of the same functions.  The parts of
    them that decide differently from [src/main.js] are kept here, each under
    the name of its file. *)

(** [src/unnamed/part_002], lines 1-152. *)
Module Part002.

(** [parseFloat(x.toFixed(2))]: two decimals, halves away from zero. *)
Definition toFixed2 (x : Q) : Q :=
  if Qle_bool 0 x
  then inject_Z (Qfloor (x * 100 + (1 # 2))) / 100
  else - (inject_Z (Qfloor ((- x) * 100 + (1 # 2))) / 100).

(** Lines 13-31. *)
Definition calculateBonusByProfit (sellerIndex totalSellers : Z)
           (sellerData : SellerStat) : Q :=
  if (sellerIndex >=? totalSellers - 1)%Z then 0
  else
    let profit := profit sellerData in
    let bonusRate :=
      if (sellerIndex =? 0)%Z then 15 # 100
      else if ((sellerIndex =? 1) || (sellerIndex =? 2))%Z then 10 # 100
      else 5 # 100 in
    let bonus := profit * bonusRate in
    toFixed2 bonus.

(** Lines 92-115, the body of [purchase.items.forEach].  There is no [try]:
    [None] is the exception of the revenue strategy leaving the run.
    [products_sold] stands for [sellerProducts[sellerIndex]]. *)
Definition processItem (calculateRevenue : RevenueStrategy)
           (productsMap : string -> option Product)
           (sellerResult : SellerStat) (item : Item) : option SellerStat :=
  let revenueSoFar := revenue sellerResult in
  let profitSoFar := profit sellerResult in
  match productsMap (item_sku item) with
  | None => Some sellerResult
  | Some product =>
      match calculateRevenue item product with
      | None => None
      | Some revenue =>
          let cost := purchase_price product * inject_Z (quantity item) in
          let profit := revenue - cost in
          Some {| stat_id := stat_id sellerResult;
                  name := name sellerResult;
                  revenue := revenueSoFar + revenue;
                  profit := profitSoFar + profit;
                  sales_count := sales_count sellerResult;
                  products_sold :=
                    addQuantity (item_sku item) (quantity item)
                                (products_sold sellerResult) |}
      end
  end.

(** Lines 126-137, applied to the entries of [sellerProducts[index]]: by
    quantity descending, ties by numeric suffix descending. *)
Definition topProducts (sold : list (string * Z)) : list (string * Z) :=
  firstn 10
         (sortBy (fun a b =>
                    if negb (snd b =? snd a)%Z then (snd b - snd a <=? 0)%Z
                    else match getNumber (fst b), getNumber (fst a) with
                         | Some x, Some y => (x - y <=? 0)%Z
                         | _, _ => true
                         end)
                 sold).

End Part002.

(** [src/unnamed/part_000], lines 59-79: the checks made on [data]. *)
Module Part000.

Inductive DataError :=
| DataRequired
| WrongStructure
| EmptyArrays.

Definition checkData (data : option Data) : option DataError :=
  match data with
  | None => Some DataRequired
  | Some d =>
      match customers d, products d, sellers d, purchase_records d with
      | Some cs, Some ps, Some ss, Some prs =>
          if isEmpty cs || isEmpty ps || isEmpty ss || isEmpty prs
          then Some EmptyArrays
          else None
      | _, _, _, _ => Some WrongStructure
      end
  end.

End Part000.

(** ** Sample inputs *)

Definition sellerA : Seller := mkSeller "seller_1" "Alexey" "Petrov".
Definition sellerB : Seller := mkSeller "seller_2" "Mikhail" "Nikitin".
Definition productP : Product := mkProduct "SKU_1" 10.
Definition productR : Product := mkProduct "SKU_2" 5.
Definition itemP : Item := mkItem "SKU_1" 2 20 (Some 0).
Definition itemR : Item := mkItem "SKU_2" 2 8 None.
Definition itemUnknown : Item := mkItem "SKU_9" 1 3 None.

(** One seller, one product, one receipt with one line item. *)
Definition soleRecord (total : Q) : PurchaseRecord :=
  mkRecord "receipt_1" "seller_1" total [itemP].

Definition soleData (cs : option (list Customer)) (total : Q) : Data :=
  mkData cs (Some [productP]) (Some [sellerA]) (Some [soleRecord total]).

Definition someCustomers : option (list Customer) := Some [mkCustomer "customer_1"].

(** A receipt of a seller that is not in [data.sellers]. *)
Definition strangerRecord : PurchaseRecord :=
  mkRecord "receipt_9" "seller_9" 7 [itemP].

(** A revenue strategy that throws for one SKU, and a bonus strategy that
    throws for the first place. *)
Definition failingRevenue : RevenueStrategy :=
  fun item product =>
    if String.eqb (item_sku item) "SKU_2" then None else referenceRevenue item product.


Definition twoItemData (its : list Item) : Data :=
  mkData someCustomers (Some [productP; productR]) (Some [sellerA])
         (Some [mkRecord "receipt_1" "seller_1" 56 its]).


Definition emptySellersData : Data :=
  mkData someCustomers (Some [productP]) (Some []) (Some [soleRecord 40]).

(** ** Vocabulary of the further properties *)

(** The sum of a list of amounts. *)
Definition sumQ (l : list Q) : Q := fold_right Qplus 0 l.

Definition sumZ (l : list Z) : Z := fold_right Z.add 0%Z l.

(** What a line item adds to the profit of its seller: the revenue returned
    by the strategy minus [purchase_price * quantity], nothing when the item
    is skipped. *)
Definition itemProfitOf (calcRevenue : RevenueStrategy) (pIndex : string -> option Product)
           (item : Item) : Q :=
  match pIndex (item_sku item) with
  | Some product =>
      match calcRevenue item product with
      | Some itemRevenue => itemRevenue - purchase_price product * inject_Z (quantity item)
      | None => 0
      end
  | None => 0
  end.

(** What a line item adds to the quantity sold of [key]. *)
Definition soldOf (calcRevenue : RevenueStrategy) (pIndex : string -> option Product)
           (key : string) (item : Item) : Z :=
  if validItem calcRevenue pIndex item && String.eqb (item_sku item) key
  then quantity item else 0%Z.

(** The receipts credited to the seller object at position [k]. *)
Definition receiptsCredited (sIndex : string -> option nat) (k : nat)
           (records : list PurchaseRecord) : list PurchaseRecord :=
  filter (creditedTo sIndex k) records.

(** The totals of the receipts credited to the seller at position [k] of
    [ss]. *)
Definition revenueOf (ss : list Seller) (prs : list PurchaseRecord) (k : nat) : Q :=
  sumQ (map total_amount (receiptsCredited (sellerIndex (map initStat ss)) k prs)).

Definition profitOf (calcRevenue : RevenueStrategy) (ps : list Product)
           (ss : list Seller) (prs : list PurchaseRecord) (k : nat) : Q :=
  sumQ (map (fun record =>
               sumQ (map (itemProfitOf calcRevenue (productIndex ps)) (items record)))
            (receiptsCredited (sellerIndex (map initStat ss)) k prs)).

Definition quantitySoldOf (calcRevenue : RevenueStrategy) (ps : list Product)
           (ss : list Seller) (prs : list PurchaseRecord) (k : nat) (key : string) : Z :=
  sumZ (map (fun record =>
               sumZ (map (soldOf calcRevenue (productIndex ps) key) (items record)))
            (receiptsCredited (sellerIndex (map initStat ss)) k prs)).

(** The receipt names a seller of [data.sellers]. *)
Definition knownSeller (ss : list Seller) (record : PurchaseRecord) : bool :=
  existsb (fun s => String.eqb (id s) (seller_id record)) ss.

(** [data] passes the first check of [analyzeSalesData]: the three arrays are
    present and not empty. *)
Definition validData (data : option Data) : bool :=
  match data with
  | Some d =>
      match purchase_records d, products d, sellers d with
      | Some prs, Some ps, Some ss => negb (isEmpty prs || isEmpty ps || isEmpty ss)
      | _, _, _ => false
      end
  | None => false
  end.

Definition isUndefined {A : Type} (v : JsValue A) : bool :=
  match v with Undefined => true | _ => false end.

Definition isFunction {A : Type} (v : JsValue A) : bool :=
  match v with Function _ => true | _ => false end.

(** ** Further functions of the sibling variants *)

(** The strategies of [src/unnamed/part_000], lines 9-47. *)
Module Part000Strategies.

(** Lines 9-16.  [discount] has no default: a missing discount makes the
    result [NaN], which is [None] here.  The result is not rounded.  This
    [None] is not the [None] of a [RevenueStrategy], which is a thrown
    exception: the function is not handed to the pipelines below. *)
Definition calculateSimpleRevenue (purchase : Item) (_product : Product) : option Q :=
  match discount purchase with
  | None => None
  | Some discount =>
      let decimalDiscount := discount / 100 in
      let fullPrice := sale_price purchase * inject_Z (quantity purchase) in
      let revenue := fullPrice * (1 - decimalDiscount) in
      Some revenue
  end.

(** Lines 26-33. *)
Definition calculateBonusByProfit (index total : Z) (seller : SellerStat) : Q :=
  let profit := profit seller in
  if (index =? 0)%Z then round2 (profit * (15 # 100))
  else if ((index =? 1) || (index =? 2))%Z then round2 (profit * (10 # 100))
  else if negb (index =? total - 1)%Z then round2 (profit * (5 # 100))
  else 0.

(** Lines 43-47; [None] is [NaN]. *)
Definition naturalSKUCompare (a b : string) : option Z :=
  match getNumber a, getNumber b with
  | Some x, Some y => Some (x - y)%Z
  | _, _ => None
  end.

End Part000Strategies.

From Stdlib Require DecimalString DecimalNat.

(** The SKU written as [SKU_] followed by the decimal digits [d]; leading
    zeros are digits of [d]. *)
Definition skuOfDigits (d : Decimal.uint) : string :=
  ("SKU_" ++ DecimalString.NilEmpty.string_of_uint d)%string.

(** The SKU of the number [n], without leading zeros. *)
Definition skuOf (n : nat) : string := skuOfDigits (Nat.to_uint n).

(** [analyzeSalesData] of [src/unnamed/part_002], lines 34-152.  Nothing is
    caught there: an exception of a strategy, or the call of a strategy that
    is not a function, ends the run. *)
Module Part002Pipeline.

(** The objects of [sellersResults]; [top_products] holds SKU and quantity. *)
Record Result := mkResult {
  res_seller_id : string;
  res_name : string;
  res_revenue : Q;
  res_profit : Q;
  res_sales_count : nat;
  res_top_products : list (string * Z);
  res_bonus : Q
}.

Definition BonusStrategy := Z -> Z -> Result -> option Q.

Record Options := mkOptions {
  opt_calculateRevenue : JsValue RevenueStrategy;
  opt_calculateBonus : JsValue BonusStrategy
}.

Inductive Error :=
| StrategiesRequired
| DataMissing
| ArraysEmpty
| Thrown.

(** The call [calculateRevenue(item, product)]. *)
Definition callRevenue (v : JsValue RevenueStrategy) : RevenueStrategy :=
  match v with
  | Function f => f
  | _ => fun _ _ => None
  end.

(** The call [calculateBonus(index, total, seller)]. *)
Definition callBonus (v : JsValue BonusStrategy) : BonusStrategy :=
  match v with
  | Function f => f
  | _ => fun _ _ _ => None
  end.

(** [purchase.items.forEach]; the seller object carries
    [sellerProducts[sellerIndex]] in [products_sold]. *)
Fixpoint processItems (calcRevenue : RevenueStrategy) (productsMap : string -> option Product)
         (sellerResult : SellerStat) (its : list Item) : option SellerStat :=
  match its with
  | [] => Some sellerResult
  | item :: t =>
      match Part002.processItem calcRevenue productsMap sellerResult item with
      | Some sellerResult' => processItems calcRevenue productsMap sellerResult' t
      | None => None
      end
  end.

(** The receipt is counted before its items are visited. *)
Definition countReceipt (seller : SellerStat) : SellerStat :=
  {| stat_id := stat_id seller;
     name := name seller;
     revenue := revenue seller;
     profit := profit seller;
     sales_count := sales_count seller + 1;
     products_sold := products_sold seller |}.

(** The body of [purchase_records.forEach]. *)
Definition processRecord (calcRevenue : RevenueStrategy)
           (productsMap : string -> option Product) (sellersMap : string -> option nat)
           (sellersResults : list SellerStat) (purchase : PurchaseRecord)
  : option (list SellerStat) :=
  match sellersMap (seller_id purchase) with
  | None => Some sellersResults
  | Some k =>
      match nth_error sellersResults k with
      | None => Some sellersResults (* not reached *)
      | Some seller =>
          match processItems calcRevenue productsMap (countReceipt seller) (items purchase) with
          | Some seller' => Some (setAt k seller' sellersResults)
          | None => None
          end
      end
  end.

Fixpoint processRecords (calcRevenue : RevenueStrategy)
         (productsMap : string -> option Product) (sellersMap : string -> option nat)
         (sellersResults : list SellerStat) (prs : list PurchaseRecord)
  : option (list SellerStat) :=
  match prs with
  | [] => Some sellersResults
  | purchase :: t =>
      match processRecord calcRevenue productsMap sellersMap sellersResults purchase with
      | Some sellersResults' =>
          processRecords calcRevenue productsMap sellersMap sellersResults' t
      | None => None
      end
  end.

(** The loop that rounds revenue and profit and fills [top_products]. *)
Definition format (seller : SellerStat) : Result :=
  {| res_seller_id := stat_id seller;
     res_name := name seller;
     res_revenue := Part002.toFixed2 (revenue seller);
     res_profit := Part002.toFixed2 (profit seller);
     res_sales_count := sales_count seller;
     res_top_products := Part002.topProducts (objectEntries (products_sold seller));
     res_bonus := 0 |}.

(** [sellersResults.sort((a, b) => b.profit - a.profit)] *)
Definition sortByProfit (l : list Result) : list Result :=
  sortBy (fun a b => Qle_bool (res_profit b - res_profit a) 0) l.

Definition withBonus (seller : Result) (b : Q) : Result :=
  {| res_seller_id := res_seller_id seller;
     res_name := res_name seller;
     res_revenue := res_revenue seller;
     res_profit := res_profit seller;
     res_sales_count := res_sales_count seller;
     res_top_products := res_top_products seller;
     res_bonus := b |}.

(** The loop that sets [seller.bonus]. *)
Fixpoint assignBonuses (calcBonus : BonusStrategy) (total index : nat) (l : list Result)
  : option (list Result) :=
  match l with
  | [] => Some []
  | seller :: t =>
      match calcBonus (Z.of_nat index) (Z.of_nat total) seller with
      | None => None
      | Some b =>
          match assignBonuses calcBonus total (S index) t with
          | Some t' => Some (withBonus seller b :: t')
          | None => None
          end
      end
  end.

Definition report (calcRevenue : RevenueStrategy) (calcBonus : BonusStrategy)
           (ps : list Product) (ss : list Seller) (prs : list PurchaseRecord)
  : Error + list Result :=
  let sellersResults := map initStat ss in
  match processRecords calcRevenue (productIndex ps) (sellerIndex sellersResults)
                       sellersResults prs with
  | None => inl Thrown
  | Some sellersResults =>
      let sorted := sortByProfit (map format sellersResults) in
      match assignBonuses calcBonus (List.length sorted) 0 sorted with
      | None => inl Thrown
      | Some out => inr out
      end
  end.

(** [options] absent is the default [{}]. *)
Definition analyzeSalesData (data : option Data) (options : option Options)
  : Error + list Result :=
  let calculateRevenue :=
      match options with Some o => opt_calculateRevenue o | None => Undefined end in
  let calculateBonus :=
      match options with Some o => opt_calculateBonus o | None => Undefined end in
  if isUndefined calculateRevenue || isUndefined calculateBonus then inl StrategiesRequired
  else
    match data with
    | None => inl DataMissing
    | Some d =>
        match sellers d, products d, purchase_records d with
        | Some ss, Some ps, Some prs =>
            if isEmpty ss || isEmpty ps || isEmpty prs then inl ArraysEmpty
            else report (callRevenue calculateRevenue) (callBonus calculateBonus) ps ss prs
        | _, _, _ => inl DataMissing
        end
    end.

(** The reference bonus strategy, which reads [seller.profit] only. *)
Definition referenceBonus : BonusStrategy :=
  fun index total seller =>
    Some (Part002.calculateBonusByProfit
            index total
            {| stat_id := res_seller_id seller;
               name := res_name seller;
               revenue := res_revenue seller;
               profit := res_profit seller;
               sales_count := res_sales_count seller;
               products_sold := res_top_products seller |}).

End Part002Pipeline.

(** Two seller objects that agree on everything but the revenue. *)
Definition sameButRevenue (a m : SellerStat) : Prop :=
  stat_id a = stat_id m /\ name a = name m /\ profit a = profit m /\
  sales_count a = sales_count m /\ products_sold a = products_sold m.

(** The revenue returned for a line item, 0 when the item is skipped. *)
Definition itemRevenueOf (calcRevenue : RevenueStrategy) (pIndex : string -> option Product)
           (item : Item) : Q :=
  match pIndex (item_sku item) with
  | Some product =>
      match calcRevenue item product with Some itemRevenue => itemRevenue | None => 0 end
  | None => 0
  end.


(** A line item for which the revenue strategy throws: its receipt names a
    known seller and its SKU a known product. *)
Definition revenueThrows (calcRevenue : RevenueStrategy) (ps : list Product)
           (ss : list Seller) (prs : list PurchaseRecord) : Prop :=
  exists record item product,
    In record prs /\ In (seller_id record) (map id ss) /\ In item (items record) /\
    productIndex ps (item_sku item) = Some product /\
    calcRevenue item product = None.

(** The sample input as [part_002] takes it, and a strategy that is not a
    function. *)
Definition part002Options : Part002Pipeline.Options :=
  Part002Pipeline.mkOptions (Function referenceRevenue)
                            (Function Part002Pipeline.referenceBonus).

Definition part002BadBonus : Part002Pipeline.Options :=
  Part002Pipeline.mkOptions (Function referenceRevenue) NotAFunction.

(** [analyzeSalesData] of [src/unnamed/part_000], lines 56-182.  Nothing is
    caught there either, all sellers are ranked, and the loop over the
    receipts is the one of [main.js] without its counters. *)
Module Part000Pipeline.

Record Result := mkResult {
  rep_seller_id : string;
  rep_name : string;
  rep_revenue : Q;
  rep_profit : Q;
  rep_sales_count : nat;
  rep_top_products : list (string * Z);
  rep_bonus : Q
}.

Inductive Error :=
| InvalidData (e : Part000.DataError)
| OptionsRequired
| RevenueRequired
| BonusRequired
| Thrown.

(** The body of [record.items.forEach]. *)
Definition processItem (calcRevenue : RevenueStrategy) (pIndex : string -> option Product)
           (seller : SellerStat) (item : Item) : option SellerStat :=
  let revenueSoFar := revenue seller in
  let profitSoFar := profit seller in
  match pIndex (item_sku item) with
  | None => Some seller
  | Some product =>
      let cost := purchase_price product * inject_Z (quantity item) in
      match calcRevenue item product with
      | None => None
      | Some revenue =>
          let profit := revenue - cost in
          Some {| stat_id := stat_id seller;
                  name := name seller;
                  revenue := revenueSoFar;
                  profit := profitSoFar + profit;
                  sales_count := sales_count seller;
                  products_sold :=
                    addQuantity (item_sku item) (quantity item) (products_sold seller) |}
      end
  end.

Fixpoint processItems (calcRevenue : RevenueStrategy) (pIndex : string -> option Product)
         (seller : SellerStat) (its : list Item) : option SellerStat :=
  match its with
  | [] => Some seller
  | item :: t =>
      match processItem calcRevenue pIndex seller item with
      | Some seller' => processItems calcRevenue pIndex seller' t
      | None => None
      end
  end.

(** The body of [data.purchase_records.forEach]. *)
Definition processRecord (calcRevenue : RevenueStrategy)
           (pIndex : string -> option Product) (sIndex : string -> option nat)
           (sellersStats : list SellerStat) (record : PurchaseRecord)
  : option (list SellerStat) :=
  match sIndex (seller_id record) with
  | None => Some sellersStats
  | Some k =>
      match nth_error sellersStats k with
      | None => Some sellersStats (* not reached *)
      | Some seller =>
          match processItems calcRevenue pIndex (countReceipt record seller)
                             (items record) with
          | Some seller' => Some (setAt k seller' sellersStats)
          | None => None
          end
      end
  end.

Fixpoint processRecords (calcRevenue : RevenueStrategy)
         (pIndex : string -> option Product) (sIndex : string -> option nat)
         (sellersStats : list SellerStat) (prs : list PurchaseRecord)
  : option (list SellerStat) :=
  match prs with
  | [] => Some sellersStats
  | record :: t =>
      match processRecord calcRevenue pIndex sIndex sellersStats record with
      | Some sellersStats' => processRecords calcRevenue pIndex sIndex sellersStats' t
      | None => None
      end
  end.

(** [.sort((a, b) => b.quantity - a.quantity).slice(0, 10)], applied to the
    entries of [products_sold]. *)
Definition topProducts (sold : list (string * Z)) : list (string * Z) :=
  firstn 10 (sortBy (fun a b => (snd b - snd a <=? 0)%Z) sold).

(** The bonus loop followed by the final [map]:
    [Math.floor(seller.bonus * 100) / 100] and [toFixed(2)]. *)
Definition toResult (seller : SellerStat) (b : Q) : Result :=
  {| rep_seller_id := stat_id seller;
     rep_name := name seller;
     rep_revenue := Part002.toFixed2 (revenue seller);
     rep_profit := Part002.toFixed2 (profit seller);
     rep_sales_count := sales_count seller;
     rep_top_products := topProducts (objectEntries (products_sold seller));
     rep_bonus := inject_Z (Qfloor (b * 100)) / 100 |}.

Fixpoint rank (calcBonus : BonusStrategy) (total index : nat) (l : list SellerStat)
  : option (list Result) :=
  match l with
  | [] => Some []
  | seller :: t =>
      match calcBonus (Z.of_nat index) (Z.of_nat total) seller with
      | None => None
      | Some b =>
          match rank calcBonus total (S index) t with
          | Some t' => Some (toResult seller b :: t')
          | None => None
          end
      end
  end.

Definition report (calcRevenue : RevenueStrategy) (calcBonus : BonusStrategy)
           (ps : list Product) (ss : list Seller) (prs : list PurchaseRecord)
  : Error + list Result :=
  let sellersStats := map initStat ss in
  match processRecords calcRevenue (productIndex ps) (sellerIndex sellersStats)
                       sellersStats prs with
  | None => inl Thrown
  | Some sellersStats =>
      let sorted := sortByProfit sellersStats in
      match rank calcBonus (List.length sorted) 0 sorted with
      | None => inl Thrown
      | Some out => inr out
      end
  end.

Definition analyzeSalesData (data : option Data) (options : option Options)
  : Error + list Result :=
  match Part000.checkData data with
  | Some e => inl (InvalidData e)
  | None =>
      match options with
      | None => inl OptionsRequired
      | Some o =>
          match calculateRevenue o with
          | Function calcRevenue =>
              match calculateBonus o with
              | Function calcBonus =>
                  match data with
                  | Some d =>
                      match products d, sellers d, purchase_records d with
                      | Some ps, Some ss, Some prs =>
                          report calcRevenue calcBonus ps ss prs
                      | _, _, _ => inl (InvalidData Part000.WrongStructure)
                      end
                  | None => inl (InvalidData Part000.DataRequired)
                  end
              | _ => inl BonusRequired
              end
          | _ => inl RevenueRequired
          end
      end
  end.

End Part000Pipeline.

(** The two strategies handed to [part_002] are present (truthy). *)
Definition strategiesPresent (options : option Part002Pipeline.Options) : bool :=
  match options with
  | Some o =>
      negb (isUndefined (Part002Pipeline.opt_calculateRevenue o)
            || isUndefined (Part002Pipeline.opt_calculateBonus o))
  | None => false
  end.

(** ** Keys of plain objects

    [sellerIndex], [productIndex] and [products_sold] are plain objects.
    Reading [obj[key]] finds an own property, or else a member inherited
    from [Object.prototype].  The association lists above hold the own
    properties. *)

(** The names of the members of [Object.prototype]. *)
Definition objectPrototypeMembers : list string :=
  ["constructor"; "__defineGetter__"; "__defineSetter__"; "hasOwnProperty";
   "__lookupGetter__"; "__lookupSetter__"; "isPrototypeOf";
   "propertyIsEnumerable"; "toString"; "valueOf"; "__proto__";
   "toLocaleString"]%string.

Definition inheritedKey (key : string) : bool :=
  existsb (String.eqb key) objectPrototypeMembers.

(** The value of [obj[key]]. *)
Inductive Lookup (A : Type) : Type :=
| Own (a : A)
| Inherited
| Absent.

Arguments Own {A} a.
Arguments Inherited {A}.
Arguments Absent {A}.

Definition getProperty {A : Type} (own : string -> option A) (key : string) : Lookup A :=
  match own key with
  | Some a => Own a
  | None => if inheritedKey key then Inherited else Absent
  end.

(** [sellerIndex[record.seller_id]], line 104, and [productIndex[item.sku]],
    line 120. *)
Definition lookupSeller (ss : list Seller) (key : string) : Lookup nat :=
  getProperty (sellerIndex (map initStat ss)) key.

Definition lookupProduct (ps : list Product) (key : string) : Lookup Product :=
  getProperty (productIndex ps) key.

(** [!obj[key]]: the seller objects, the products and the members of
    [Object.prototype] are all truthy. *)
Definition isMissing {A : Type} (found : Lookup A) : bool :=
  match found with Absent => true | _ => false end.

(** The tests of lines 106 and 122. *)
Definition skipsRecord (ss : list Seller) (record : PurchaseRecord) : bool :=
  isMissing (lookupSeller ss (seller_id record)).

Definition skipsItem (ps : list Product) (item : Item) : bool :=
  isMissing (lookupProduct ps (item_sku item)).

(** No receipt names a seller, and no line item a SKU, by the name of a
    member of [Object.prototype]: every lookup of the loops finds an own
    property or nothing. *)
Definition ownKeysOnly (prs : list PurchaseRecord) : bool :=
  forallb (fun record =>
             negb (inheritedKey (seller_id record))
             && forallb (fun item => negb (inheritedKey (item_sku item))) (items record))
          prs.

(** In [part_002] the two maps are filled by assignment, [map[key] = value],
    which for the key [__proto__] replaces the prototype instead of creating a
    property. *)
Definition assignableKeys (ps : list Product) (ss : list Seller) : bool :=
  forallb (fun product => negb (String.eqb (sku product) "__proto__")) ps
  && forallb (fun seller => negb (String.eqb (id seller) "__proto__")) ss.

(** ** Thrown values

    The handler of the item loop, line 150, reads [error.message]: when the
    value thrown by the revenue strategy is [null] or [undefined] this read
    throws a [TypeError], which nothing catches.  The handler of the bonus
    loop, lines 191-195, only passes [error] on. *)

Inductive Thrown :=
| ThrownNullish   (* [null] or [undefined] *)
| ThrownValue.    (* any other value, an [Error] object for one *)

(** The outcome of the call [calculateRevenue(item, product)]. *)
Inductive Outcome :=
| Returned (itemRevenue : Q)
| Threw (error : Thrown).

Definition ThrowingRevenue := Item -> Product -> Outcome.

(** The strategy as the loops of [processItem] above see it: every thrown
    value is one the handler can log. *)
Definition caught (calcRevenue : ThrowingRevenue) : RevenueStrategy :=
  fun item product =>
    match calcRevenue item product with
    | Returned itemRevenue => Some itemRevenue
    | Threw _ => None
    end.

(** What the callback of [record.items.forEach], lines 119-152, does with a
    line item, given what the two lookups found and how the call of the
    revenue strategy ended. *)
Inductive ItemFate :=
| NotVisited      (* the receipt was skipped at line 109 *)
| SkippedItem     (* the [return] of line 124 *)
| Counted         (* line 147 was reached *)
| ErrorLogged     (* the handler of line 150 ran to its end *)
| HandlerThrew.   (* [error.message] threw inside the handler *)

Definition itemFate {A B : Type} (seller : Lookup A) (product : Lookup B)
           (call : Outcome) : ItemFate :=
  match seller with
  | Absent => NotVisited
  | _ =>
      match product with
      | Absent => SkippedItem
      | _ =>
          match call with
          | Threw ThrownNullish => HandlerThrew
          | Threw ThrownValue => ErrorLogged
          | Returned _ =>
              match seller with
              | Own _ => Counted
              | _ => ErrorLogged (* [seller.products_sold] is [undefined] *)
              end
          end
      end
  end.

(** [analyzeSalesData] of [src/main.js] with the thrown values told apart:
    [None] is the [TypeError] of the handler leaving the loops.  The two
    indexes are read as in [processItem] and [processRecord] above. *)
Module Exceptions.

Record Options := mkOptions {
  opt_calculateRevenue : JsValue ThrowingRevenue;
  opt_calculateBonus : JsValue BonusStrategy
}.

(** How a run ends: with the [TypeError] of the handler, or as
    [analyzeSalesData] above. *)
Inductive Run :=
| HandlerTypeError
| Finished (result : Error + list ReportEntry).

Section Aggregator.
Variable calcRevenue : ThrowingRevenue.
Variable pIndex : string -> option Product.
Variable sIndex : string -> option nat.

(** The body of [record.items.forEach]. *)
Definition processItem (acc : SellerStat * nat) (item : Item) : option (SellerStat * nat) :=
  let (seller, valid) := acc in
  match pIndex (item_sku item) with
  | None => Some acc
  | Some product =>
      let cost := purchase_price product * inject_Z (quantity item) in
      match calcRevenue item product with
      | Threw ThrownNullish => None
      | Threw ThrownValue => Some acc
      | Returned itemRevenue =>
          let itemProfit := itemRevenue - cost in
          Some ({| stat_id := stat_id seller;
                   name := name seller;
                   revenue := revenue seller;
                   profit := profit seller + itemProfit;
                   sales_count := sales_count seller;
                   products_sold :=
                     addQuantity (item_sku item) (quantity item) (products_sold seller) |},
                S valid)
      end
  end.

Fixpoint processItems (acc : SellerStat * nat) (its : list Item)
  : option (SellerStat * nat) :=
  match its with
  | [] => Some acc
  | item :: t =>
      match processItem acc item with
      | Some acc' => processItems acc' t
      | None => None
      end
  end.

(** The body of [data.purchase_records.forEach]. *)
Definition processRecord (st : AggState) (record : PurchaseRecord) : option AggState :=
  match sIndex (seller_id record) with
  | None =>
      Some {| sellerStats := sellerStats st;
              validPurchasesCount := validPurchasesCount st;
              skippedPurchases := S (skippedPurchases st) |}
  | Some k =>
      match nth_error (sellerStats st) k with
      | None => Some st (* not reached: the index holds positions of [sellerStats] *)
      | Some seller =>
          match processItems (countReceipt record seller, validPurchasesCount st)
                             (items record) with
          | Some (seller', valid) =>
              Some {| sellerStats := setAt k seller' (sellerStats st);
                      validPurchasesCount := valid;
                      skippedPurchases := skippedPurchases st |}
          | None => None
          end
      end
  end.

Fixpoint aggregate (st : AggState) (records : list PurchaseRecord) : option AggState :=
  match records with
  | [] => Some st
  | record :: t =>
      match processRecord st record with
      | Some st' => aggregate st' t
      | None => None
      end
  end.
End Aggregator.

Definition aggregateAll (calcRevenue : ThrowingRevenue) (ps : list Product)
           (ss : list Seller) (prs : list PurchaseRecord) : option AggState :=
  let stats := map initStat ss in
  aggregate calcRevenue (productIndex ps) (sellerIndex stats)
            {| sellerStats := stats; validPurchasesCount := 0; skippedPurchases := 0 |}
            prs.

(** The statements after the loops. *)
Definition conclude (calcBonus : BonusStrategy) (st : AggState)
  : Error + list ReportEntry :=
  if (validPurchasesCount st =? 0)%nat then inl NoValidPurchases
  else
    let sellersArray := withSales st in
    if isEmpty sellersArray then inl NoSalesData
    else
      let sellersArray := sortByProfit sellersArray in
      inr (rank calcBonus (List.length sellersArray) 0 sellersArray).

Definition report (calcRevenue : ThrowingRevenue) (calcBonus : BonusStrategy)
           (ps : list Product) (ss : list Seller) (prs : list PurchaseRecord) : Run :=
  match aggregateAll calcRevenue ps ss prs with
  | None => HandlerTypeError
  | Some st => Finished (conclude calcBonus st)
  end.

Definition analyzeSalesData (data : option Data) (options : option Options) : Run :=
  match data with
  | None => Finished (inl InvalidInputData)
  | Some d =>
      match purchase_records d, products d, sellers d with
      | Some prs, Some ps, Some ss =>
          if isEmpty prs || isEmpty ps || isEmpty ss then Finished (inl InvalidInputData)
          else
            match options with
            | None => Finished (inl OptionsMissing)
            | Some o =>
                match opt_calculateRevenue o, opt_calculateBonus o with
                | Undefined, _ | _, Undefined => Finished (inl StrategiesMissing)
                | NotAFunction, _ | _, NotAFunction =>
                    Finished (inl StrategiesNotFunctions)
                | Function calcRevenue, Function calcBonus =>
                    report calcRevenue calcBonus ps ss prs
                end
            end
      | _, _, _ => Finished (inl InvalidInputData)
      end
  end.

End Exceptions.

(** A revenue strategy that throws an [Error] object for one SKU, and one
    that throws [undefined] for every line item. *)
Definition throwingRevenue : ThrowingRevenue :=
  fun item product =>
    if String.eqb (item_sku item) "SKU_2" then Threw ThrownValue
    else Returned (calculateSimpleRevenue item product).

Definition throwsUndefined : ThrowingRevenue :=
  fun _ _ => Threw ThrownNullish.

(** A line item and a receipt whose keys are names of members of
    [Object.prototype]. *)
Definition itemConstructor : Item := mkItem "constructor" 1 3 None.

Definition constructorRecord : PurchaseRecord :=
  mkRecord "receipt_9" "constructor" 7 [itemP].

(** [top] holds the first ten keys of [entries] in the order of a stable
    sort by quantity, descending: followed by the keys left out, it lists
    every key once, by quantity non-increasing, and the keys of one quantity
    in the order they have in [entries]. *)
Definition firstTenByQuantity (entries : list (string * Z)) (top : list string) : Prop :=
  List.length top = Nat.min 10 (List.length entries) /\
  exists rest,
    Permutation (top ++ rest) (map fst entries) /\
    StronglySorted (fun a b => (quantityOf entries b <= quantityOf entries a)%Z)
                   (top ++ rest) /\
    forall q,
      filter (fun key => (quantityOf entries key =? q)%Z) (top ++ rest)
      = filter (fun key => (quantityOf entries key =? q)%Z) (map fst entries).

(** The order of the comparator of [part_002], lines 128-136: [a] comes
    before [b] when more were sold of [a], or as many and the number of its
    SKU is not the smaller one. *)
Definition rankedBefore (a b : string * Z) : Prop :=
  (snd b < snd a)%Z \/
  (snd a = snd b /\
   match getNumber (fst a), getNumber (fst b) with
   | Some x, Some y => (y <= x)%Z
   | _, _ => False
   end).

(** The pairs sold in quantity [q] whose SKU has the number [n]. *)
Definition sameRank (q n : Z) (p : string * Z) : bool :=
  (snd p =? q)%Z
  && match getNumber (fst p) with Some x => (x =? n)%Z | None => false end.

(** * Properties *)

(** ** Rounding *)

Lemma Math_round_mono (x y : Q) : x <= y -> (Math_round x <= Math_round y)%Z.
Proof.
  intros H. unfold Math_round. apply Qfloor_resp_le.
  apply Qplus_le_compat; [exact H | apply Qle_refl].
Qed.

Lemma round2_mono (x y : Q) : x <= y -> round2 x <= round2 y.
Proof.
  intros H. unfold round2, Qdiv.
  apply Qmult_le_compat_r; [| discriminate].
  rewrite <- Zle_Qle. apply Math_round_mono.
  apply Qmult_le_compat_r; [exact H | discriminate].
Qed.

(** ** The stable sort *)

Section SortFacts.
Context {A : Type}.
Variable cmp_le : A -> A -> bool.

Lemma insertSorted_perm (x : A) (l : list A) :
  Permutation (insertSorted cmp_le x l) (x :: l).
Proof.
  induction l as [| y t IH]; simpl.
  - apply Permutation_refl.
  - destruct (cmp_le x y).
    + apply Permutation_refl.
    + eapply perm_trans; [apply perm_skip, IH | apply perm_swap].
Qed.

Lemma sortBy_perm (l : list A) : Permutation (sortBy cmp_le l) l.
Proof.
  induction l as [| x t IH]; simpl.
  - apply perm_nil.
  - eapply perm_trans; [apply insertSorted_perm | apply perm_skip, IH].
Qed.

Lemma sortBy_length (l : list A) : List.length (sortBy cmp_le l) = List.length l.
Proof. apply Permutation_length, sortBy_perm. Qed.

(** Sortedness, for a comparator that decides a total preorder [R]. *)
Variable R : A -> A -> Prop.
Hypothesis R_trans : forall x y z, R x y -> R y z -> R x z.
Hypothesis cmp_le_true : forall x y, cmp_le x y = true -> R x y.
Hypothesis cmp_le_false : forall x y, cmp_le x y = false -> R y x.

Lemma insertSorted_sorted (x : A) (l : list A) :
  StronglySorted R l -> StronglySorted R (insertSorted cmp_le x l).
Proof.
  induction 1 as [| y t Hs IH Hall]; simpl.
  - constructor; [constructor | constructor].
  - destruct (cmp_le x y) eqn:E.
    + constructor.
      * constructor; assumption.
      * constructor; [apply cmp_le_true, E |].
        eapply Forall_impl; [| exact Hall].
        intros z Hz. eapply R_trans; [apply cmp_le_true, E | exact Hz].
    + constructor; [exact IH |].
      eapply Permutation_Forall; [apply Permutation_sym, insertSorted_perm |].
      constructor; [apply cmp_le_false, E | exact Hall].
Qed.

Lemma sortBy_sorted (l : list A) : StronglySorted R (sortBy cmp_le l).
Proof.
  induction l as [| x t IH]; simpl.
  - constructor.
  - apply insertSorted_sorted, IH.
Qed.
End SortFacts.

Lemma sortByProfit_sorted (l : list SellerStat) :
  StronglySorted (fun a b => profit b <= profit a) (sortByProfit l).
Proof.
  apply sortBy_sorted.
  - intros x y z Hxy Hyz. eapply Qle_trans; eassumption.
  - intros x y H. apply Qle_bool_iff in H. lra.
  - intros x y H.
    assert (Hn : ~ profit y - profit x <= 0).
    { intros C. apply Qle_bool_iff in C. congruence. }
    apply Qnot_le_lt in Hn. lra.
Qed.

Local Open Scope nat_scope.

(** ** Arrays *)

Lemma setAt_length {A : Type} (k : nat) (x : A) (l : list A) :
  List.length (setAt k x l) = List.length l.
Proof.
  revert k; induction l as [| y t IH]; intros [| k]; simpl; auto.
Qed.

Lemma nth_error_setAt_eq {A : Type} (k : nat) (x y : A) (l : list A) :
  nth_error l k = Some y -> nth_error (setAt k x l) k = Some x.
Proof.
  revert k; induction l as [| z t IH]; intros [| k]; simpl; try discriminate; auto.
Qed.

Lemma nth_error_setAt_neq {A : Type} (j k : nat) (x : A) (l : list A) :
  j <> k -> nth_error (setAt k x l) j = nth_error l j.
Proof.
  revert j k; induction l as [| z t IH]; intros [| j] [| k] H; simpl; auto.
  congruence.
Qed.

(** ** The indexes *)

Lemma sellerIndex_Some (stats : list SellerStat) (key : string) (k : nat) :
  sellerIndex stats key = Some k ->
  exists s, nth_error stats k = Some s /\ stat_id s = key.
Proof.
  revert k; induction stats as [| s t IH]; simpl; intros k H; [discriminate |].
  destruct (sellerIndex t key) as [j |] eqn:E.
  - injection H as <-. simpl. apply IH. reflexivity.
  - destruct (String.eqb (stat_id s) key) eqn:Ek; [| discriminate].
    injection H as <-. exists s. split; [reflexivity |].
    apply String.eqb_eq, Ek.
Qed.

Lemma sellerIndex_None (stats : list SellerStat) (key : string) :
  sellerIndex stats key = None <-> ~ In key (map stat_id stats).
Proof.
  induction stats as [| s t IH]; simpl.
  - split; [intros _ [] | reflexivity].
  - destruct (sellerIndex t key) as [j |] eqn:E.
    + split; [discriminate |]. intros H. exfalso.
      assert (Hn : ~ In key (map stat_id t)) by tauto.
      apply IH in Hn. discriminate.
    + destruct (String.eqb (stat_id s) key) eqn:Ek.
      * apply String.eqb_eq in Ek. split; [discriminate |]. tauto.
      * apply String.eqb_neq in Ek. split; [| reflexivity].
        intros _ [H | H]; [contradiction |]. apply IH in H; auto.
Qed.

Lemma map_stat_id_initStat (ss : list Seller) :
  map stat_id (map initStat ss) = map id ss.
Proof. rewrite map_map. reflexivity. Qed.

(** ** The inner loop *)

Section AggregatorFacts.
Variable calcRevenue : RevenueStrategy.
Variable pIndex : string -> option Product.
Variable sIndex : string -> option nat.

Lemma processItem_skip (acc : SellerStat * nat) (item : Item) :
  validItem calcRevenue pIndex item = false ->
  processItem calcRevenue pIndex acc item = acc.
Proof.
  unfold validItem, processItem. destruct acc as [seller valid].
  destruct (pIndex (item_sku item)) as [product |]; [| reflexivity].
  destruct (calcRevenue item product); [discriminate | reflexivity].
Qed.

Lemma processItem_count (seller : SellerStat) (valid : nat) (item : Item) :
  validItem calcRevenue pIndex item = true ->
  exists seller',
    processItem calcRevenue pIndex (seller, valid) item = (seller', S valid) /\
    stat_id seller' = stat_id seller /\ name seller' = name seller /\
    revenue seller' = revenue seller /\ sales_count seller' = sales_count seller.
Proof.
  unfold validItem, processItem.
  destruct (pIndex (item_sku item)) as [product |]; [| discriminate].
  destruct (calcRevenue item product) as [itemRevenue |]; [| discriminate].
  intros _. eexists. split; [reflexivity |]. simpl. auto.
Qed.

Lemma processItems_frame (l : list Item) (seller : SellerStat) (valid : nat) :
  exists seller',
    fold_left (processItem calcRevenue pIndex) l (seller, valid)
    = (seller', valid + List.length (filter (validItem calcRevenue pIndex) l)) /\
    stat_id seller' = stat_id seller /\ name seller' = name seller /\
    revenue seller' = revenue seller /\ sales_count seller' = sales_count seller.
Proof.
  revert seller valid; induction l as [| item t IH]; intros seller valid;
    cbn [fold_left filter].
  - exists seller. simpl. rewrite Nat.add_0_r. auto.
  - destruct (validItem calcRevenue pIndex item) eqn:E.
    + destruct (processItem_count seller valid item E) as (s1 & -> & H1 & H2 & H3 & H4).
      destruct (IH s1 (S valid)) as (s2 & -> & G1 & G2 & G3 & G4).
      exists s2. cbn [List.length]. rewrite Nat.add_succ_r.
      repeat split; congruence.
    + rewrite processItem_skip by exact E. apply IH.
Qed.

(** ** The outer loop *)

Lemma processRecord_length (st : AggState) (record : PurchaseRecord) :
  List.length (sellerStats (processRecord calcRevenue pIndex sIndex st record))
  = List.length (sellerStats st).
Proof.
  unfold processRecord.
  destruct (sIndex (seller_id record)) as [k |]; [| reflexivity].
  destruct (nth_error (sellerStats st) k) as [seller |]; [| reflexivity].
  destruct (fold_left _ _ _) as [seller' valid]. simpl. apply setAt_length.
Qed.

Lemma processRecord_stat (st : AggState) (record : PurchaseRecord) (k : nat) (s : SellerStat) :
  nth_error (sellerStats st) k = Some s ->
  exists s',
    nth_error (sellerStats (processRecord calcRevenue pIndex sIndex st record)) k = Some s' /\
    stat_id s' = stat_id s /\ name s' = name s /\
    sales_count s' = sales_count s + (if creditedTo sIndex k record then 1 else 0).
Proof.
  intros Hk. unfold processRecord, creditedTo.
  destruct (sIndex (seller_id record)) as [j |].
  2:{ exists s. simpl. repeat split; auto. }
  destruct (Nat.eqb_spec j k) as [-> | Hne].
  - rewrite Hk.
    destruct (processItems_frame (items record) (countReceipt record s)
                                 (validPurchasesCount st))
      as (seller' & -> & H1 & H2 & _ & H4).
    simpl in *. exists seller'.
    split; [eapply nth_error_setAt_eq; eassumption |].
    repeat split; assumption.
  - destruct (nth_error (sellerStats st) j) as [seller |].
    2:{ exists s. repeat split; auto. }
    destruct (fold_left _ _ _) as [seller' valid]. simpl.
    exists s. rewrite nth_error_setAt_neq by congruence.
    repeat split; auto.
Qed.

Lemma processRecord_valid (st : AggState) (record : PurchaseRecord) :
  (forall key k, sIndex key = Some k -> k < List.length (sellerStats st)) ->
  validPurchasesCount (processRecord calcRevenue pIndex sIndex st record)
  = validPurchasesCount st + validItemsIn calcRevenue pIndex sIndex record.
Proof.
  intros Hb. unfold processRecord, validItemsIn.
  destruct (sIndex (seller_id record)) as [k |] eqn:E; [| simpl; lia].
  apply Hb in E. apply nth_error_Some in E.
  destruct (nth_error (sellerStats st) k) as [seller |]; [| congruence].
  destruct (processItems_frame (items record) (countReceipt record seller)
                               (validPurchasesCount st)) as (seller' & -> & _).
  reflexivity.
Qed.

Lemma aggregate_length (records : list PurchaseRecord) (st : AggState) :
  List.length (sellerStats (aggregate calcRevenue pIndex sIndex st records))
  = List.length (sellerStats st).
Proof.
  revert st; induction records as [| r t IH]; intros st; [reflexivity |].
  unfold aggregate in *. cbn [fold_left]. rewrite IH. apply processRecord_length.
Qed.

Lemma aggregate_stat (records : list PurchaseRecord) (st : AggState) (k : nat) (s : SellerStat) :
  nth_error (sellerStats st) k = Some s ->
  exists s',
    nth_error (sellerStats (aggregate calcRevenue pIndex sIndex st records)) k = Some s' /\
    stat_id s' = stat_id s /\ name s' = name s /\
    sales_count s' = sales_count s + receiptsOf sIndex k records.
Proof.
  revert st s; induction records as [| r t IH]; intros st s Hk;
    unfold aggregate in *; cbn [fold_left].
  - exists s. unfold receiptsOf. simpl. repeat split; auto.
  - destruct (processRecord_stat st r k s Hk) as (s1 & Hk1 & Hid1 & Hn1 & Hc1).
    destruct (IH _ _ Hk1) as (s2 & Hk2 & Hid2 & Hn2 & Hc2).
    exists s2. split; [exact Hk2 |].
    repeat split; try congruence.
    rewrite Hc2, Hc1. unfold receiptsOf. simpl.
    destruct (creditedTo sIndex k r); simpl; lia.
Qed.

Lemma aggregate_valid (records : list PurchaseRecord) (st : AggState) :
  (forall key k, sIndex key = Some k -> k < List.length (sellerStats st)) ->
  validPurchasesCount (aggregate calcRevenue pIndex sIndex st records)
  = validPurchasesCount st
    + list_sum (map (validItemsIn calcRevenue pIndex sIndex) records).
Proof.
  revert st; induction records as [| r t IH]; intros st Hb;
    unfold aggregate in *; cbn [fold_left map list_sum fold_right].
  - lia.
  - rewrite IH.
    + rewrite processRecord_valid by exact Hb. fold (list_sum (map (validItemsIn calcRevenue pIndex sIndex) t)). lia.
    + intros key k Hk. rewrite processRecord_length. eapply Hb, Hk.
Qed.
End AggregatorFacts.

(** ** The reference bonus strategy *)

Local Open Scope Q_scope.

(** The schedule for four or more ranked sellers. *)
Lemma calculateBonusByProfit_schedule (i n : Z) (s : SellerStat) :
  (0 <= i < n)%Z -> (4 <= n)%Z ->
  (i = 0%Z -> calculateBonusByProfit i n s = 15 # 100) /\
  (i = 1%Z \/ i = 2%Z -> calculateBonusByProfit i n s = 10 # 100) /\
  (i = (n - 1)%Z -> calculateBonusByProfit i n s = 0) /\
  ((3 <= i < n - 1)%Z -> calculateBonusByProfit i n s = 5 # 100).
Proof.
  intros Hi Hn. unfold calculateBonusByProfit.
  destruct (Z.eqb_spec i 0), (Z.eqb_spec i 1), (Z.eqb_spec i 2),
    (Z.eqb_spec i (n - 1)); simpl;
    repeat split; intros; try reflexivity; lia.
Qed.

Lemma calculateBonusByProfit_five (s : SellerStat) :
  map (fun i => calculateBonusByProfit i 5 s) [0; 1; 2; 3; 4]%Z
  = [15 # 100; 10 # 100; 10 # 100; 5 # 100; 0].
Proof. reflexivity. Qed.

(** The last place of four or more sellers gets no bonus. *)
Lemma calculateBonusByProfit_last (n : Z) (s : SellerStat) :
  (4 <= n)%Z -> calculateBonusByProfit (n - 1) n s = 0.
Proof.
  intros H. unfold calculateBonusByProfit.
  destruct (Z.eqb_spec (n - 1) 0); [lia |].
  destruct (Z.eqb_spec (n - 1) 1); [lia |].
  destruct (Z.eqb_spec (n - 1) 2); [lia |].
  simpl. rewrite Z.eqb_refl. reflexivity.
Qed.

(** The sibling strategy gives the last place nothing, whatever the number
    of sellers. *)
Lemma Part002_calculateBonusByProfit_last (n : Z) (s : SellerStat) :
  Part002.calculateBonusByProfit (n - 1) n s = 0.
Proof.
  unfold Part002.calculateBonusByProfit.
  destruct (Z.geb_spec (n - 1) (n - 1)); [reflexivity | lia].
Qed.

(** C2. With three sellers or fewer the reference bonus strategy does not
    give the last place a zero bonus: the last of three gets 0.10, the last
    of two gets 0.10, and a sole seller gets 0.15. *)
Theorem calculateBonusByProfit_last_of_few (s : SellerStat) :
  calculateBonusByProfit 2 3 s = 10 # 100 /\
  calculateBonusByProfit 1 2 s = 10 # 100 /\
  calculateBonusByProfit 0 1 s = 15 # 100.
Proof. repeat split. Qed.

(** ** Validation of the input *)

Lemma isEmpty_nil {A : Type} (l : list A) : isEmpty l = true <-> l = [].
Proof. unfold isEmpty. destruct l; simpl; split; congruence. Qed.

(** The run on an input that passes every check. *)
Lemma analyzeSalesData_valid (cs : option (list Customer)) (ps : list Product)
      (ss : list Seller) (prs : list PurchaseRecord)
      (calcRevenue : RevenueStrategy) (calcBonus : BonusStrategy) :
  ps <> [] -> ss <> [] -> prs <> [] ->
  analyzeSalesData (Some (mkData cs (Some ps) (Some ss) (Some prs)))
                   (Some (mkOptions (Function calcRevenue) (Function calcBonus)))
  = report calcRevenue calcBonus ps ss prs.
Proof.
  intros Hp Hs Hr. simpl.
  destruct prs; [congruence |]. destruct ps; [congruence |].
  destruct ss; [congruence |]. reflexivity.
Qed.

(** A run that returns a report was given the three arrays and the two
    strategies. *)
Lemma analyzeSalesData_inr (data : option Data) (options : option Options)
      (out : list ReportEntry) :
  analyzeSalesData data options = inr out ->
  exists cs ps ss prs calcRevenue calcBonus,
    data = Some (mkData cs (Some ps) (Some ss) (Some prs)) /\
    options = Some (mkOptions (Function calcRevenue) (Function calcBonus)) /\
    ps <> [] /\ ss <> [] /\ prs <> [] /\
    report calcRevenue calcBonus ps ss prs = inr out.
Proof.
  unfold analyzeSalesData.
  destruct data as [[cs [ps |] [ss |] [prs |]] |]; simpl; try discriminate.
  destruct prs as [| r prs]; [discriminate |].
  destruct ps as [| p ps]; [discriminate |].
  destruct ss as [| s ss]; [discriminate |]. simpl.
  destruct options as [[[| | calcRevenue] [| | calcBonus]] |]; try discriminate.
  intros H. exists cs, (p :: ps), (s :: ss), (r :: prs), calcRevenue, calcBonus.
  repeat split; try discriminate. exact H.
Qed.

(** C7 (counterexample). The input has no [customers] collection, or an empty
    one, and the run still returns a report. *)
Lemma customers_not_required :
  customers (soleData None 40) = None /\
  customers (soleData (Some []) 40) = Some [] /\
  (exists out, analyzeSalesData (Some (soleData None 40)) (Some defaultOptions) = inr out) /\
  (exists out, analyzeSalesData (Some (soleData (Some []) 40)) (Some defaultOptions) = inr out).
Proof.
  split; [reflexivity |]. split; [reflexivity |].
  split; eexists; vm_compute; reflexivity.
Qed.

(** C7 (amended). When [data] is missing, or one of [products], [sellers],
    [purchase_records] is not an array or is empty, the run fails with the
    input-data error whatever the options are, so before the strategies are
    looked at and before any record is visited; [customers] is never read. *)
Theorem missing_or_empty_collection_rejected (options : option Options) :
  analyzeSalesData None options = inl InvalidInputData /\
  (forall d : Data,
     products d = None \/ products d = Some [] \/
     sellers d = None \/ sellers d = Some [] \/
     purchase_records d = None \/ purchase_records d = Some [] ->
     analyzeSalesData (Some d) options = inl InvalidInputData) /\
  (forall cs cs' ps ss prs,
     analyzeSalesData (Some (mkData cs ps ss prs)) options
     = analyzeSalesData (Some (mkData cs' ps ss prs)) options).
Proof.
  split; [reflexivity |]. split.
  - intros [cs ps ss prs] H. simpl in H.
    destruct prs as [[| r prs] |]; try reflexivity;
      destruct ps as [[| p ps] |]; try reflexivity;
      destruct ss as [[| s ss] |]; try reflexivity.
    exfalso. intuition discriminate.
  - reflexivity.
Qed.

Lemma missing_or_empty_collection_rejected_witness :
  sellers emptySellersData = Some [] /\
  analyzeSalesData (Some emptySellersData) None = inl InvalidInputData.
Proof.
  split; [reflexivity |].
  apply (proj1 (proj2 (missing_or_empty_collection_rejected None))).
  right; right; right; left. reflexivity.
Defined.

(** ** Skipped records and skipped line items *)

Local Open Scope nat_scope.

Lemma productIndex_None (ps : list Product) (key : string) :
  productIndex ps key = None <-> ~ In key (map sku ps).
Proof.
  induction ps as [| p t IH]; simpl.
  - split; [intros _ [] | reflexivity].
  - destruct (productIndex t key) as [q |] eqn:E.
    + split; [discriminate |]. intros H. exfalso.
      assert (Hn : ~ In key (map sku t)) by tauto.
      apply IH in Hn. discriminate.
    + destruct (String.eqb (sku p) key) eqn:Ek.
      * apply String.eqb_eq in Ek. split; [discriminate |]. tauto.
      * apply String.eqb_neq in Ek. split; [| reflexivity].
        intros _ [H | H]; [contradiction |]. apply IH in H; auto.
Qed.

Section SkipFacts.
Variable calcRevenue : RevenueStrategy.
Variable pIndex : string -> option Product.
Variable sIndex : string -> option nat.

Lemma processRecord_totals (st st' : AggState) (record : PurchaseRecord) :
  totals st = totals st' ->
  totals (processRecord calcRevenue pIndex sIndex st record)
  = totals (processRecord calcRevenue pIndex sIndex st' record).
Proof.
  unfold totals. intros H. injection H as Hs Hv.
  unfold processRecord. rewrite <- Hs, <- Hv.
  destruct (sIndex (seller_id record)) as [k |]; simpl; [| congruence].
  destruct (nth_error (sellerStats st) k) as [seller |]; [| congruence].
  destruct (fold_left _ _ _) as [seller' valid]. reflexivity.
Qed.

Lemma aggregate_totals (records : list PurchaseRecord) (st st' : AggState) :
  totals st = totals st' ->
  totals (aggregate calcRevenue pIndex sIndex st records)
  = totals (aggregate calcRevenue pIndex sIndex st' records).
Proof.
  revert st st'; induction records as [| r t IH]; intros st st' H; [exact H |].
  unfold aggregate in *. cbn [fold_left]. apply IH, processRecord_totals, H.
Qed.

Lemma processRecord_unknown_seller (st : AggState) (record : PurchaseRecord) :
  sIndex (seller_id record) = None ->
  processRecord calcRevenue pIndex sIndex st record
  = {| sellerStats := sellerStats st;
       validPurchasesCount := validPurchasesCount st;
       skippedPurchases := S (skippedPurchases st) |}.
Proof. intros H. unfold processRecord. rewrite H. reflexivity. Qed.

Lemma aggregate_unknown_seller (pre post : list PurchaseRecord)
      (record : PurchaseRecord) (st : AggState) :
  sIndex (seller_id record) = None ->
  totals (aggregate calcRevenue pIndex sIndex st (pre ++ record :: post))
  = totals (aggregate calcRevenue pIndex sIndex st (pre ++ post)).
Proof.
  intros H. unfold aggregate. rewrite !fold_left_app. cbn [fold_left].
  apply aggregate_totals. rewrite processRecord_unknown_seller by exact H.
  reflexivity.
Qed.

Lemma processItems_skip (pre post : list Item) (item : Item) (acc : SellerStat * nat) :
  validItem calcRevenue pIndex item = false ->
  fold_left (processItem calcRevenue pIndex) (pre ++ item :: post) acc
  = fold_left (processItem calcRevenue pIndex) (pre ++ post) acc.
Proof.
  intros H. rewrite !fold_left_app. cbn [fold_left].
  rewrite processItem_skip by exact H. reflexivity.
Qed.

Lemma processRecord_skip_item (rid sid : string) (total : Q)
      (ipre ipost : list Item) (item : Item) (st : AggState) :
  validItem calcRevenue pIndex item = false ->
  processRecord calcRevenue pIndex sIndex st
                (mkRecord rid sid total (ipre ++ item :: ipost))
  = processRecord calcRevenue pIndex sIndex st
                  (mkRecord rid sid total (ipre ++ ipost)).
Proof.
  intros H. unfold processRecord, countReceipt. cbn [seller_id items total_amount].
  destruct (sIndex sid) as [k |]; [| reflexivity].
  destruct (nth_error (sellerStats st) k) as [seller |]; [| reflexivity].
  rewrite processItems_skip by exact H. reflexivity.
Qed.

Lemma aggregate_skip_item (pre post : list PurchaseRecord) (rid sid : string)
      (total : Q) (ipre ipost : list Item) (item : Item) (st : AggState) :
  validItem calcRevenue pIndex item = false ->
  aggregate calcRevenue pIndex sIndex st
            (pre ++ mkRecord rid sid total (ipre ++ item :: ipost) :: post)
  = aggregate calcRevenue pIndex sIndex st
              (pre ++ mkRecord rid sid total (ipre ++ ipost) :: post).
Proof.
  intros H. unfold aggregate. rewrite !fold_left_app. cbn [fold_left].
  f_equal. apply processRecord_skip_item, H.
Qed.
End SkipFacts.

Lemma report_totals (calcRevenue : RevenueStrategy) (calcBonus : BonusStrategy)
      (ps : list Product) (ss : list Seller) (prs prs' : list PurchaseRecord) :
  totals (aggregateAll calcRevenue ps ss prs) = totals (aggregateAll calcRevenue ps ss prs') ->
  report calcRevenue calcBonus ps ss prs = report calcRevenue calcBonus ps ss prs'.
Proof.
  unfold totals. intros H. injection H as Hs Hv.
  unfold report, withSales. rewrite Hs, Hv. reflexivity.
Qed.

Lemma analyzeSalesData_totals (cs : option (list Customer)) (ps : list Product)
      (ss : list Seller) (prs prs' : list PurchaseRecord) (options : option Options) :
  prs <> [] -> prs' <> [] ->
  (forall o calcRevenue,
     options = Some o -> calculateRevenue o = Function calcRevenue ->
     totals (aggregateAll calcRevenue ps ss prs)
     = totals (aggregateAll calcRevenue ps ss prs')) ->
  analyzeSalesData (Some (mkData cs (Some ps) (Some ss) (Some prs))) options
  = analyzeSalesData (Some (mkData cs (Some ps) (Some ss) (Some prs'))) options.
Proof.
  intros H1 H2 H. unfold analyzeSalesData. cbn [purchase_records products sellers].
  destruct prs as [| r prs]; [congruence |].
  destruct prs' as [| r' prs']; [congruence |].
  change (isEmpty (r :: prs)) with false.
  change (isEmpty (r' :: prs')) with false. cbn [orb].
  destruct (isEmpty ps || isEmpty ss); [reflexivity |].
  destruct options as [[[| | calcRevenue] [| | calcBonus]] |]; try reflexivity.
  apply report_totals. eapply H; reflexivity.
Qed.

(** *** Keys found by inheritance *)

Lemma inheritedKey_In (key : string) :
  inheritedKey key = true <-> In key objectPrototypeMembers.
Proof.
  unfold inheritedKey. rewrite existsb_exists. split.
  - intros (x & Hx & E). apply String.eqb_eq in E. subst x. exact Hx.
  - intros H. exists key. split; [exact H | apply String.eqb_refl].
Qed.

Lemma isMissing_getProperty {A : Type} (own : string -> option A) (key : string) :
  isMissing (getProperty own key) = true <-> own key = None /\ inheritedKey key = false.
Proof.
  unfold getProperty. destruct (own key) as [a |]; simpl.
  - split; [discriminate | intros [H _]; discriminate].
  - destruct (inheritedKey key); simpl; split; auto; intros [_ H]; discriminate.
Qed.

(** The test of line 106 skips the receipt exactly when no seller has its
    [seller_id] and the id is not the name of a member of
    [Object.prototype]. *)
Lemma skipsRecord_true (ss : list Seller) (record : PurchaseRecord) :
  skipsRecord ss record = true <->
  ~ In (seller_id record) (map id ss) /\ inheritedKey (seller_id record) = false.
Proof.
  unfold skipsRecord, lookupSeller. rewrite isMissing_getProperty.
  rewrite sellerIndex_None, map_stat_id_initStat. reflexivity.
Qed.

(** The test of line 122 skips the line item exactly when no product has its
    SKU and the SKU is not the name of a member of [Object.prototype]. *)
Lemma skipsItem_true (ps : list Product) (item : Item) :
  skipsItem ps item = true <->
  ~ In (item_sku item) (map sku ps) /\ inheritedKey (item_sku item) = false.
Proof.
  unfold skipsItem, lookupProduct. rewrite isMissing_getProperty.
  rewrite productIndex_None. reflexivity.
Qed.

(** X29. A receipt that the test of line 106 skips, that is one whose
    [seller_id] is neither the id of a seller nor the name of a member of
    [Object.prototype], only adds one to [skippedPurchases], and the run ends
    as it does without the receipt.  A line item that the test of line 122
    skips, that is one whose SKU is neither the SKU of a product nor such a
    name, changes nothing: the items after it are visited from the state the
    items before it have left, and the run ends as it does when the item is
    removed from its receipt. *)
Theorem skipped_receipts_and_items_leave_no_trace
      (cs : option (list Customer)) (ps : list Product) (ss : list Seller)
      (options : option Options) :
  (forall calcRevenue st record,
     skipsRecord ss record = true ->
     processRecord calcRevenue (productIndex ps) (sellerIndex (map initStat ss)) st record
     = {| sellerStats := sellerStats st;
          validPurchasesCount := validPurchasesCount st;
          skippedPurchases := S (skippedPurchases st) |}) /\
  (forall pre post record,
     skipsRecord ss record = true -> pre ++ post <> [] ->
     analyzeSalesData (Some (mkData cs (Some ps) (Some ss) (Some (pre ++ record :: post))))
                      options
     = analyzeSalesData (Some (mkData cs (Some ps) (Some ss) (Some (pre ++ post))))
                        options) /\
  (forall calcRevenue item,
     skipsItem ps item = true ->
     (forall acc, processItem calcRevenue (productIndex ps) acc item = acc) /\
     (forall acc ipre ipost,
        fold_left (processItem calcRevenue (productIndex ps)) (ipre ++ item :: ipost) acc
        = fold_left (processItem calcRevenue (productIndex ps)) ipost
                    (fold_left (processItem calcRevenue (productIndex ps)) ipre acc))) /\
  (forall pre post rid sid total ipre ipost item,
     skipsItem ps item = true ->
     analyzeSalesData
       (Some (mkData cs (Some ps) (Some ss)
                     (Some (pre ++ mkRecord rid sid total (ipre ++ item :: ipost) :: post))))
       options
     = analyzeSalesData
         (Some (mkData cs (Some ps) (Some ss)
                       (Some (pre ++ mkRecord rid sid total (ipre ++ ipost) :: post))))
         options).
Proof.
  assert (Hidx : forall record, skipsRecord ss record = true ->
                                sellerIndex (map initStat ss) (seller_id record) = None).
  { intros record H. apply skipsRecord_true in H. destruct H as [H _].
    apply sellerIndex_None. rewrite map_stat_id_initStat. exact H. }
  assert (Hsku : forall calcRevenue item,
             skipsItem ps item = true ->
             validItem calcRevenue (productIndex ps) item = false).
  { intros calcRevenue item H. apply skipsItem_true in H. destruct H as [H _].
    apply productIndex_None in H. unfold validItem. rewrite H. reflexivity. }
  split; [| split; [| split]].
  - intros calcRevenue st record H.
    apply processRecord_unknown_seller, Hidx, H.
  - intros pre post record H Hne. apply analyzeSalesData_totals.
    + destruct pre; discriminate.
    + exact Hne.
    + intros o calcRevenue _ _. unfold aggregateAll.
      apply aggregate_unknown_seller, Hidx, H.
  - intros calcRevenue item H. split.
    + intros acc. apply processItem_skip, Hsku, H.
    + intros acc ipre ipost. rewrite fold_left_app. cbn [fold_left].
      rewrite processItem_skip by (apply Hsku, H). reflexivity.
  - intros pre post rid sid total ipre ipost item H.
    apply analyzeSalesData_totals; try (destruct pre; discriminate).
    intros o calcRevenue _ _. unfold aggregateAll. f_equal.
    apply aggregate_skip_item, Hsku, H.
Qed.

Lemma skipped_receipts_and_items_leave_no_trace_witness :
  skipsRecord [sellerA] strangerRecord = true /\
  skipsItem [productP] itemUnknown = true /\
  analyzeSalesData
    (Some (mkData someCustomers (Some [productP]) (Some [sellerA])
                  (Some ([soleRecord 40] ++ strangerRecord :: []))))
    (Some defaultOptions)
  = analyzeSalesData
      (Some (mkData someCustomers (Some [productP]) (Some [sellerA])
                    (Some ([soleRecord 40] ++ []))))
      (Some defaultOptions) /\
  fold_left (processItem referenceRevenue (productIndex [productP]))
            ([itemP] ++ itemUnknown :: [itemP]) (initStat sellerA, 0)
  = fold_left (processItem referenceRevenue (productIndex [productP])) [itemP]
              (fold_left (processItem referenceRevenue (productIndex [productP])) [itemP]
                         (initStat sellerA, 0)) /\
  analyzeSalesData
    (Some (mkData someCustomers (Some [productP]) (Some [sellerA])
                  (Some ([] ++ mkRecord "receipt_1" "seller_1" 40
                                        ([] ++ itemUnknown :: [itemP]) :: []))))
    (Some defaultOptions)
  = analyzeSalesData
      (Some (mkData someCustomers (Some [productP]) (Some [sellerA])
                    (Some ([] ++ mkRecord "receipt_1" "seller_1" 40 ([] ++ [itemP]) :: []))))
      (Some defaultOptions).
Proof.
  destruct (skipped_receipts_and_items_leave_no_trace
              someCustomers [productP] [sellerA] (Some defaultOptions))
    as (_ & Hrecord & Hitems & Hitem).
  split; [reflexivity |]. split; [reflexivity |]. split; [| split].
  - apply Hrecord; [reflexivity | discriminate].
  - apply (proj2 (Hitems referenceRevenue itemUnknown eq_refl)).
  - apply Hitem. reflexivity.
Defined.

(** C5. The receipt names the seller [constructor] and the line item the SKU
    [constructor]; no seller and no product has that name.  Both lookups find
    the member that every plain object inherits, so neither test skips: the
    items of the receipt are visited and the revenue strategy is called for
    them, where the write to [seller.products_sold] fails and is logged; the
    line item of a known seller reaches the counter of processed items. *)
Theorem inherited_names_are_not_skipped :
  ~ In (seller_id constructorRecord) (map id [sellerA]) /\
  lookupSeller [sellerA] (seller_id constructorRecord) = Inherited /\
  skipsRecord [sellerA] constructorRecord = false /\
  (forall item itemRevenue,
     In item (items constructorRecord) ->
     itemFate (lookupSeller [sellerA] (seller_id constructorRecord))
              (lookupProduct [productP] (item_sku item)) (Returned itemRevenue)
     = ErrorLogged) /\
  ~ In (item_sku itemConstructor) (map sku [productP]) /\
  lookupProduct [productP] (item_sku itemConstructor) = Inherited /\
  skipsItem [productP] itemConstructor = false /\
  (forall itemRevenue,
     itemFate (lookupSeller [sellerA] (seller_id (soleRecord 40)))
              (lookupProduct [productP] (item_sku itemConstructor)) (Returned itemRevenue)
     = Counted).
Proof.
  split; [simpl; intros [H | []]; discriminate |].
  split; [reflexivity |]. split; [reflexivity |].
  split; [intros item itemRevenue [<- | []]; reflexivity |].
  split; [simpl; intros [H | []]; discriminate |].
  split; [reflexivity |]. split; reflexivity.
Qed.

(** ** The accumulation made for one line item *)

Lemma soldQuantity_addQuantity (key : string) (q : Z) (sold : list (string * Z)) :
  soldQuantity key (addQuantity key q sold)
  = Some ((match soldQuantity key sold with Some v => v | None => 0 end) + q)%Z.
Proof.
  induction sold as [| [k v] t IH]; simpl.
  - rewrite String.eqb_refl. reflexivity.
  - destruct (String.eqb k key) eqn:E; simpl; rewrite E.
    + destruct (Z.eqb_spec v 0) as [-> |]; reflexivity.
    + exact IH.
Qed.

Lemma soldQuantity_addQuantity_other (key key' : string) (q : Z) (sold : list (string * Z)) :
  key' <> key ->
  soldQuantity key' (addQuantity key q sold) = soldQuantity key' sold.
Proof.
  intros Hne. induction sold as [| [k v] t IH]; simpl.
  - apply String.eqb_neq in Hne. rewrite String.eqb_sym, Hne. reflexivity.
  - destruct (String.eqb k key) eqn:E; simpl.
    + apply String.eqb_eq in E. subst k.
      apply String.eqb_neq in Hne. rewrite String.eqb_sym, Hne. reflexivity.
    + rewrite IH. reflexivity.
Qed.




(** ** The bonus loop *)

Lemma rank_length (calcBonus : BonusStrategy) (n i0 : nat) (l : list SellerStat) :
  List.length (rank calcBonus n i0 l) = List.length l.
Proof.
  revert i0; induction l as [| s t IH]; intros i0; simpl; [| rewrite IH]; reflexivity.
Qed.

Lemma rank_nth_error (calcBonus : BonusStrategy) (n i0 i : nat) (l : list SellerStat)
      (seller : SellerStat) :
  nth_error l i = Some seller ->
  nth_error (rank calcBonus n i0 l) i
  = Some (toEntry seller (rateSeller calcBonus n (i0 + i) seller)).
Proof.
  revert i0 i; induction l as [| s t IH]; intros i0 [| i]; simpl; try discriminate.
  - intros H. injection H as ->. rewrite Nat.add_0_r. reflexivity.
  - intros H. rewrite (IH (S i0) i H). rewrite Nat.add_succ_r. reflexivity.
Qed.

Lemma report_inr (calcRevenue : RevenueStrategy) (calcBonus : BonusStrategy)
      (ps : list Product) (ss : list Seller) (prs : list PurchaseRecord)
      (out : list ReportEntry) :
  report calcRevenue calcBonus ps ss prs = inr out ->
  let sellersArray := rankedSellers calcRevenue ps ss prs in
  out = rank calcBonus (List.length sellersArray) 0 sellersArray.
Proof.
  unfold report, rankedSellers.
  destruct (validPurchasesCount _ =? 0); [discriminate |].
  destruct (isEmpty _); [discriminate |].
  intros H. injection H as <-. reflexivity.
Qed.

(** ** The loops with the thrown values told apart *)

Section ExceptionFacts.
Variable calcRevenue : ThrowingRevenue.
Variable pIndex : string -> option Product.
Variable sIndex : string -> option nat.





(** When the strategy never throws [null] or [undefined], the loops are
    those of [processItem], [processRecord] and [aggregate]. *)
Hypothesis never_nullish :
  forall item product, calcRevenue item product <> Threw ThrownNullish.

Lemma Exceptions_processItem_caught (acc : SellerStat * nat) (item : Item) :
  Exceptions.processItem calcRevenue pIndex acc item
  = Some (processItem (caught calcRevenue) pIndex acc item).
Proof.
  destruct acc as [seller valid]. unfold Exceptions.processItem, processItem, caught.
  destruct (pIndex (item_sku item)) as [product |]; [| reflexivity].
  pose proof (never_nullish item product) as Hn.
  destruct (calcRevenue item product) as [q | [|]]; try reflexivity.
  contradiction.
Qed.

Lemma Exceptions_processItems_caught (its : list Item) (acc : SellerStat * nat) :
  Exceptions.processItems calcRevenue pIndex acc its
  = Some (fold_left (processItem (caught calcRevenue) pIndex) its acc).
Proof.
  revert acc. induction its as [| item t IH]; intros acc; [reflexivity |].
  cbn [Exceptions.processItems fold_left].
  rewrite Exceptions_processItem_caught. apply IH.
Qed.

Lemma Exceptions_processRecord_caught (st : AggState) (record : PurchaseRecord) :
  Exceptions.processRecord calcRevenue pIndex sIndex st record
  = Some (processRecord (caught calcRevenue) pIndex sIndex st record).
Proof.
  unfold Exceptions.processRecord, processRecord.
  destruct (sIndex (seller_id record)) as [k |]; [| reflexivity].
  destruct (nth_error (sellerStats st) k) as [seller |]; [| reflexivity].
  rewrite Exceptions_processItems_caught.
  destruct (fold_left _ _ _) as [seller' valid]. reflexivity.
Qed.

Lemma Exceptions_aggregate_caught (records : list PurchaseRecord) (st : AggState) :
  Exceptions.aggregate calcRevenue pIndex sIndex st records
  = Some (aggregate (caught calcRevenue) pIndex sIndex st records).
Proof.
  revert st. induction records as [| r t IH]; intros st; [reflexivity |].
  cbn [Exceptions.aggregate]. rewrite Exceptions_processRecord_caught.
  unfold aggregate. cbn [fold_left]. apply IH.
Qed.
End ExceptionFacts.

(** A strategy that never throws [null] or [undefined] gives the run of
    [analyzeSalesData] above. *)
Lemma Exceptions_analyzeSalesData_caught (data : option Data)
      (calcRevenue : ThrowingRevenue) (calcBonus : BonusStrategy) :
  (forall item product, calcRevenue item product <> Threw ThrownNullish) ->
  Exceptions.analyzeSalesData
    data (Some (Exceptions.mkOptions (Function calcRevenue) (Function calcBonus)))
  = Exceptions.Finished
      (analyzeSalesData
         data (Some (mkOptions (Function (caught calcRevenue)) (Function calcBonus)))).
Proof.
  intros Hn. unfold Exceptions.analyzeSalesData, analyzeSalesData.
  destruct data as [[cs [ps |] [ss |] [prs |]] |];
    cbn [purchase_records products sellers]; try reflexivity.
  destruct (isEmpty prs || isEmpty ps || isEmpty ss); [reflexivity |].
  cbn [Exceptions.opt_calculateRevenue Exceptions.opt_calculateBonus
       calculateRevenue calculateBonus].
  unfold Exceptions.report, Exceptions.aggregateAll.
  rewrite Exceptions_aggregate_caught by exact Hn. reflexivity.
Qed.





(** ** What the loops have counted *)

Lemma length_filter_pos {A : Type} (f : A -> bool) (l : list A) :
  0 < List.length (filter f l) <-> exists x, In x l /\ f x = true.
Proof.
  split.
  - intros H. destruct (filter f l) as [| x t] eqn:E; [simpl in H; lia |].
    exists x. apply filter_In. rewrite E. left. reflexivity.
  - intros (x & Hx & Hf).
    assert (Hin : In x (filter f l)) by (apply filter_In; auto).
    destruct (filter f l); [contradiction | simpl; lia].
Qed.

Lemma list_sum_pos (l : list nat) :
  0 < list_sum l <-> exists x, In x l /\ 0 < x.
Proof.
  induction l as [| a t IH]; simpl.
  - split; [lia | intros (x & [] & _)].
  - split.
    + intros H. destruct a as [| a].
      * destruct IH as [IH _]. destruct (IH H) as (x & Hx & Hp).
        exists x. auto.
      * exists (S a). split; [auto | lia].
    + intros (x & [-> | Hx] & Hp); [lia |].
      destruct IH as [_ IH]. assert (0 < list_sum t) by (apply IH; eauto). lia.
Qed.

Lemma sellerIndex_known (ss : list Seller) (key : string) :
  In key (map id ss) <-> exists k, sellerIndex (map initStat ss) key = Some k.
Proof.
  rewrite <- map_stat_id_initStat.
  destruct (sellerIndex (map initStat ss) key) as [k |] eqn:E.
  - split; [eauto |]. intros _.
    destruct (sellerIndex_Some _ _ _ E) as (s & Hn & <-).
    apply in_map, (nth_error_In _ _ Hn).
  - apply sellerIndex_None in E. split; [contradiction | intros (k & Hk); discriminate].
Qed.

Lemma sellerIndex_bound (ss : list Seller) (key : string) (k : nat) :
  sellerIndex (map initStat ss) key = Some k -> k < List.length ss.
Proof.
  intros H. destruct (sellerIndex_Some _ _ _ H) as (s & Hn & _).
  rewrite <- (length_map initStat). apply nth_error_Some. congruence.
Qed.

Section Counted.
Variable calcRevenue : RevenueStrategy.
Variable ps : list Product.
Variable ss : list Seller.
Variable prs : list PurchaseRecord.

Lemma aggregateAll_length :
  List.length (sellerStats (aggregateAll calcRevenue ps ss prs)) = List.length ss.
Proof.
  unfold aggregateAll. rewrite aggregate_length. simpl. apply length_map.
Qed.

Lemma aggregateAll_valid :
  validPurchasesCount (aggregateAll calcRevenue ps ss prs)
  = list_sum (map (validItemsIn calcRevenue (productIndex ps)
                                (sellerIndex (map initStat ss))) prs).
Proof.
  unfold aggregateAll. rewrite aggregate_valid; [reflexivity |].
  intros key k H. simpl. rewrite length_map. eapply sellerIndex_bound, H.
Qed.

Lemma aggregateAll_stat (k : nat) (s : Seller) :
  nth_error ss k = Some s ->
  exists s',
    nth_error (sellerStats (aggregateAll calcRevenue ps ss prs)) k = Some s' /\
    stat_id s' = id s /\
    name s' = (first_name s ++ " " ++ last_name s)%string /\
    sales_count s' = receiptsOf (sellerIndex (map initStat ss)) k prs.
Proof.
  intros H. unfold aggregateAll.
  destruct (aggregate_stat calcRevenue (productIndex ps) (sellerIndex (map initStat ss)) prs
              {| sellerStats := map initStat ss; validPurchasesCount := 0;
                 skippedPurchases := 0 |} k (initStat s))
    as (s' & H1 & H2 & H3 & H4).
  { simpl. rewrite nth_error_map, H. reflexivity. }
  exists s'. repeat split; assumption.
Qed.

(** A line item is processed when its receipt names a known seller, its SKU
    is in the product index and the revenue strategy returns for it. *)
Lemma valid_count_pos :
  0 < validPurchasesCount (aggregateAll calcRevenue ps ss prs) <->
  exists record item product,
    In record prs /\ In (seller_id record) (map id ss) /\ In item (items record) /\
    productIndex ps (item_sku item) = Some product /\
    calcRevenue item product <> None.
Proof.
  rewrite aggregateAll_valid, list_sum_pos. split.
  - intros (n & Hin & Hpos). apply in_map_iff in Hin.
    destruct Hin as (record & <- & Hr). unfold validItemsIn in Hpos.
    destruct (sellerIndex (map initStat ss) (seller_id record)) as [k |] eqn:E; [| lia].
    apply length_filter_pos in Hpos. destruct Hpos as (item & Hi & Hv).
    unfold validItem in Hv.
    destruct (productIndex ps (item_sku item)) as [product |] eqn:Ep; [| discriminate].
    exists record, item, product. repeat split; auto.
    + apply sellerIndex_known. eauto.
    + destruct (calcRevenue item product); [discriminate | discriminate].
  - intros (record & item & product & Hr & Hs & Hi & Hp & Hc).
    exists (validItemsIn calcRevenue (productIndex ps) (sellerIndex (map initStat ss)) record).
    split; [apply in_map, Hr |].
    unfold validItemsIn. apply sellerIndex_known in Hs. destruct Hs as (k & ->).
    apply length_filter_pos. exists item. split; [exact Hi |].
    unfold validItem. rewrite Hp. destruct (calcRevenue item product); congruence.
Qed.

(** A processed line item belongs to a receipt that was counted for some
    seller, so some seller object has a positive [sales_count]. *)
Lemma valid_count_pos_withSales :
  0 < validPurchasesCount (aggregateAll calcRevenue ps ss prs) ->
  withSales (aggregateAll calcRevenue ps ss prs) <> [].
Proof.
  intros H. apply valid_count_pos in H.
  destruct H as (record & item & product & Hr & Hs & _).
  apply sellerIndex_known in Hs. destruct Hs as (k & Hk).
  pose proof (sellerIndex_bound _ _ _ Hk) as Hb.
  destruct (nth_error ss k) as [s |] eqn:En.
  2:{ apply nth_error_None in En. lia. }
  destruct (aggregateAll_stat k s En) as (s' & Hn & _ & _ & Hc).
  assert (Hin : In s' (withSales (aggregateAll calcRevenue ps ss prs))).
  { unfold withSales. apply filter_In. split; [eapply nth_error_In, Hn |].
    apply Nat.ltb_lt. rewrite Hc. unfold receiptsOf.
    apply length_filter_pos. exists record. split; [exact Hr |].
    unfold creditedTo. rewrite Hk. apply Nat.eqb_refl. }
  intros E. rewrite E in Hin. contradiction.
Qed.
End Counted.

Lemma report_cases (calcRevenue : RevenueStrategy) (calcBonus : BonusStrategy)
      (ps : list Product) (ss : list Seller) (prs : list PurchaseRecord) :
  (validPurchasesCount (aggregateAll calcRevenue ps ss prs) = 0 /\
   report calcRevenue calcBonus ps ss prs = inl NoValidPurchases) \/
  (0 < validPurchasesCount (aggregateAll calcRevenue ps ss prs) /\
   exists out, report calcRevenue calcBonus ps ss prs = inr out).
Proof.
  unfold report.
  destruct (Nat.eqb_spec (validPurchasesCount (aggregateAll calcRevenue ps ss prs)) 0)
    as [E | E]; [left; auto | right].
  assert (Hpos : 0 < validPurchasesCount (aggregateAll calcRevenue ps ss prs)) by lia.
  split; [exact Hpos |].
  apply valid_count_pos_withSales in Hpos.
  destruct (isEmpty _) eqn:Ee; [apply isEmpty_nil in Ee; contradiction |].
  eexists. reflexivity.
Qed.

(** C10. Once a line item has been processed, the filter by
    [sales_count > 0] keeps at least one seller, so the error for an empty
    filtered array is never raised. *)
Theorem no_sales_error_unreachable :
  (forall calcRevenue ps ss prs,
     0 < validPurchasesCount (aggregateAll calcRevenue ps ss prs) ->
     withSales (aggregateAll calcRevenue ps ss prs) <> []) /\
  (forall data options, analyzeSalesData data options <> inl NoSalesData).
Proof.
  split; [apply valid_count_pos_withSales |].
  intros data options.
  unfold analyzeSalesData.
  destruct data as [[cs [ps |] [ss |] [prs |]] |];
    cbn [purchase_records products sellers]; try discriminate.
  destruct (isEmpty prs || isEmpty ps || isEmpty ss); [discriminate |].
  destruct options as [[[| | calcRevenue] [| | calcBonus]] |];
    cbn [calculateRevenue calculateBonus]; try discriminate.
  destruct (report_cases calcRevenue calcBonus ps ss prs) as [[_ ->] | [_ [out ->]]];
    discriminate.
Qed.

Lemma no_sales_error_unreachable_witness :
  withSales (aggregateAll referenceRevenue [productP] [sellerA] [soleRecord 40]) <> [].
Proof.
  apply (proj1 no_sales_error_unreachable). vm_compute. reflexivity.
Defined.

(** The product that [productIndex] holds under a key is the last product
    of the array with that SKU. *)
Lemma productIndex_app (l1 l2 : list Product) (key : string) :
  productIndex (l1 ++ l2) key
  = match productIndex l2 key with
    | Some q => Some q
    | None => productIndex l1 key
    end.
Proof.
  induction l1 as [| p t IH]; simpl.
  - destruct (productIndex l2 key); reflexivity.
  - rewrite IH. destruct (productIndex l2 key); reflexivity.
Qed.

Lemma productIndex_Some_last (ps : list Product) (key : string) (product : Product) :
  productIndex ps key = Some product <->
  exists pre post,
    ps = pre ++ product :: post /\ sku product = key /\
    forall p', In p' post -> sku p' <> key.
Proof.
  split.
  - revert product. induction ps as [| p t IH]; simpl; intros product H; [discriminate |].
    destruct (productIndex t key) as [q |] eqn:E.
    + injection H as <-. destruct (IH q eq_refl) as (pre & post & -> & Hq & Hpost).
      exists (p :: pre), post. auto.
    + destruct (String.eqb_spec (sku p) key) as [Hk | Hk]; [| discriminate].
      injection H as <-. exists [], t. repeat split; auto.
      intros p' Hin Hp'. apply productIndex_None in E. apply E.
      rewrite <- Hp'. apply in_map, Hin.
  - intros (pre & post & -> & Hk & Hpost).
    rewrite productIndex_app. simpl.
    assert (E : productIndex post key = None).
    { apply productIndex_None. intros Hin. apply in_map_iff in Hin.
      destruct Hin as (p' & Hp' & Hin). apply (Hpost p' Hin Hp'). }
    rewrite E. subst key. rewrite String.eqb_refl. reflexivity.
Qed.

(** X30. On an input that passes the validation, whose receipts name no
    seller and no SKU by the name of a member of [Object.prototype], and
    with a revenue strategy that never throws [null] or [undefined], the run
    fails with the error for missing valid purchases exactly when no line
    item was processed, that is when no receipt of a seller of
    [data.sellers] has a line item with the SKU of a product of
    [data.products] for which the revenue strategy, called with the last
    product of that SKU, returns; otherwise a report is returned. *)
Theorem fails_iff_nothing_processed
        (cs : option (list Customer)) (ps : list Product) (ss : list Seller)
        (prs : list PurchaseRecord)
        (calcRevenue : ThrowingRevenue) (calcBonus : BonusStrategy) :
  ps <> [] -> ss <> [] -> prs <> [] ->
  ownKeysOnly prs = true ->
  (forall item product, calcRevenue item product <> Threw ThrownNullish) ->
  let run :=
      Exceptions.analyzeSalesData
        (Some (mkData cs (Some ps) (Some ss) (Some prs)))
        (Some (Exceptions.mkOptions (Function calcRevenue) (Function calcBonus))) in
  let processed :=
      exists record item product pre post itemRevenue,
        In record prs /\ In (seller_id record) (map id ss) /\ In item (items record) /\
        ps = pre ++ product :: post /\ sku product = item_sku item /\
        (forall p', In p' post -> sku p' <> item_sku item) /\
        calcRevenue item product = Returned itemRevenue in
  (run = Exceptions.Finished (inl NoValidPurchases) <-> ~ processed) /\
  ((exists out, run = Exceptions.Finished (inr out)) <-> processed).
Proof.
  intros Hp Hs Hr _ Hn run processed. subst run.
  rewrite Exceptions_analyzeSalesData_caught by exact Hn.
  rewrite analyzeSalesData_valid by assumption.
  assert (Hpos : 0 < validPurchasesCount (aggregateAll (caught calcRevenue) ps ss prs)
                 <-> processed).
  { rewrite valid_count_pos. unfold processed. split.
    - intros (record & item & product & H1 & H2 & H3 & H4 & H5).
      apply productIndex_Some_last in H4. destruct H4 as (pre & post & H4 & H6 & H7).
      unfold caught in H5.
      destruct (calcRevenue item product) as [q |] eqn:E; [| congruence].
      exists record, item, product, pre, post, q. repeat split; assumption.
    - intros (record & item & product & pre & post & q & H1 & H2 & H3 & H4 & H5 & H6 & H7).
      exists record, item, product. repeat split; try assumption.
      + apply productIndex_Some_last. exists pre, post. repeat split; assumption.
      + unfold caught. rewrite H7. discriminate. }
  destruct (report_cases (caught calcRevenue) calcBonus ps ss prs)
    as [[Hz ->] | [Hv [out ->]]].
  - assert (Hnot : ~ processed) by (intros H; apply Hpos in H; lia).
    split; [split; auto |].
    split; [intros (out & H); discriminate | contradiction].
  - assert (Hyes : processed) by (apply Hpos, Hv).
    split; [split; [discriminate | contradiction] |].
    split; [auto | eauto].
Qed.

Lemma fails_iff_nothing_processed_witness :
  Exceptions.analyzeSalesData
    (Some (mkData someCustomers (Some [productP]) (Some [sellerA]) (Some [strangerRecord])))
    (Some (Exceptions.mkOptions (Function throwingRevenue) (Function referenceBonus)))
  = Exceptions.Finished (inl NoValidPurchases) /\
  exists out,
    Exceptions.analyzeSalesData
      (Some (soleData someCustomers 40))
      (Some (Exceptions.mkOptions (Function throwingRevenue) (Function referenceBonus)))
    = Exceptions.Finished (inr out).
Proof.
  assert (Hn : forall item product, throwingRevenue item product <> Threw ThrownNullish).
  { intros item product. unfold throwingRevenue.
    destruct (String.eqb (item_sku item) "SKU_2"); discriminate. }
  split.
  - apply (fails_iff_nothing_processed
             someCustomers [productP] [sellerA] [strangerRecord]
             throwingRevenue referenceBonus);
      [discriminate | discriminate | discriminate | reflexivity | exact Hn |].
    intros (record & item & product & pre & post & q & [<- | []] & [H | []] & _).
    discriminate.
  - apply (fails_iff_nothing_processed
             someCustomers [productP] [sellerA] [soleRecord 40]
             throwingRevenue referenceBonus);
      [discriminate | discriminate | discriminate | reflexivity | exact Hn |].
    exists (soleRecord 40), itemP, productP, [], [],
           (calculateSimpleRevenue itemP productP).
    repeat split; try (left; reflexivity).
    intros p' [].
Defined.

(** C6. Two inputs that pass the validation and on which no line item with
    a known SKU is processed, yet the run does not end with the error for
    missing valid purchases.  On the first the only line item has the SKU
    [constructor], which no product has: the lookup finds the inherited
    member, the item is counted, and the test of line 161 sees a count of
    one.  On the second the revenue strategy throws [undefined] for the only
    line item: the handler of line 150 throws a [TypeError] that ends the
    run before line 161. *)
Theorem counted_without_a_known_sku :
  (~ In (item_sku itemConstructor) (map sku [productP]) /\
   In (seller_id (soleRecord 40)) (map id [sellerA]) /\
   forall itemRevenue,
     map (fun item =>
            itemFate (lookupSeller [sellerA] (seller_id (soleRecord 40)))
                     (lookupProduct [productP] (item_sku item)) (Returned itemRevenue))
         [itemConstructor]
     = [Counted]) /\
  (throwsUndefined itemP productP = Threw ThrownNullish /\
   Exceptions.analyzeSalesData
     (Some (soleData someCustomers 40))
     (Some (Exceptions.mkOptions (Function throwsUndefined) (Function referenceBonus)))
   = Exceptions.HandlerTypeError).
Proof.
  split.
  - split; [simpl; intros [H | []]; discriminate |].
    split; [left; reflexivity | reflexivity].
  - split; reflexivity.
Qed.

(** ** Ranking: positions of the ranked sellers *)

Section Tagging.
Context {A B : Type}.
Variable tag : B -> A.




End Tagging.






Lemma In_rank (calcBonus : BonusStrategy) (n i0 : nat) (l : list SellerStat)
      (e : ReportEntry) :
  In e (rank calcBonus n i0 l) ->
  exists seller index,
    In seller l /\ e = toEntry seller (rateSeller calcBonus n index seller).
Proof.
  revert i0; induction l as [| s t IH]; intros i0; simpl; [intros [] |].
  intros [<- | H].
  - eexists _, _. split; [left; reflexivity | reflexivity].
  - destruct (IH _ H) as (seller & index & Hin & ->).
    exists seller, index. auto.
Qed.


(** ** The report: order and entries *)









(** ** The top products *)

Section Stability.
Context {A : Type}.
Variable cmp_le : A -> A -> bool.
Variable c : A -> bool.
Hypothesis same_class : forall x y, c x = true -> c y = true -> cmp_le x y = true.

Lemma insertSorted_stable (x : A) (l : list A) :
  filter c (insertSorted cmp_le x l) = filter c (x :: l).
Proof.
  induction l as [| y t IH]; [reflexivity |].
  cbn [insertSorted]. destruct (cmp_le x y) eqn:E; [reflexivity |].
  cbn [filter] in *. destruct (c x) eqn:Ex.
  - destruct (c y) eqn:Ey.
    + rewrite (same_class x y Ex Ey) in E. discriminate.
    + exact IH.
  - rewrite IH. reflexivity.
Qed.

(** Elements of one class keep their relative order. *)
Lemma sortBy_stable (l : list A) : filter c (sortBy cmp_le l) = filter c l.
Proof.
  induction l as [| x t IH]; [reflexivity |].
  unfold sortBy in *. cbn [fold_right]. rewrite insertSorted_stable.
  cbn [filter]. rewrite IH. reflexivity.
Qed.
End Stability.

Lemma sortByQuantity_sorted (sold : list (string * Z)) :
  StronglySorted (fun a b => (snd b <= snd a)%Z) (sortBy (fun a b : string * Z => (snd b - snd a <=? 0)%Z) sold).
Proof.
  apply sortBy_sorted.
  - intros x y z Hxy Hyz. lia.
  - intros x y H. apply Z.leb_le in H. lia.
  - intros x y H. apply Z.leb_gt in H. lia.
Qed.

Lemma In_firstn {A : Type} (n : nat) (l : list A) (x : A) :
  In x (firstn n l) -> In x l.
Proof.
  intros H. rewrite <- (firstn_skipn n l). apply in_or_app. left. exact H.
Qed.

Lemma StronglySorted_firstn {A : Type} (R : A -> A -> Prop) (n : nat) (l : list A) :
  StronglySorted R l -> StronglySorted R (firstn n l).
Proof.
  intros H. revert n. induction H as [| x t Hs IH Hall]; intros [| n]; simpl;
    try constructor.
  - apply IH.
  - apply Forall_forall. intros y Hy. rewrite Forall_forall in Hall.
    apply Hall. eapply In_firstn, Hy.
Qed.

(** *** The keys of [products_sold] stay distinct *)

Lemma In_addQuantity_keys (key k : string) (q : Z) (sold : list (string * Z)) :
  In k (map fst (addQuantity key q sold)) -> k = key \/ In k (map fst sold).
Proof.
  induction sold as [| [k' v] t IH]; simpl.
  - intros [H | []]. auto.
  - destruct (String.eqb k' key); simpl; [tauto |].
    intros [H | H]; [tauto |]. apply IH in H. tauto.
Qed.

Lemma addQuantity_NoDup (key : string) (q : Z) (sold : list (string * Z)) :
  NoDup (map fst sold) -> NoDup (map fst (addQuantity key q sold)).
Proof.
  induction sold as [| [k v] t IH]; simpl; intros H.
  - constructor; [intros [] | constructor].
  - inversion H as [| ? ? Hk Ht]; subst.
    destruct (String.eqb k key) eqn:E; simpl.
    + constructor; assumption.
    + constructor; [| apply IH, Ht].
      intros Hin. apply In_addQuantity_keys in Hin. destruct Hin as [-> | Hin].
      * rewrite String.eqb_refl in E. discriminate.
      * contradiction.
Qed.

Lemma processItem_distinctKeys (calcRevenue : RevenueStrategy)
      (pIndex : string -> option Product) (acc : SellerStat * nat) (item : Item) :
  distinctKeys (fst acc) -> distinctKeys (fst (processItem calcRevenue pIndex acc item)).
Proof.
  destruct acc as [seller valid]. unfold processItem, distinctKeys.
  destruct (pIndex (item_sku item)) as [product |]; [| auto].
  destruct (calcRevenue item product); [| auto].
  simpl. apply addQuantity_NoDup.
Qed.

Lemma processItems_distinctKeys (calcRevenue : RevenueStrategy)
      (pIndex : string -> option Product) (l : list Item) (acc : SellerStat * nat) :
  distinctKeys (fst acc) ->
  distinctKeys (fst (fold_left (processItem calcRevenue pIndex) l acc)).
Proof.
  revert acc; induction l as [| item t IH]; intros acc H; [exact H |].
  cbn [fold_left]. apply IH, processItem_distinctKeys, H.
Qed.

Lemma Forall_setAt {A : Type} (P : A -> Prop) (k : nat) (x : A) (l : list A) :
  P x -> Forall P l -> Forall P (setAt k x l).
Proof.
  intros Hx H. revert k. induction H as [| y t Hy Ht IH]; intros [| k]; simpl;
    constructor; auto.
Qed.

Lemma processRecord_distinctKeys (calcRevenue : RevenueStrategy)
      (pIndex : string -> option Product) (sIndex : string -> option nat)
      (st : AggState) (record : PurchaseRecord) :
  Forall distinctKeys (sellerStats st) ->
  Forall distinctKeys (sellerStats (processRecord calcRevenue pIndex sIndex st record)).
Proof.
  intros H. unfold processRecord.
  destruct (sIndex (seller_id record)) as [k |]; [| exact H].
  destruct (nth_error (sellerStats st) k) as [seller |] eqn:En; [| exact H].
  pose proof (processItems_distinctKeys calcRevenue pIndex (items record)
                (countReceipt record seller, validPurchasesCount st)) as Hd.
  destruct (fold_left _ _ _) as [seller' valid]. simpl in *.
  apply Forall_setAt; [| exact H]. apply Hd.
  rewrite Forall_forall in H. apply (H seller), (nth_error_In _ _ En).
Qed.

Lemma aggregateAll_distinctKeys (calcRevenue : RevenueStrategy) (ps : list Product)
      (ss : list Seller) (prs : list PurchaseRecord) :
  Forall distinctKeys (sellerStats (aggregateAll calcRevenue ps ss prs)).
Proof.
  unfold aggregateAll, aggregate.
  match goal with |- context [fold_left ?f prs ?st0] =>
    assert (H0 : Forall distinctKeys (sellerStats st0)); [| revert H0; generalize st0] end.
  - simpl. apply Forall_forall. intros s Hs. apply in_map_iff in Hs.
    destruct Hs as (x & <- & _). unfold distinctKeys. simpl. constructor.
  - induction prs as [| r t IH]; intros st H; [exact H |].
    cbn [fold_left]. apply IH, processRecord_distinctKeys, H.
Qed.

Lemma soldQuantity_In (sold : list (string * Z)) (k : string) (v : Z) :
  NoDup (map fst sold) -> In (k, v) sold -> soldQuantity k sold = Some v.
Proof.
  induction sold as [| [k' v'] t IH]; simpl; intros Hnd; [intros [] |].
  inversion Hnd as [| ? ? Hk Ht]; subst.
  intros [H | H].
  - injection H as -> ->. rewrite String.eqb_refl. reflexivity.
  - destruct (String.eqb k' k) eqn:E.
    + apply String.eqb_eq in E. subst k'. exfalso. apply Hk.
      apply in_map_iff. exists (k, v). auto.
    + apply IH; assumption.
Qed.

(** *** The entries of [products_sold] *)

Lemma filter_partition_perm {A : Type} (f : A -> bool) (l : list A) :
  Permutation (filter f l ++ filter (fun x => negb (f x)) l) l.
Proof.
  induction l as [| x t IH]; [constructor |].
  cbn [filter]. destruct (f x); cbn [negb app].
  - constructor. exact IH.
  - eapply Permutation_trans; [apply Permutation_sym, Permutation_middle |].
    constructor. exact IH.
Qed.

(** [Object.entries] lists every own property once. *)
Lemma objectEntries_perm {A : Type} (obj : list (string * A)) :
  Permutation (objectEntries obj) obj.
Proof.
  unfold objectEntries.
  eapply Permutation_trans;
    [| apply (filter_partition_perm (fun p : string * A => isArrayIndex (fst p)))].
  apply Permutation_app_tail, sortBy_perm.
Qed.

Lemma objectEntries_length {A : Type} (obj : list (string * A)) :
  List.length (objectEntries obj) = List.length obj.
Proof. apply Permutation_length, objectEntries_perm. Qed.

Lemma objectEntries_NoDup {A : Type} (obj : list (string * A)) :
  NoDup (map fst obj) -> NoDup (map fst (objectEntries obj)).
Proof.
  intros H. eapply Permutation_NoDup; [| exact H].
  apply Permutation_map, Permutation_sym, objectEntries_perm.
Qed.

(** Without array indexes among the keys, the entries come in the order in
    which the keys were created. *)
Lemma objectEntries_creation_order {A : Type} (obj : list (string * A)) :
  (forall p, In p obj -> isArrayIndex (fst p) = false) -> objectEntries obj = obj.
Proof.
  intros H. unfold objectEntries.
  assert (H1 : filter (fun p : string * A => isArrayIndex (fst p)) obj = []).
  { induction obj as [| p t IH]; [reflexivity |].
    cbn [filter]. rewrite (H p) by (left; reflexivity).
    apply IH. intros q Hq. apply H. right. exact Hq. }
  assert (H2 : filter (fun p : string * A => negb (isArrayIndex (fst p))) obj = obj).
  { induction obj as [| p t IH]; [reflexivity |].
    cbn [filter]. rewrite (H p) by (left; reflexivity). cbn [negb]. f_equal.
    apply IH.
    - intros q Hq. apply H. right. exact Hq.
    - clear - H. induction t as [| q t IH]; [reflexivity |].
      cbn [filter]. rewrite (H q) by (right; left; reflexivity).
      apply IH. intros r [<- | Hr]; apply H; [left | right; right]; auto. }
  rewrite H1, H2. reflexivity.
Qed.


(** The keys [b], [10] and [2], created in this order, are listed as [2],
    [10], [b], and so are the top products of equal quantity. *)
Lemma objectEntries_array_indexes_first :
  map fst (objectEntries [("b"%string, 1%Z); ("10"%string, 1%Z); ("2"%string, 1%Z)])
  = ["2"; "10"; "b"]%string /\
  topProducts [("b"%string, 1%Z); ("10"%string, 1%Z); ("2"%string, 1%Z)]
  = ["2"; "10"; "b"]%string.
Proof. split; reflexivity. Qed.

Lemma soldQuantity_None (sold : list (string * Z)) (k : string) :
  ~ In k (map fst sold) -> soldQuantity k sold = None.
Proof.
  induction sold as [| [k' v'] t IH]; simpl; intros H; [reflexivity |].
  destruct (String.eqb_spec k' k) as [E | E]; [tauto |]. apply IH. tauto.
Qed.

Lemma quantityOf_objectEntries (sold : list (string * Z)) (key : string) :
  NoDup (map fst sold) -> quantityOf (objectEntries sold) key = quantityOf sold key.
Proof.
  intros Hnd. unfold quantityOf.
  destruct (in_dec string_dec key (map fst sold)) as [Hin | Hin].
  - apply in_map_iff in Hin. destruct Hin as ([k v] & Hk & Hin). simpl in Hk. subst k.
    rewrite (soldQuantity_In sold key v Hnd Hin).
    rewrite (soldQuantity_In (objectEntries sold) key v); [reflexivity | |].
    + apply objectEntries_NoDup, Hnd.
    + eapply Permutation_in; [apply Permutation_sym, objectEntries_perm | exact Hin].
  - rewrite (soldQuantity_None sold key Hin).
    rewrite soldQuantity_None; [reflexivity |].
    intros H. apply Hin. eapply Permutation_in; [| exact H].
    apply Permutation_map, objectEntries_perm.
Qed.

(** The SKUs kept for a seller, with their quantities. *)
Lemma topProducts_quantities (sold : list (string * Z)) :
  NoDup (map fst sold) ->
  map (quantityOf sold) (topProducts sold)
  = map snd (firstn 10 (sortBy (fun a b : string * Z => (snd b - snd a <=? 0)%Z)
                               (objectEntries sold))).
Proof.
  intros Hnd. unfold topProducts. rewrite map_map.
  apply map_ext_in. intros [k v] Hin. simpl.
  apply In_firstn in Hin. eapply Permutation_in in Hin; [| apply sortBy_perm].
  eapply Permutation_in in Hin; [| apply objectEntries_perm].
  unfold quantityOf. rewrite (soldQuantity_In sold k v Hnd Hin). reflexivity.
Qed.

Lemma StronglySorted_map {A B : Type} (R : A -> A -> Prop) (R' : B -> B -> Prop)
      (f : A -> B) (l : list A) :
  (forall x y, R x y -> R' (f x) (f y)) ->
  StronglySorted R l -> StronglySorted R' (map f l).
Proof.
  intros Hf H. induction H as [| x t Hs IH Hall]; simpl; constructor; [exact IH |].
  apply Forall_forall. intros y Hy. apply in_map_iff in Hy.
  destruct Hy as (z & <- & Hz). rewrite Forall_forall in Hall. apply Hf, Hall, Hz.
Qed.

Lemma topProducts_sorted (sold : list (string * Z)) :
  NoDup (map fst sold) ->
  StronglySorted (fun a b => (b <= a)%Z) (map (quantityOf sold) (topProducts sold)).
Proof.
  intros Hnd. rewrite topProducts_quantities by exact Hnd.
  apply (StronglySorted_map (fun a b : string * Z => (snd b <= snd a)%Z)); [auto |].
  apply StronglySorted_firstn, sortByQuantity_sorted.
Qed.

Lemma topProducts_length (sold : list (string * Z)) :
  List.length (topProducts sold) = Nat.min 10 (List.length sold).
Proof.
  unfold topProducts.
  rewrite length_map, length_firstn, sortBy_length, objectEntries_length. reflexivity.
Qed.

Lemma StronglySorted_of_map {A B : Type} (R : A -> A -> Prop) (R' : B -> B -> Prop)
      (f : A -> B) (l : list A) :
  (forall x y, R' (f x) (f y) -> R x y) ->
  StronglySorted R' (map f l) -> StronglySorted R l.
Proof.
  intros Hf. induction l as [| x t IH]; simpl; intros H; [constructor |].
  inversion H as [| ? ? Hs Hall]; subst. constructor; [apply IH, Hs |].
  apply Forall_forall. intros y Hy. rewrite Forall_forall in Hall.
  apply Hf, Hall, in_map, Hy.
Qed.

Lemma quantityOf_fst (sold : list (string * Z)) (p : string * Z) :
  NoDup (map fst sold) -> In p sold -> quantityOf sold (fst p) = snd p.
Proof.
  intros Hnd Hin. destruct p as [k v]. cbn [fst snd]. unfold quantityOf.
  rewrite (soldQuantity_In sold k v Hnd Hin). reflexivity.
Qed.

Lemma filter_map_fst (sold l : list (string * Z)) (q : Z) :
  NoDup (map fst sold) -> (forall p, In p l -> In p sold) ->
  filter (fun key => (quantityOf sold key =? q)%Z) (map fst l)
  = map fst (filter (fun p => (snd p =? q)%Z) l).
Proof.
  intros Hnd. induction l as [| p t IH]; intros Hin; [reflexivity |].
  cbn [map filter]. rewrite (quantityOf_fst sold p Hnd) by (apply Hin; left; reflexivity).
  rewrite IH by (intros p' Hp'; apply Hin; right; exact Hp').
  destruct (snd p =? q)%Z; reflexivity.
Qed.

(** The top products computed from [products_sold]. *)
Lemma topProducts_firstTen (sold : list (string * Z)) :
  NoDup (map fst sold) -> firstTenByQuantity (objectEntries sold) (topProducts sold).
Proof.
  intros Hnd0.
  split; [rewrite topProducts_length, objectEntries_length; reflexivity |].
  unfold topProducts. set (entries := objectEntries sold).
  assert (Hnd : NoDup (map fst entries)) by (apply objectEntries_NoDup, Hnd0).
  set (sorted := sortBy (fun a b : string * Z => (snd b - snd a <=? 0)%Z) entries).
  assert (Hperm : Permutation sorted entries) by apply sortBy_perm.
  assert (Hin : forall p, In p sorted -> In p entries)
    by (intros p Hp; eapply Permutation_in; eassumption).
  exists (map fst (skipn 10 sorted)).
  rewrite <- map_app, firstn_skipn.
  split; [apply Permutation_map, Hperm |]. split.
  - apply (StronglySorted_of_map _ (fun a b => (b <= a)%Z) (quantityOf entries)); [auto |].
    rewrite map_map.
    rewrite (map_ext_in (fun p => quantityOf entries (fst p)) snd)
      by (intros p Hp; apply quantityOf_fst; auto).
    apply (StronglySorted_map (fun a b : string * Z => (snd b <= snd a)%Z)); [auto |].
    apply sortByQuantity_sorted.
  - intros q. rewrite (filter_map_fst entries sorted q Hnd Hin).
    rewrite (filter_map_fst entries entries q Hnd) by auto.
    f_equal. apply sortBy_stable. intros x y Hx Hy.
    apply Z.eqb_eq in Hx, Hy. apply Z.leb_le. lia.
Qed.

(** C4 (counterexample). Two SKUs sold in equal quantity stay in the order of
    their first sale, here [SKU_2] before [SKU_1], whereas the order by
    ascending numeric suffix puts [SKU_1] first. *)
Lemma top_products_ties_not_ordered_by_sku :
  let sold := [("SKU_2"%string, 2%Z); ("SKU_1"%string, 2%Z)] in
  getNumber "SKU_2" = Some 2%Z /\ getNumber "SKU_1" = Some 1%Z /\
  exists e,
    (analyzeSalesData (Some (twoItemData [itemR; itemP])) (Some defaultOptions) = inr [e]) /\
    (top_products e = ["SKU_2"%string; "SKU_1"%string]) /\
    (map fst (claimedTopProducts sold) = ["SKU_1"%string; "SKU_2"%string]) /\
    (top_products e <> map fst (claimedTopProducts sold)).
Proof.
  cbv zeta. split; [reflexivity |]. split; [reflexivity |].
  eexists. split; [vm_compute; reflexivity |].
  split; [reflexivity |]. split; [reflexivity |].
  vm_compute. discriminate.
Qed.

(** C4 (amended). [top_products] holds SKUs only.  For receipts whose SKUs
    are not names of members of [Object.prototype], the entry at a rank of
    the report belongs to the ranked seller at that rank; when the bonus
    strategy threw for the seller its [top_products] is empty, and otherwise
    it holds the first ten SKUs of the seller's [products_sold] in the order
    of a stable sort by quantity, descending, with no tie-break on the SKU:
    SKUs of equal quantity keep the order of [Object.entries], which is the
    order in which their keys were created when no key is an array index.
    Hence every entry has at most ten top products, and their quantities in
    [products_sold] are non-increasing. *)
Theorem top_products_by_quantity
        (cs : option (list Customer)) (ps : list Product) (ss : list Seller)
        (prs : list PurchaseRecord) (calcRevenue : RevenueStrategy)
        (calcBonus : BonusStrategy) (out : list ReportEntry) :
  ownKeysOnly prs = true ->
  analyzeSalesData (Some (mkData cs (Some ps) (Some ss) (Some prs)))
                   (Some (mkOptions (Function calcRevenue) (Function calcBonus)))
  = inr out ->
  forall index e,
    nth_error out index = Some e ->
    exists seller,
      nth_error (rankedSellers calcRevenue ps ss prs) index = Some seller /\
      out_seller_id e = stat_id seller /\
      NoDup (map fst (products_sold seller)) /\
      List.length (top_products e) <= 10 /\
      StronglySorted (fun a b => (b <= a)%Z)
                     (map (quantityOf (products_sold seller)) (top_products e)) /\
      match calcBonus (Z.of_nat index)
                      (Z.of_nat (List.length (rankedSellers calcRevenue ps ss prs)))
                      seller with
      | None => top_products e = []
      | Some _ =>
          firstTenByQuantity (objectEntries (products_sold seller)) (top_products e)
      end /\
      (forall key, quantityOf (objectEntries (products_sold seller)) key
                   = quantityOf (products_sold seller) key) /\
      ((forall key, In key (map fst (products_sold seller)) -> isArrayIndex key = false) ->
       objectEntries (products_sold seller) = products_sold seller).
Proof.
  intros _ H index e He.
  apply analyzeSalesData_inr in H.
  destruct H as (cs' & ps' & ss' & prs' & cr & cb & Hd & Ho & _ & _ & _ & H).
  injection Hd as <- <- <- <-. injection Ho as <- <-.
  apply report_inr in H. cbv zeta in H. subst out.
  destruct (nth_error (rankedSellers calcRevenue ps ss prs) index) as [seller |] eqn:En.
  2:{ apply nth_error_None in En.
      assert (Hlt : index < List.length
                              (rank calcBonus (List.length (rankedSellers calcRevenue ps ss prs))
                                    0 (rankedSellers calcRevenue ps ss prs)))
        by (apply nth_error_Some; congruence).
      rewrite rank_length in Hlt. lia. }
  rewrite (rank_nth_error _ _ _ _ _ _ En) in He. injection He as <-.
  cbn [Nat.add].
  assert (Hkeys : distinctKeys seller).
  { apply nth_error_In in En. unfold rankedSellers, sortByProfit in En.
    eapply Permutation_in in En; [| apply sortBy_perm].
    unfold withSales in En. apply filter_In in En. destruct En as [Hin _].
    pose proof (aggregateAll_distinctKeys calcRevenue ps ss prs) as Hall.
    rewrite Forall_forall in Hall. apply Hall, Hin. }
  exists seller. split; [reflexivity |]. split; [reflexivity |].
  split; [exact Hkeys |].
  assert (Hentries :
            (forall key, quantityOf (objectEntries (products_sold seller)) key
                         = quantityOf (products_sold seller) key) /\
            ((forall key, In key (map fst (products_sold seller)) ->
                          isArrayIndex key = false) ->
             objectEntries (products_sold seller) = products_sold seller)).
  { split; [intros key; apply quantityOf_objectEntries, Hkeys |].
    intros Hplain. apply objectEntries_creation_order.
    intros p Hp. apply Hplain, in_map, Hp. }
  unfold toEntry, rateSeller. cbn [top_products].
  destruct (calcBonus _ _ seller); cbn [snd].
  - split; [rewrite topProducts_length; apply Nat.le_min_l |].
    split; [apply topProducts_sorted, Hkeys |].
    split; [apply topProducts_firstTen, Hkeys | exact Hentries].
  - split; [simpl; lia |]. split; [constructor |]. split; [reflexivity | exact Hentries].
Qed.

Lemma top_products_by_quantity_witness :
  exists e seller,
    analyzeSalesData (Some (twoItemData [itemR; itemP])) (Some defaultOptions) = inr [e] /\
    top_products e = ["SKU_2"; "SKU_1"]%string /\
    products_sold seller = [("SKU_2"%string, 2%Z); ("SKU_1"%string, 2%Z)] /\
    firstTenByQuantity (objectEntries (products_sold seller)) (top_products e).
Proof.
  eexists.
  match goal with |- exists seller, ?run = inr ?o /\ _ =>
    assert (Hrun : run = inr o) by (vm_compute; reflexivity) end.
  destruct (top_products_by_quantity
              someCustomers [productP; productR] [sellerA]
              [mkRecord "receipt_1" "seller_1" 56 [itemR; itemP]]
              referenceRevenue referenceBonus _ eq_refl Hrun 0 _ eq_refl)
    as (seller & Hn & _ & _ & _ & _ & Htop & _).
  vm_compute in Hn. injection Hn as <-. unfold referenceBonus in Htop.
  match type of Htop with firstTenByQuantity (objectEntries (products_sold ?s)) _ =>
    exists s end.
  split; [exact Hrun |]. split; [reflexivity |]. split; [reflexivity |].
  exact Htop.
Defined.

(** ** The scenario with a sole seller *)



(** ** The sibling variants *)

(** In [part_002] the revenue of a line item is added to the seller's
    revenue, and an exception of the revenue strategy leaves the run. *)
Lemma Part002_processItem_adds_revenue (calcRevenue : RevenueStrategy)
      (productsMap : string -> option Product) (seller : SellerStat) (item : Item)
      (product : Product) (itemRevenue : Q) :
  productsMap (item_sku item) = Some product ->
  calcRevenue item product = Some itemRevenue ->
  exists seller',
    Part002.processItem calcRevenue productsMap seller item = Some seller' /\
    revenue seller' = (revenue seller + itemRevenue)%Q /\
    profit seller'
    = (profit seller + (itemRevenue - purchase_price product * inject_Z (quantity item)))%Q /\
    products_sold seller'
    = addQuantity (item_sku item) (quantity item) (products_sold seller).
Proof.
  intros Hp Hr. unfold Part002.processItem. rewrite Hp, Hr.
  eexists. split; [reflexivity |]. simpl. auto.
Qed.

Lemma Part002_processItem_propagates (calcRevenue : RevenueStrategy)
      (productsMap : string -> option Product) (seller : SellerStat) (item : Item)
      (product : Product) :
  productsMap (item_sku item) = Some product ->
  calcRevenue item product = None ->
  Part002.processItem calcRevenue productsMap seller item = None.
Proof.
  intros Hp Hr. unfold Part002.processItem. rewrite Hp, Hr. reflexivity.
Qed.

(** In [part_002] two SKUs of equal quantity come out with the larger
    numeric suffix first. *)
Lemma Part002_topProducts_ties_descending :
  map fst (Part002.topProducts [("SKU_12"%string, 2%Z); ("SKU_100"%string, 2%Z)])
  = ["SKU_100"%string; "SKU_12"%string].
Proof. reflexivity. Qed.

(** In [part_000] a missing or empty [customers] collection is rejected. *)
Lemma Part000_customers_required (d : Data) :
  customers d = None \/ customers d = Some [] ->
  Part000.checkData (Some d) <> None.
Proof.
  destruct d as [cs ps ss prs]. simpl. intros [-> | ->].
  - discriminate.
  - destruct ps, ss, prs; discriminate.
Qed.

(** * Further properties *)

(** ** Rounding to cents *)

Local Open Scope Q_scope.

Lemma Math_round_comp (x y : Q) : x == y -> Math_round x = Math_round y.
Proof. intros H. unfold Math_round. rewrite H. reflexivity. Qed.

Lemma round2_comp (x y : Q) : x == y -> round2 x == round2 y.
Proof.
  intros H. unfold round2. rewrite (Math_round_comp (x * 100) (y * 100)).
  - reflexivity.
  - rewrite H. reflexivity.
Qed.

(** ** The reference strategies *)

(** X3. For a non-negative price and quantity a larger discount never gives a
    larger revenue; a discount between 0 and 100 gives a revenue between 0
    and the revenue without discount. *)
Theorem calculateSimpleRevenue_discount_monotone
        (sku' : string) (q : Z) (price d1 d2 : Q) (product : Product) :
  0 <= price -> (0 <= q)%Z -> d1 <= d2 ->
  calculateSimpleRevenue (mkItem sku' q price (Some d2)) product
  <= calculateSimpleRevenue (mkItem sku' q price (Some d1)) product /\
  (0 <= d1 -> d2 <= 100 ->
   0 <= calculateSimpleRevenue (mkItem sku' q price (Some d2)) product /\
   calculateSimpleRevenue (mkItem sku' q price (Some d1)) product
   <= calculateSimpleRevenue (mkItem sku' q price None) product).
Proof.
  intros Hp Hq Hd. unfold calculateSimpleRevenue. cbn [discount sale_price quantity].
  assert (Hq' : 0 <= inject_Z q) by (change 0 with (inject_Z 0); rewrite <- Zle_Qle; exact Hq).
  assert (Hpq : 0 <= price * inject_Z q) by (apply Qmult_le_0_compat; assumption).
  set (a := price * inject_Z q) in *.
  assert (Hmono : forall x y, x <= y -> a * (1 - y / 100) <= a * (1 - x / 100)).
  { intros x y Hxy.
    rewrite !(Qmult_comm a). apply Qmult_le_compat_r; [| exact Hpq].
    assert (H : x / 100 <= y / 100).
    { unfold Qdiv. apply Qmult_le_compat_r; [exact Hxy | discriminate]. }
    lra. }
  split; [apply round2_mono, Hmono, Hd |].
  intros H0 H100. split.
  - assert (E : round2 0 == 0) by reflexivity. rewrite <- E.
    apply round2_mono.
    assert (Ez : 0 == a * (1 - 100 / 100)) by field. rewrite Ez.
    apply Hmono, H100.
  - apply round2_mono, Hmono, H0.
Qed.

Lemma calculateSimpleRevenue_discount_monotone_witness :
  calculateSimpleRevenue (mkItem "SKU_1" 2 20 (Some 25)) productP
  <= calculateSimpleRevenue (mkItem "SKU_1" 2 20 (Some 10)) productP.
Proof.
  refine (proj1 (calculateSimpleRevenue_discount_monotone
                   "SKU_1" 2 20 10 25 productP _ _ _));
    [discriminate | lia | discriminate].
Defined.

(** X4. Among the ranked sellers a better place never earns a smaller bonus
    rate, and the rate is one of 0.15, 0.10, 0.05 and 0. *)
Theorem calculateBonusByProfit_rank_monotone (i j n : Z) (s s' : SellerStat) :
  (0 <= i <= j)%Z -> (j < n)%Z ->
  calculateBonusByProfit j n s' <= calculateBonusByProfit i n s /\
  In (calculateBonusByProfit i n s) [15 # 100; 10 # 100; 5 # 100; 0].
Proof.
  intros Hij Hn. unfold calculateBonusByProfit.
  destruct (Z.eqb_spec i 0), (Z.eqb_spec i 1), (Z.eqb_spec i 2), (Z.eqb_spec i (n - 1)),
    (Z.eqb_spec j 0), (Z.eqb_spec j 1), (Z.eqb_spec j 2), (Z.eqb_spec j (n - 1));
    simpl; try lia; (split; [discriminate | tauto]).
Qed.

Lemma calculateBonusByProfit_rank_monotone_witness :
  calculateBonusByProfit 3 5 (initStat sellerB) <= calculateBonusByProfit 1 5 (initStat sellerA).
Proof.
  refine (proj1 (calculateBonusByProfit_rank_monotone
                   1 3 5 (initStat sellerA) (initStat sellerB) _ _)); lia.
Defined.

(** ** The totals of a seller *)

Local Open Scope Q_scope.

Section Totals.
Variable calcRevenue : RevenueStrategy.
Variable pIndex : string -> option Product.
Variable sIndex : string -> option nat.

Lemma quantityOf_addQuantity (key key' : string) (q : Z) (sold : list (string * Z)) :
  quantityOf (addQuantity key q sold) key'
  = (quantityOf sold key' + (if String.eqb key key' then q else 0))%Z.
Proof.
  unfold quantityOf. destruct (String.eqb_spec key key') as [<- | Hne].
  - rewrite soldQuantity_addQuantity. reflexivity.
  - rewrite soldQuantity_addQuantity_other by congruence. lia.
Qed.

Lemma processItem_totals (seller : SellerStat) (valid : nat) (item : Item) :
  let seller' := fst (processItem calcRevenue pIndex (seller, valid) item) in
  profit seller' == profit seller + itemProfitOf calcRevenue pIndex item /\
  forall key,
    quantityOf (products_sold seller') key
    = (quantityOf (products_sold seller) key + soldOf calcRevenue pIndex key item)%Z.
Proof.
  unfold processItem, itemProfitOf, soldOf, validItem.
  destruct (pIndex (item_sku item)) as [product |].
  - destruct (calcRevenue item product) as [itemRevenue |]; simpl.
    + split; [reflexivity |]. intros key. apply quantityOf_addQuantity.
    + split; [lra | intros key; lia].
  - simpl. split; [lra | intros key; lia].
Qed.

Lemma processItems_totals (l : list Item) (seller : SellerStat) (valid : nat) :
  let seller' := fst (fold_left (processItem calcRevenue pIndex) l (seller, valid)) in
  profit seller' == profit seller + sumQ (map (itemProfitOf calcRevenue pIndex) l) /\
  forall key,
    quantityOf (products_sold seller') key
    = (quantityOf (products_sold seller) key
       + sumZ (map (soldOf calcRevenue pIndex key) l))%Z.
Proof.
  revert seller valid; induction l as [| item t IH]; intros seller valid;
    cbn [fold_left map sumQ sumZ fold_right].
  - cbn [fst]. split; [lra | intros key; lia].
  - destruct (processItem calcRevenue pIndex (seller, valid) item) as [s1 v1] eqn:E.
    pose proof (processItem_totals seller valid item) as H. rewrite E in H.
    cbn [fst] in H. destruct H as [Hp Hq].
    destruct (IH s1 v1) as [Hp' Hq']. split.
    + rewrite Hp', Hp. fold (sumQ (map (itemProfitOf calcRevenue pIndex) t)). lra.
    + intros key. rewrite Hq', Hq.
      fold (sumZ (map (soldOf calcRevenue pIndex key) t)). lia.
Qed.


Lemma processRecord_money (st : AggState) (record : PurchaseRecord) (k : nat) (s : SellerStat) :
  nth_error (sellerStats st) k = Some s ->
  exists s',
    nth_error (sellerStats (processRecord calcRevenue pIndex sIndex st record)) k = Some s' /\
    revenue s' == revenue s + (if creditedTo sIndex k record then total_amount record else 0) /\
    profit s' == profit s
                 + (if creditedTo sIndex k record
                    then sumQ (map (itemProfitOf calcRevenue pIndex) (items record))
                    else 0) /\
    forall key,
      quantityOf (products_sold s') key
      = (quantityOf (products_sold s) key
         + (if creditedTo sIndex k record
            then sumZ (map (soldOf calcRevenue pIndex key) (items record))
            else 0))%Z.
Proof.
  intros Hk. unfold processRecord, creditedTo.
  destruct (sIndex (seller_id record)) as [j |].
  2:{ exists s. split; [exact Hk |]. split; [lra |]. split; [lra | intros key; lia]. }
  destruct (Nat.eqb_spec j k) as [-> | Hne].
  - rewrite Hk.
    destruct (processItems_frame calcRevenue pIndex (items record) (countReceipt record s)
                                 (validPurchasesCount st))
      as (seller' & E & _ & _ & Hrev & _).
    pose proof (processItems_totals (items record) (countReceipt record s)
                                    (validPurchasesCount st)) as Ht.
    rewrite E in *. cbn [fst] in Ht. destruct Ht as [Hp Hq].
    exists seller'. cbn [sellerStats].
    split; [eapply nth_error_setAt_eq, Hk |].
    split; [rewrite Hrev; reflexivity |]. split; [exact Hp | exact Hq].
  - destruct (nth_error (sellerStats st) j) as [seller |].
    2:{ exists s. split; [exact Hk |]. split; [lra |]. split; [lra | intros key; lia]. }
    destruct (fold_left _ _ _) as [seller' valid]. cbn [sellerStats].
    exists s. rewrite nth_error_setAt_neq by congruence.
    split; [exact Hk |]. split; [lra |]. split; [lra | intros key; lia].
Qed.

Lemma aggregate_money (records : list PurchaseRecord) (st : AggState) (k : nat) (s : SellerStat) :
  nth_error (sellerStats st) k = Some s ->
  exists s',
    nth_error (sellerStats (aggregate calcRevenue pIndex sIndex st records)) k = Some s' /\
    revenue s' == revenue s + sumQ (map total_amount (receiptsCredited sIndex k records)) /\
    profit s' == profit s
                 + sumQ (map (fun record =>
                                sumQ (map (itemProfitOf calcRevenue pIndex) (items record)))
                             (receiptsCredited sIndex k records)) /\
    forall key,
      quantityOf (products_sold s') key
      = (quantityOf (products_sold s) key
         + sumZ (map (fun record =>
                        sumZ (map (soldOf calcRevenue pIndex key) (items record)))
                     (receiptsCredited sIndex k records)))%Z.
Proof.
  revert st s; induction records as [| r t IH]; intros st s Hk;
    unfold aggregate in *; cbn [fold_left].
  - exists s. split; [exact Hk |]. simpl. split; [lra |]. split; [lra | intros key; lia].
  - destruct (processRecord_money st r k s Hk) as (s1 & Hk1 & Hr1 & Hp1 & Hq1).
    destruct (IH _ _ Hk1) as (s2 & Hk2 & Hr2 & Hp2 & Hq2).
    exists s2. split; [exact Hk2 |].
    unfold receiptsCredited in *. cbn [filter].
    destruct (creditedTo sIndex k r); cbn [map sumQ sumZ fold_right].
    + split; [rewrite Hr2, Hr1 | split; [rewrite Hp2, Hp1 | intros key; rewrite Hq2, Hq1]].
      * fold (sumQ (map total_amount (filter (creditedTo sIndex k) t))). lra.
      * match goal with |- context [fold_right Qplus 0 ?l] => fold (sumQ l) end. lra.
      * match goal with |- context [fold_right Z.add 0%Z ?l] => fold (sumZ l) end. lia.
    + split; [rewrite Hr2, Hr1; lra |].
      split; [rewrite Hp2, Hp1; lra | intros key; rewrite Hq2, Hq1; lia].
Qed.
End Totals.

Lemma aggregateAll_money (calcRevenue : RevenueStrategy) (ps : list Product)
      (ss : list Seller) (prs : list PurchaseRecord) (k : nat) (s' : SellerStat) :
  nth_error (sellerStats (aggregateAll calcRevenue ps ss prs)) k = Some s' ->
  exists s,
    nth_error ss k = Some s /\ stat_id s' = id s /\
    sales_count s' = receiptsOf (sellerIndex (map initStat ss)) k prs /\
    revenue s' == revenueOf ss prs k /\
    profit s' == profitOf calcRevenue ps ss prs k /\
    forall key,
      quantityOf (products_sold s') key = quantitySoldOf calcRevenue ps ss prs k key.
Proof.
  intros Hk.
  assert (Hlt : (k < List.length ss)%nat).
  { rewrite <- (aggregateAll_length calcRevenue ps ss prs).
    apply nth_error_Some. congruence. }
  destruct (nth_error ss k) as [s |] eqn:En.
  2:{ apply nth_error_None in En. lia. }
  exists s. split; [reflexivity |].
  destruct (aggregateAll_stat calcRevenue ps ss prs k s En) as (s1 & H1 & Hid & _ & Hc).
  rewrite Hk in H1. injection H1 as <-.
  split; [exact Hid |]. split; [exact Hc |].
  unfold aggregateAll in Hk.
  destruct (aggregate_money calcRevenue (productIndex ps) (sellerIndex (map initStat ss)) prs
              {| sellerStats := map initStat ss; validPurchasesCount := 0;
                 skippedPurchases := 0 |} k (initStat s))
    as (s2 & H2 & Hr & Hp & Hq).
  { simpl. rewrite nth_error_map, En. reflexivity. }
  rewrite Hk in H2. injection H2 as <-.
  unfold revenueOf, profitOf, quantitySoldOf. simpl in Hr, Hp.
  split; [rewrite Hr; lra |]. split; [rewrite Hp; lra |].
  intros key. rewrite Hq. reflexivity.
Qed.

Lemma In_rankedSellers (calcRevenue : RevenueStrategy) (ps : list Product)
      (ss : list Seller) (prs : list PurchaseRecord) (seller : SellerStat) :
  In seller (rankedSellers calcRevenue ps ss prs) <->
  In seller (sellerStats (aggregateAll calcRevenue ps ss prs)) /\
  (0 < sales_count seller)%nat.
Proof.
  unfold rankedSellers, sortByProfit, withSales. split.
  - intros H. eapply Permutation_in in H; [| apply sortBy_perm].
    apply filter_In in H. rewrite Nat.ltb_lt in H. exact H.
  - intros H. eapply Permutation_in; [apply Permutation_sym, sortBy_perm |].
    apply filter_In. rewrite Nat.ltb_lt. exact H.
Qed.





(** ** The keys of [products_sold] and the top products *)

Local Open Scope nat_scope.

Section Keys.
Variable calcRevenue : RevenueStrategy.
Variable pIndex : string -> option Product.
Variable sIndex : string -> option nat.

Lemma processItem_keys (seller : SellerStat) (valid : nat) (item : Item) (key : string) :
  In key (map fst (products_sold (fst (processItem calcRevenue pIndex (seller, valid) item)))) ->
  In key (map fst (products_sold seller)) \/
  (validItem calcRevenue pIndex item = true /\ item_sku item = key).
Proof.
  unfold processItem, validItem.
  destruct (pIndex (item_sku item)) as [product |]; [| auto].
  destruct (calcRevenue item product); [| auto].
  simpl. intros H. apply In_addQuantity_keys in H. destruct H as [-> | H]; auto.
Qed.

Lemma processItems_keys (l : list Item) (seller : SellerStat) (valid : nat) (key : string) :
  In key (map fst (products_sold
                     (fst (fold_left (processItem calcRevenue pIndex) l (seller, valid))))) ->
  In key (map fst (products_sold seller)) \/
  exists item, In item l /\ validItem calcRevenue pIndex item = true /\ item_sku item = key.
Proof.
  revert seller valid; induction l as [| item t IH]; intros seller valid;
    cbn [fold_left]; [auto |].
  destruct (processItem calcRevenue pIndex (seller, valid) item) as [s1 v1] eqn:E.
  intros H. apply IH in H. destruct H as [H | (it & Hin & Hv & Hk)].
  - pose proof (processItem_keys seller valid item key) as Hs. rewrite E in Hs.
    destruct (Hs H) as [H1 | [H1 H2]]; [auto |].
    right. exists item. simpl. auto.
  - right. exists it. simpl. auto.
Qed.

Lemma processRecord_keys (st : AggState) (record : PurchaseRecord) (k : nat)
      (s : SellerStat) :
  nth_error (sellerStats st) k = Some s ->
  exists s',
    nth_error (sellerStats (processRecord calcRevenue pIndex sIndex st record)) k = Some s' /\
    forall key,
      In key (map fst (products_sold s')) ->
      In key (map fst (products_sold s)) \/
      (creditedTo sIndex k record = true /\
       exists item, In item (items record) /\
                    validItem calcRevenue pIndex item = true /\ item_sku item = key).
Proof.
  intros Hk. unfold processRecord, creditedTo.
  destruct (sIndex (seller_id record)) as [j |]; [| exists s; auto].
  destruct (Nat.eqb_spec j k) as [-> | Hne].
  - rewrite Hk.
    pose proof (processItems_keys (items record) (countReceipt record s)
                                  (validPurchasesCount st)) as H.
    destruct (fold_left _ _ _) as [seller' valid]. cbn [fst sellerStats] in *.
    exists seller'. split; [eapply nth_error_setAt_eq, Hk |].
    intros key Hin. destruct (H key Hin) as [H1 | H1]; auto.
  - destruct (nth_error (sellerStats st) j) as [seller |]; [| exists s; auto].
    destruct (fold_left _ _ _) as [seller' valid]. cbn [sellerStats].
    exists s. rewrite nth_error_setAt_neq by congruence. auto.
Qed.

Lemma aggregate_keys (records : list PurchaseRecord) (st : AggState) (k : nat)
      (s : SellerStat) :
  nth_error (sellerStats st) k = Some s ->
  exists s',
    nth_error (sellerStats (aggregate calcRevenue pIndex sIndex st records)) k = Some s' /\
    forall key,
      In key (map fst (products_sold s')) ->
      In key (map fst (products_sold s)) \/
      exists record item,
        In record records /\ creditedTo sIndex k record = true /\
        In item (items record) /\
        validItem calcRevenue pIndex item = true /\ item_sku item = key.
Proof.
  revert st s; induction records as [| r t IH]; intros st s Hk;
    unfold aggregate in *; cbn [fold_left].
  - exists s. auto.
  - destruct (processRecord_keys st r k s Hk) as (s1 & Hk1 & H1).
    destruct (IH _ _ Hk1) as (s2 & Hk2 & H2).
    exists s2. split; [exact Hk2 |].
    intros key Hin. destruct (H2 key Hin) as [H | (record & item & Hr & H)].
    + destruct (H1 key H) as [H' | (Hc & item & H')]; [auto |].
      right. exists r, item. simpl. tauto.
    + right. exists record, item. simpl. tauto.
Qed.
End Keys.

Lemma NoDup_firstn {A : Type} (n : nat) (l : list A) : NoDup l -> NoDup (firstn n l).
Proof.
  intros H. revert n. induction H as [| x t Hx Ht IH]; intros [| n]; simpl;
    try constructor.
  - intros Hin. apply Hx. eapply In_firstn, Hin.
  - apply IH.
Qed.

Lemma topProducts_keys (sold : list (string * Z)) (x : string) :
  In x (topProducts sold) -> In x (map fst sold).
Proof.
  unfold topProducts. intros H. apply in_map_iff in H.
  destruct H as (p & <- & Hp). apply In_firstn in Hp.
  eapply Permutation_in in Hp; [| apply sortBy_perm].
  eapply Permutation_in in Hp; [| apply objectEntries_perm]. apply in_map, Hp.
Qed.

Lemma topProducts_NoDup (sold : list (string * Z)) :
  NoDup (map fst sold) -> NoDup (topProducts sold).
Proof.
  intros H. unfold topProducts. rewrite <- firstn_map. apply NoDup_firstn.
  apply (Permutation_NoDup (l := map fst (objectEntries sold)));
    [| apply objectEntries_NoDup, H].
  apply Permutation_map, Permutation_sym, sortBy_perm.
Qed.

(** X7. When the receipts name no seller and no SKU by the name of a member
    of [Object.prototype], the top products of a report entry are distinct
    SKUs, each is the SKU of a product of [data.products], and each comes
    from a line item of a receipt that carries the seller's id. *)
Theorem top_products_known_and_distinct
        (cs : option (list Customer)) (ps : list Product) (ss : list Seller)
        (prs : list PurchaseRecord) (calcRevenue : RevenueStrategy)
        (calcBonus : BonusStrategy) (out : list ReportEntry) :
  ownKeysOnly prs = true ->
  analyzeSalesData (Some (mkData cs (Some ps) (Some ss) (Some prs)))
                   (Some (mkOptions (Function calcRevenue) (Function calcBonus)))
  = inr out ->
  forall e, In e out ->
    NoDup (top_products e) /\
    forall x, In x (top_products e) ->
      In x (map sku ps) /\
      exists record item,
        In record prs /\ seller_id record = out_seller_id e /\
        In item (items record) /\ item_sku item = x.
Proof.
  intros _ H e He. apply analyzeSalesData_inr in H.
  destruct H as (cs' & ps' & ss' & prs' & cr & cb & Hd & Ho & _ & _ & _ & H).
  injection Hd as <- <- <- <-. injection Ho as <- <-.
  apply report_inr in H. cbv zeta in H. subst out.
  destruct (In_rank _ _ _ _ _ He) as (seller & index & Hin & ->).
  apply In_rankedSellers in Hin. destruct Hin as [Hin _].
  assert (Hkeys : distinctKeys seller).
  { pose proof (aggregateAll_distinctKeys calcRevenue ps ss prs) as Hall.
    rewrite Forall_forall in Hall. apply Hall, Hin. }
  apply In_nth_error in Hin. destruct Hin as (k & Hk).
  unfold toEntry, rateSeller. cbn [top_products out_seller_id].
  destruct (calcBonus _ _ seller); cbn [snd]; [| split; [constructor | intros x []]].
  split; [apply topProducts_NoDup, Hkeys |].
  intros x Hx. apply topProducts_keys in Hx.
  assert (Hlt : k < List.length ss).
  { rewrite <- (aggregateAll_length calcRevenue ps ss prs).
    apply nth_error_Some. congruence. }
  destruct (nth_error ss k) as [s |] eqn:En.
  2:{ apply nth_error_None in En. lia. }
  unfold aggregateAll in Hk.
  destruct (aggregate_keys calcRevenue (productIndex ps) (sellerIndex (map initStat ss)) prs
              {| sellerStats := map initStat ss; validPurchasesCount := 0;
                 skippedPurchases := 0 |} k (initStat s))
    as (s2 & H2 & Hsub).
  { simpl. rewrite nth_error_map, En. reflexivity. }
  rewrite Hk in H2. injection H2 as <-.
  destruct (Hsub x Hx) as [[] | (record & item & Hr & Hc & Hi & Hv & Hsku)].
  split.
  - apply Decidable.not_not.
    + destruct (in_dec string_dec x (map sku ps)); [left | right]; assumption.
    + intros Hn. apply productIndex_None in Hn. unfold validItem in Hv.
      rewrite Hsku, Hn in Hv. discriminate.
  - exists record, item. repeat split; try assumption.
    unfold creditedTo in Hc.
    destruct (sellerIndex (map initStat ss) (seller_id record)) as [j |] eqn:Ej;
      [| discriminate].
    apply Nat.eqb_eq in Hc. subst j.
    destruct (sellerIndex_Some _ _ _ Ej) as (st & Hst & Hid).
    destruct (aggregate_stat calcRevenue (productIndex ps) (sellerIndex (map initStat ss)) prs
                {| sellerStats := map initStat ss; validPurchasesCount := 0;
                   skippedPurchases := 0 |} k st Hst) as (s3 & H3 & Hid3 & _).
    rewrite Hk in H3. injection H3 as <-. congruence.
Qed.

Lemma top_products_known_and_distinct_witness :
  exists out,
    analyzeSalesData (Some (twoItemData [itemR; itemP; itemUnknown])) (Some defaultOptions)
    = inr out /\
    forall e, In e out ->
      NoDup (top_products e) /\
      forall x, In x (top_products e) -> In x (map sku [productP; productR]).
Proof.
  eexists.
  match goal with |- ?run = inr ?o /\ _ =>
    assert (Hrun : run = inr o) by (vm_compute; reflexivity) end.
  split; [exact Hrun |].
  intros e He.
  destruct (top_products_known_and_distinct
              someCustomers [productP; productR] [sellerA]
              [mkRecord "receipt_1" "seller_1" 56 [itemR; itemP; itemUnknown]]
              referenceRevenue referenceBonus _ eq_refl Hrun e He) as [Hnd Hx].
  split; [exact Hnd |]. intros x Hin. apply (Hx x Hin).
Defined.

(** ** Every receipt is counted once *)

Local Open Scope nat_scope.

Lemma knownSeller_index (ss : list Seller) (record : PurchaseRecord) :
  knownSeller ss record = true <->
  exists k, sellerIndex (map initStat ss) (seller_id record) = Some k.
Proof.
  rewrite <- sellerIndex_known. unfold knownSeller. rewrite existsb_exists. split.
  - intros (s & Hs & E). apply String.eqb_eq in E. rewrite <- E. apply in_map, Hs.
  - intros H. apply in_map_iff in H. destruct H as (s & E & Hs).
    exists s. split; [exact Hs | apply String.eqb_eq, E].
Qed.

Lemma ownKeysOnly_seller (prs : list PurchaseRecord) (record : PurchaseRecord) :
  ownKeysOnly prs = true -> In record prs -> inheritedKey (seller_id record) = false.
Proof.
  unfold ownKeysOnly. rewrite forallb_forall. intros H Hin.
  apply H in Hin. apply andb_true_iff in Hin. destruct Hin as [Hin _].
  apply negb_true_iff, Hin.
Qed.

(** For a [seller_id] that is not the name of an inherited member, the test
    of line 106 skips the receipts of unknown sellers and no others. *)
Lemma skipsRecord_knownSeller (ss : list Seller) (record : PurchaseRecord) :
  inheritedKey (seller_id record) = false ->
  skipsRecord ss record = negb (knownSeller ss record).
Proof.
  intros Hk. destruct (knownSeller ss record) eqn:E; simpl.
  - destruct (skipsRecord ss record) eqn:Es; [| reflexivity].
    apply skipsRecord_true in Es. destruct Es as [Es _]. exfalso. apply Es.
    apply sellerIndex_known, knownSeller_index, E.
  - apply skipsRecord_true. split; [| exact Hk].
    intros Hin. apply sellerIndex_known, knownSeller_index in Hin. congruence.
Qed.

Lemma list_sum_setAt {A : Type} (f : A -> nat) (k : nat) (x y : A) (l : list A) :
  nth_error l k = Some y ->
  list_sum (map f (setAt k x l)) + f y = list_sum (map f l) + f x.
Proof.
  revert k; induction l as [| z t IH]; intros [| k]; simpl; try discriminate.
  - intros H. injection H as ->. lia.
  - intros H. specialize (IH k H). lia.
Qed.

Lemma list_sum_filter_pos {A : Type} (f : A -> nat) (l : list A) :
  list_sum (map f (filter (fun x => 0 <? f x) l)) = list_sum (map f l).
Proof.
  induction l as [| x t IH]; simpl; [reflexivity |].
  destruct (Nat.ltb_spec 0 (f x)); simpl; lia.
Qed.

Lemma list_sum_perm (l l' : list nat) : Permutation l l' -> list_sum l = list_sum l'.
Proof. induction 1; simpl; lia. Qed.

Lemma rank_sales_count (calcBonus : BonusStrategy) (n i0 : nat) (l : list SellerStat) :
  map out_sales_count (rank calcBonus n i0 l) = map sales_count l.
Proof.
  revert i0; induction l as [| s t IH]; intros i0; simpl; [| rewrite IH]; reflexivity.
Qed.

Section Conservation.
Variable calcRevenue : RevenueStrategy.
Variable pIndex : string -> option Product.
Variable sIndex : string -> option nat.

Lemma processRecord_conservation (st : AggState) (record : PurchaseRecord) :
  (forall key k, sIndex key = Some k -> k < List.length (sellerStats st)) ->
  let st' := processRecord calcRevenue pIndex sIndex st record in
  list_sum (map sales_count (sellerStats st'))
  = list_sum (map sales_count (sellerStats st))
    + (match sIndex (seller_id record) with Some _ => 1 | None => 0 end) /\
  skippedPurchases st'
  = skippedPurchases st + (match sIndex (seller_id record) with Some _ => 0 | None => 1 end).
Proof.
  intros Hb. unfold processRecord.
  destruct (sIndex (seller_id record)) as [k |] eqn:E; [| simpl; lia].
  apply Hb in E. apply nth_error_Some in E.
  destruct (nth_error (sellerStats st) k) as [seller |] eqn:En; [| congruence].
  destruct (processItems_frame calcRevenue pIndex (items record)
                               (countReceipt record seller) (validPurchasesCount st))
    as (seller' & -> & _ & _ & _ & Hc).
  cbn [sellerStats skippedPurchases].
  pose proof (list_sum_setAt sales_count k seller' seller _ En) as H.
  simpl in Hc. lia.
Qed.

Lemma aggregate_conservation (records : list PurchaseRecord) (st : AggState) :
  (forall key k, sIndex key = Some k -> k < List.length (sellerStats st)) ->
  let st' := aggregate calcRevenue pIndex sIndex st records in
  list_sum (map sales_count (sellerStats st'))
  = list_sum (map sales_count (sellerStats st))
    + List.length (filter (fun r => match sIndex (seller_id r) with Some _ => true | None => false end) records) /\
  skippedPurchases st'
  = skippedPurchases st
    + List.length (filter (fun r => match sIndex (seller_id r) with Some _ => false | None => true end) records).
Proof.
  revert st; induction records as [| r t IH]; intros st Hb;
    unfold aggregate in *; cbn [fold_left filter]; [simpl; lia |].
  destruct (processRecord_conservation st r Hb) as [H1 H2].
  destruct (IH (processRecord calcRevenue pIndex sIndex st r)) as [H3 H4].
  { intros key k Hk. rewrite processRecord_length. eapply Hb, Hk. }
  cbv zeta in *. rewrite H3, H4, H1, H2.
  destruct (sIndex (seller_id r)); simpl; lia.
Qed.
End Conservation.

(** X8. When the receipts name no seller and no SKU by the name of a member
    of [Object.prototype], a returned report is not empty and has at most one
    entry per seller of [data.sellers], and every receipt is counted exactly
    once: the [sales_count] of the entries add up to the number of receipts
    with the id of a seller of [data.sellers], [skippedPurchases] is the
    number of receipts that the test of line 106 skips, which are the other
    receipts, and together they are all the receipts. *)
Theorem every_receipt_counted_once
        (cs : option (list Customer)) (ps : list Product) (ss : list Seller)
        (prs : list PurchaseRecord) (calcRevenue : RevenueStrategy)
        (calcBonus : BonusStrategy) (out : list ReportEntry) :
  ownKeysOnly prs = true ->
  analyzeSalesData (Some (mkData cs (Some ps) (Some ss) (Some prs)))
                   (Some (mkOptions (Function calcRevenue) (Function calcBonus)))
  = inr out ->
  out <> [] /\
  List.length out <= List.length ss /\
  list_sum (map out_sales_count out) = List.length (filter (knownSeller ss) prs) /\
  skippedPurchases (aggregateAll calcRevenue ps ss prs)
  = List.length (filter (skipsRecord ss) prs) /\
  filter (skipsRecord ss) prs = filter (fun r => negb (knownSeller ss r)) prs /\
  list_sum (map out_sales_count out) + skippedPurchases (aggregateAll calcRevenue ps ss prs)
  = List.length prs.
Proof.
  intros Hown H. apply analyzeSalesData_inr in H.
  assert (Hskips : filter (skipsRecord ss) prs
                   = filter (fun r => negb (knownSeller ss r)) prs).
  { apply filter_ext_in. intros r Hr.
    apply skipsRecord_knownSeller. eapply ownKeysOnly_seller; eassumption. }
  destruct H as (cs' & ps' & ss' & prs' & cr & cb & Hd & Ho & _ & _ & _ & H).
  injection Hd as <- <- <- <-. injection Ho as <- <-.
  pose proof H as Hcases.
  apply report_inr in H. cbv zeta in H.
  assert (Hlen : List.length out = List.length (withSales (aggregateAll calcRevenue ps ss prs))).
  { subst out. rewrite rank_length. unfold rankedSellers, sortByProfit.
    apply sortBy_length. }
  assert (Hne : withSales (aggregateAll calcRevenue ps ss prs) <> []).
  { destruct (report_cases calcRevenue calcBonus ps ss prs) as [[_ E] | [Hpos _]];
      [congruence |].
    apply valid_count_pos_withSales, Hpos. }
  destruct (aggregate_conservation calcRevenue (productIndex ps)
              (sellerIndex (map initStat ss)) prs
              {| sellerStats := map initStat ss; validPurchasesCount := 0;
                 skippedPurchases := 0 |}) as [Hsum Hskip].
  { intros key k Hk. simpl. rewrite length_map. eapply sellerIndex_bound, Hk. }
  cbv zeta in Hsum, Hskip. fold (aggregateAll calcRevenue ps ss prs) in Hsum, Hskip.
  assert (Hzero : list_sum (map sales_count (map initStat ss)) = 0).
  { clear. induction ss as [| s t IH]; simpl; auto. }
  cbn [sellerStats skippedPurchases] in Hsum, Hskip. rewrite Hzero in Hsum.
  assert (Hknown : forall l : list PurchaseRecord,
             filter (fun r => match sellerIndex (map initStat ss) (seller_id r) with Some _ => true | None => false end) l
             = filter (knownSeller ss) l).
  { intros l. apply filter_ext. intros r.
    destruct (sellerIndex (map initStat ss) (seller_id r)) as [k |] eqn:E.
    - symmetry. apply knownSeller_index. eauto.
    - destruct (knownSeller ss r) eqn:Ek; [| reflexivity].
      apply knownSeller_index in Ek. destruct Ek as (k & Ek). congruence. }
  assert (Hunknown : forall l : list PurchaseRecord,
             filter (fun r => match sellerIndex (map initStat ss) (seller_id r) with Some _ => false | None => true end) l
             = filter (fun r => negb (knownSeller ss r)) l).
  { intros l. apply filter_ext. intros r.
    destruct (sellerIndex (map initStat ss) (seller_id r)) as [k |] eqn:E.
    - rewrite (proj2 (knownSeller_index ss r)); eauto.
    - destruct (knownSeller ss r) eqn:Ek; [| reflexivity].
      apply knownSeller_index in Ek. destruct Ek as (k & Ek). congruence. }
  rewrite Hknown in Hsum. rewrite Hunknown in Hskip.
  assert (Hout : list_sum (map out_sales_count out)
                 = List.length (filter (knownSeller ss) prs)).
  { subst out. rewrite rank_sales_count. unfold rankedSellers, sortByProfit.
    rewrite (list_sum_perm _ (map sales_count (withSales (aggregateAll calcRevenue ps ss prs))))
      by (apply Permutation_map, sortBy_perm).
    unfold withSales. rewrite list_sum_filter_pos. simpl in Hsum. lia. }
  split; [intros E; rewrite E in Hlen; destruct (withSales _); [congruence | discriminate] |].
  split.
  { rewrite Hlen. unfold withSales.
    rewrite <- (aggregateAll_length calcRevenue ps ss prs). apply filter_length_le. }
  split; [exact Hout |]. split; [rewrite Hskips; simpl in Hskip; exact Hskip |].
  split; [exact Hskips |].
  rewrite Hout. simpl in Hskip. rewrite Hskip.
  clear. induction prs as [| r t IH]; simpl; [reflexivity |].
  destruct (knownSeller ss r); simpl; lia.
Qed.

Lemma every_receipt_counted_once_witness :
  exists out,
    analyzeSalesData
      (Some (mkData someCustomers (Some [productP]) (Some [sellerA; sellerB])
                    (Some [soleRecord 40; strangerRecord; soleRecord 40])))
      (Some defaultOptions) = inr out /\
    list_sum (map out_sales_count out) = 2 /\
    skippedPurchases
      (aggregateAll referenceRevenue [productP] [sellerA; sellerB]
                    [soleRecord 40; strangerRecord; soleRecord 40]) = 1.
Proof.
  eexists.
  match goal with |- ?run = inr ?o /\ _ =>
    assert (Hrun : run = inr o) by (vm_compute; reflexivity) end.
  split; [exact Hrun |].
  destruct (every_receipt_counted_once
              someCustomers [productP] [sellerA; sellerB]
              [soleRecord 40; strangerRecord; soleRecord 40]
              referenceRevenue referenceBonus _ eq_refl Hrun)
    as (_ & _ & Hsum & Hskip & _).
  split; [exact Hsum | exact Hskip].
Defined.

(** ** Ties and duplicates *)

Local Open Scope nat_scope.

Lemma aggregateAll_ids (calcRevenue : RevenueStrategy) (ps : list Product)
      (ss : list Seller) (prs : list PurchaseRecord) :
  map stat_id (sellerStats (aggregateAll calcRevenue ps ss prs)) = map id ss.
Proof.
  apply nth_error_ext. intros k. rewrite !nth_error_map.
  destruct (nth_error ss k) as [s |] eqn:En.
  - destruct (aggregateAll_stat calcRevenue ps ss prs k s En) as (s' & -> & Hid & _).
    simpl. congruence.
  - apply nth_error_None in En.
    rewrite <- (aggregateAll_length calcRevenue ps ss prs) in En.
    apply nth_error_None in En. rewrite En. reflexivity.
Qed.


Lemma sellerIndex_last (stats : list SellerStat) (key : string) (k k' : nat)
      (s' : SellerStat) :
  sellerIndex stats key = Some k -> k < k' -> nth_error stats k' = Some s' ->
  stat_id s' <> key.
Proof.
  revert k k'; induction stats as [| s t IH]; simpl; intros k k' H Hlt Hn;
    [discriminate |].
  destruct k' as [| k']; [lia |]. simpl in Hn.
  destruct (sellerIndex t key) as [j |] eqn:E.
  - injection H as <-. apply (IH j k' eq_refl); [lia | exact Hn].
  - intros Hid. apply nth_error_In in Hn.
    assert (Hin : In key (map stat_id t)) by (rewrite <- Hid; apply in_map, Hn).
    apply sellerIndex_None in E. contradiction.
Qed.

(** The index holds, under an id, the position of the last seller with that
    id. *)
Lemma sellerIndex_last_position (ss : list Seller) (k' : nat) (s' : Seller) :
  nth_error ss k' = Some s' ->
  (forall j s2, k' < j -> nth_error ss j = Some s2 -> id s2 <> id s') ->
  sellerIndex (map initStat ss) (id s') = Some k'.
Proof.
  intros Hk' Hlast.
  assert (Hin : In (id s') (map id ss)) by (apply in_map, (nth_error_In _ _ Hk')).
  apply sellerIndex_known in Hin. destruct Hin as (j & Hj).
  destruct (sellerIndex_Some _ _ _ Hj) as (st & Hst & Hid).
  rewrite nth_error_map in Hst.
  destruct (nth_error ss j) as [s2 |] eqn:Ej; [| discriminate].
  simpl in Hst. injection Hst as <-. simpl in Hid.
  destruct (Nat.lt_trichotomy j k') as [Hlt | [-> | Hgt]].
  - exfalso. apply (sellerIndex_last _ _ _ k' (initStat s') Hj Hlt).
    + rewrite nth_error_map, Hk'. reflexivity.
    + reflexivity.
  - exact Hj.
  - exfalso. apply (Hlast j s2 Hgt Ej Hid).
Qed.

(** X10. When several sellers of [data.sellers] have the same id, every
    receipt with that id goes to the last of them: the index holds the
    position of the last one, its [sales_count] is the number of receipts
    with the id, and an earlier seller with the id is credited no receipt and
    is not ranked. *)
Theorem duplicate_seller_id_last_wins
        (calcRevenue : RevenueStrategy) (ps : list Product) (ss : list Seller)
        (prs : list PurchaseRecord) (k k' : nat) (s s' : Seller) :
  nth_error ss k = Some s -> nth_error ss k' = Some s' -> k < k' -> id s = id s' ->
  (forall j s2, k' < j -> nth_error ss j = Some s2 -> id s2 <> id s') ->
  let receipts := filter (fun record => String.eqb (seller_id record) (id s)) prs in
  lookupSeller ss (id s) = Own k' /\
  receiptsCredited (sellerIndex (map initStat ss)) k' prs = receipts /\
  receiptsCredited (sellerIndex (map initStat ss)) k prs = [] /\
  exists seller seller',
    nth_error (sellerStats (aggregateAll calcRevenue ps ss prs)) k = Some seller /\
    nth_error (sellerStats (aggregateAll calcRevenue ps ss prs)) k' = Some seller' /\
    sales_count seller = 0 /\
    ~ In seller (rankedSellers calcRevenue ps ss prs) /\
    sales_count seller' = List.length receipts.
Proof.
  intros Hk Hk' Hlt Hid Hlast receipts.
  pose proof (sellerIndex_last_position ss k' s' Hk' Hlast) as Hidx.
  assert (Hcredit : forall record,
             creditedTo (sellerIndex (map initStat ss)) k' record
             = String.eqb (seller_id record) (id s)).
  { intros record. unfold creditedTo.
    destruct (String.eqb_spec (seller_id record) (id s)) as [E | E].
    - rewrite E, Hid, Hidx. apply Nat.eqb_refl.
    - destruct (sellerIndex (map initStat ss) (seller_id record)) as [j |] eqn:Ej;
        [| reflexivity].
      apply Nat.eqb_neq. intros ->.
      destruct (sellerIndex_Some _ _ _ Ej) as (st & Hst & Hkey).
      rewrite nth_error_map, Hk' in Hst. injection Hst as <-. simpl in Hkey.
      congruence. }
  assert (Hnone : receiptsCredited (sellerIndex (map initStat ss)) k prs = []).
  { unfold receiptsCredited.
    destruct (filter (creditedTo (sellerIndex (map initStat ss)) k) prs) as [| r t] eqn:E;
      [reflexivity |].
    assert (Hin : In r (filter (creditedTo (sellerIndex (map initStat ss)) k) prs))
      by (rewrite E; left; reflexivity).
    apply filter_In in Hin. destruct Hin as [_ Hc]. unfold creditedTo in Hc.
    destruct (sellerIndex (map initStat ss) (seller_id r)) as [j |] eqn:Ej;
      [| discriminate].
    apply Nat.eqb_eq in Hc. subst j. exfalso.
    destruct (sellerIndex_Some _ _ _ Ej) as (st & Hst & Hkey).
    rewrite nth_error_map, Hk in Hst. injection Hst as <-. simpl in Hkey.
    apply (sellerIndex_last _ _ _ k' (initStat s') Ej Hlt).
    - rewrite nth_error_map, Hk'. reflexivity.
    - simpl. congruence. }
  split; [unfold lookupSeller, getProperty; rewrite Hid, Hidx; reflexivity |].
  split; [unfold receiptsCredited, receipts; apply filter_ext, Hcredit |].
  split; [exact Hnone |].
  destruct (aggregateAll_stat calcRevenue ps ss prs k s Hk) as (seller & Hn & _ & _ & Hc).
  destruct (aggregateAll_stat calcRevenue ps ss prs k' s' Hk') as (seller' & Hn' & _ & _ & Hc').
  exists seller, seller'. split; [exact Hn |]. split; [exact Hn' |].
  assert (Hzero : sales_count seller = 0).
  { rewrite Hc. unfold receiptsOf. fold (receiptsCredited (sellerIndex (map initStat ss)) k prs).
    rewrite Hnone. reflexivity. }
  split; [exact Hzero |]. split.
  - intros Hin. apply In_rankedSellers in Hin. lia.
  - rewrite Hc'. unfold receiptsOf, receipts. f_equal. apply filter_ext, Hcredit.
Qed.

Lemma duplicate_seller_id_last_wins_witness :
  lookupSeller [sellerA; mkSeller "seller_1" "Other" "Name"] "seller_1" = Own 1 /\
  receiptsCredited (sellerIndex (map initStat [sellerA; mkSeller "seller_1" "Other" "Name"]))
                   1 [soleRecord 40; strangerRecord]
  = [soleRecord 40] /\
  receiptsCredited (sellerIndex (map initStat [sellerA; mkSeller "seller_1" "Other" "Name"]))
                   0 [soleRecord 40; strangerRecord]
  = [].
Proof.
  destruct (duplicate_seller_id_last_wins
              referenceRevenue [productP]
              [sellerA; mkSeller "seller_1" "Other" "Name"] [soleRecord 40; strangerRecord]
              0 1 sellerA (mkSeller "seller_1" "Other" "Name"))
    as (H1 & H2 & H3 & _); try reflexivity; [lia | |].
  - intros [| [| [| j]]] s2 Hj Hn; try lia; discriminate.
  - split; [exact H1 |]. split; [exact H2 | exact H3].
Defined.

(** X11. The lookup of a SKU in the product index finds the last product of
    [data.products] with the SKU; when no product has it, it finds the
    inherited member if the SKU is the name of a member of
    [Object.prototype], and nothing otherwise.  So the test of line 122 skips
    a line item exactly when no product has its SKU and the SKU is no such
    name. *)
Theorem lookupProduct_last_wins (ps : list Product) (key : string) :
  match lookupProduct ps key with
  | Own product =>
      exists pre post,
        ps = pre ++ product :: post /\ sku product = key /\
        forall p', In p' post -> sku p' <> key
  | Inherited => (forall p, In p ps -> sku p <> key) /\ In key objectPrototypeMembers
  | Absent => (forall p, In p ps -> sku p <> key) /\ ~ In key objectPrototypeMembers
  end /\
  (isMissing (lookupProduct ps key) = true <->
   (forall p, In p ps -> sku p <> key) /\ ~ In key objectPrototypeMembers).
Proof.
  assert (Hnone : productIndex ps key = None -> forall p, In p ps -> sku p <> key).
  { intros E p Hin Hp. apply productIndex_None in E. apply E.
    rewrite <- Hp. apply in_map, Hin. }
  unfold lookupProduct, getProperty.
  destruct (productIndex ps key) as [product |] eqn:E.
  - split; [apply productIndex_Some_last, E |].
    simpl. split; [discriminate |]. intros [H _]. exfalso.
    apply productIndex_Some_last in E. destruct E as (pre & post & -> & Hk & _).
    apply (H product); [apply in_or_app; right; left; reflexivity | exact Hk].
  - destruct (inheritedKey key) eqn:Ek; simpl.
    + apply inheritedKey_In in Ek. split; [auto |].
      split; [discriminate | intros [_ H]; contradiction].
    + assert (Hk : ~ In key objectPrototypeMembers).
      { intros H. apply inheritedKey_In in H. congruence. }
      split; [auto |]. split; auto.
Qed.

(** ** The reference bonus in a report *)

Local Open Scope nat_scope.




(** ** The order of the checks *)

(** X13. The checks are made in a fixed order and the first one that fails
    decides the error: the input-data error exactly when [data] is not
    valid; otherwise the missing-options error exactly when [options] is
    absent; otherwise the missing-strategies error exactly when one of the
    two strategies is missing or falsy; otherwise the not-a-function error
    exactly when one of them is not callable. *)
Theorem validation_errors_in_order (data : option Data) (options : option Options) :
  let run := analyzeSalesData data options in
  (run = inl InvalidInputData <-> validData data = false) /\
  (run = inl OptionsMissing <-> validData data = true /\ options = None) /\
  (run = inl StrategiesMissing <->
   validData data = true /\
   exists o, options = Some o /\
             (isUndefined (calculateRevenue o) || isUndefined (calculateBonus o)) = true) /\
  (run = inl StrategiesNotFunctions <->
   validData data = true /\
   exists o, options = Some o /\
             (isUndefined (calculateRevenue o) || isUndefined (calculateBonus o)) = false /\
             (isFunction (calculateRevenue o) && isFunction (calculateBonus o)) = false).
Proof.
  cbv zeta. unfold analyzeSalesData, validData.
  destruct data as [[cs [ps |] [ss |] [prs |]] |];
    cbn [purchase_records products sellers];
    try (repeat split; intros; try tauto; try discriminate;
         match goal with
         | H : _ /\ _ |- _ => destruct H as [H _]; discriminate
         end).
  destruct (isEmpty prs || isEmpty ps || isEmpty ss) eqn:Ee; cbn [negb].
  { repeat split; intros; try tauto; try discriminate;
      match goal with
      | H : _ /\ _ |- _ => destruct H as [H _]; discriminate
      end. }
  destruct options as [[[| | calcRevenue] [| | calcBonus]] |];
    cbn [calculateRevenue calculateBonus isUndefined isFunction orb andb];
    try (repeat split; intros; try discriminate; try tauto; eauto;
         match goal with
         | H : _ /\ (exists _, _) |- _ =>
             destruct H as [_ (o & Ho & H)];
             try injection Ho as <-; try discriminate;
             cbn [calculateRevenue calculateBonus isUndefined isFunction orb andb] in H;
             intuition discriminate
         | H : _ /\ _ = _ |- _ => destruct H as [_ H]; discriminate
         end).
  destruct (report_cases calcRevenue calcBonus ps ss prs) as [[_ ->] | [_ [out ->]]];
    repeat split; intros; try discriminate; try tauto;
    match goal with
    | H : _ /\ (exists _, _) |- _ =>
        destruct H as [_ (o & Ho & H)];
        try injection Ho as <-; try discriminate;
        cbn [calculateRevenue calculateBonus isUndefined isFunction orb andb] in H;
        intuition discriminate
    | H : _ /\ _ = _ |- _ => destruct H as [_ H]; discriminate
    end.
Qed.

(** ** The strategies of the sibling variants *)

Local Open Scope Q_scope.

Lemma toFixed2_nonneg (x : Q) : 0 <= x -> Part002.toFixed2 x = round2 x.
Proof.
  intros H. unfold Part002.toFixed2, round2, Math_round.
  apply Qle_bool_iff in H. rewrite H. reflexivity.
Qed.

Lemma toFixed2_neg (x : Q) : x < 0 -> Part002.toFixed2 x = - round2 (- x).
Proof.
  intros H. unfold Part002.toFixed2, round2, Math_round.
  destruct (Qle_bool 0 x) eqn:E; [| reflexivity].
  apply Qle_bool_iff in E. lra.
Qed.

(** X16. The revenue strategy of [part_000] is [NaN] exactly when the line
    item has no discount, where [main.js] takes the discount as 0; when it
    returns an amount, [main.js] returns that amount rounded to cents. *)
Theorem Part000_calculateSimpleRevenue_unrounded (purchase : Item) (product : Product) :
  (Part000Strategies.calculateSimpleRevenue purchase product = None <->
   discount purchase = None) /\
  (forall revenue,
     Part000Strategies.calculateSimpleRevenue purchase product = Some revenue ->
     calculateSimpleRevenue purchase product == round2 revenue).
Proof.
  unfold Part000Strategies.calculateSimpleRevenue, calculateSimpleRevenue.
  destruct (discount purchase) as [d |]; split; try (split; congruence).
  - intros revenue H. injection H as <-. reflexivity.
  - intros revenue H. discriminate.
Qed.

Lemma Part000_calculateSimpleRevenue_unrounded_witness :
  calculateSimpleRevenue itemP productP
  == round2 (sale_price itemP * inject_Z (quantity itemP) * (1 - 0 / 100)).
Proof.
  apply (proj2 (Part000_calculateSimpleRevenue_unrounded itemP productP)).
  reflexivity.
Defined.

(** X17. The bonus of [part_000] is the seller's profit times the rate of
    [main.js] for the same rank, rounded to cents.  At one rank a larger
    profit never earns a smaller bonus, a profit earns no negative bonus and
    a loss no positive one; the first place earns something for every
    profit of at least four cents, also when it is the last place. *)
Theorem Part000_calculateBonusByProfit_share
        (index total : Z) (seller : SellerStat) :
  Part000Strategies.calculateBonusByProfit index total seller
  == round2 (profit seller * calculateBonusByProfit index total seller) /\
  (forall seller',
     profit seller <= profit seller' ->
     Part000Strategies.calculateBonusByProfit index total seller
     <= Part000Strategies.calculateBonusByProfit index total seller') /\
  (0 <= profit seller ->
   0 <= Part000Strategies.calculateBonusByProfit index total seller) /\
  (profit seller <= 0 ->
   Part000Strategies.calculateBonusByProfit index total seller <= 0) /\
  (index = 0%Z -> 4 # 100 <= profit seller ->
   0 < Part000Strategies.calculateBonusByProfit index total seller).
Proof.
  assert (Hzero : round2 0 == 0) by reflexivity.
  assert (Heq : forall s,
             Part000Strategies.calculateBonusByProfit index total s
             == round2 (profit s * calculateBonusByProfit index total s)).
  { intros s. unfold Part000Strategies.calculateBonusByProfit, calculateBonusByProfit.
    destruct (index =? 0)%Z; [reflexivity |].
    destruct ((index =? 1) || (index =? 2))%Z; [reflexivity |].
    destruct (index =? total - 1)%Z; cbn [negb]; [| reflexivity].
    rewrite (round2_comp (profit s * 0) 0) by ring. reflexivity. }
  assert (Hrate : forall s s', calculateBonusByProfit index total s
                               = calculateBonusByProfit index total s').
  { intros s s'. reflexivity. }
  assert (Hnonneg : 0 <= calculateBonusByProfit index total seller).
  { unfold calculateBonusByProfit.
    destruct (index =? 0)%Z; [discriminate |].
    destruct ((index =? 1) || (index =? 2))%Z; [discriminate |].
    destruct (index =? total - 1)%Z; discriminate. }
  split; [apply Heq |]. split; [| split; [| split]].
  - intros seller' Hle. rewrite (Heq seller), (Heq seller'), (Hrate seller' seller).
    apply round2_mono. apply Qmult_le_compat_r; assumption.
  - intros Hp. rewrite Heq, <- Hzero. apply round2_mono.
    apply Qmult_le_0_compat; assumption.
  - intros Hp. rewrite Heq, <- Hzero. apply round2_mono.
    assert (H := Qmult_le_compat_r _ _ _ Hp Hnonneg).
    rewrite Qmult_0_l in H. exact H.
  - intros -> Hp. unfold Part000Strategies.calculateBonusByProfit.
    cbn [Z.eqb].
    apply Qlt_le_trans with (round2 ((4 # 100) * (15 # 100))); [reflexivity |].
    apply round2_mono. apply Qmult_le_compat_r; [exact Hp | discriminate].
Qed.

Lemma Part000_calculateBonusByProfit_share_witness :
  0 < Part000Strategies.calculateBonusByProfit
        0 1 (mkStat "seller_1" "Alexey Petrov" 0 (4 # 100) 0 []).
Proof.
  refine (proj2 (proj2 (proj2 (proj2
    (Part000_calculateBonusByProfit_share
       0 1 (mkStat "seller_1" "Alexey Petrov" 0 (4 # 100) 0 []))))) _ _).
  - reflexivity.
  - cbn [profit]. apply Qle_refl.
Defined.

(** X18. The bonus of [part_002] is 0 for the last place and beyond,
    whatever the number of sellers; for a better place it is the profit
    times the rate of [main.js], rounded by [toFixed(2)], so it is not
    negative for a profit and not positive for a loss. *)
Theorem Part002_calculateBonusByProfit_amount (index total : Z) (seller : SellerStat) :
  ((total - 1 <= index)%Z ->
   Part002.calculateBonusByProfit index total seller = 0) /\
  ((index < total - 1)%Z ->
   Part002.calculateBonusByProfit index total seller
   = Part002.toFixed2 (profit seller * calculateBonusByProfit index total seller) /\
   (0 <= profit seller -> 0 <= Part002.calculateBonusByProfit index total seller) /\
   (profit seller <= 0 -> Part002.calculateBonusByProfit index total seller <= 0)).
Proof.
  unfold Part002.calculateBonusByProfit, calculateBonusByProfit. split.
  - intros H. destruct (Z.geb_spec index (total - 1)); [reflexivity | lia].
  - intros H. destruct (Z.geb_spec index (total - 1)); [lia |].
    destruct (Z.eqb_spec index (total - 1)); [lia |].
    set (rate := if (index =? 0)%Z then 15 # 100
                 else if ((index =? 1) || (index =? 2))%Z then 10 # 100 else 5 # 100).
    assert (Hrate : 0 <= rate).
    { unfold rate. destruct (index =? 0)%Z; [discriminate |].
      destruct ((index =? 1) || (index =? 2))%Z; discriminate. }
    assert (Erate : (if (index =? 0)%Z then 15 # 100
                     else if ((index =? 1) || (index =? 2))%Z then 10 # 100
                          else 5 # 100) = rate) by reflexivity.
    split.
    { unfold rate. destruct (index =? 0)%Z; [reflexivity |].
      destruct ((index =? 1) || (index =? 2))%Z; reflexivity. }
    split.
    + intros Hp. rewrite toFixed2_nonneg by (apply Qmult_le_0_compat; assumption).
      assert (E : round2 0 == 0) by reflexivity. rewrite <- E.
      apply round2_mono, Qmult_le_0_compat; assumption.
    + intros Hp.
      destruct (Qlt_le_dec (profit seller * rate) 0) as [Hneg | Hnn].
      * rewrite (toFixed2_neg _ Hneg).
        assert (E : round2 0 == 0) by reflexivity.
        assert (Hr0 : round2 0 <= round2 (- (profit seller * rate)))
          by (apply round2_mono; lra).
        lra.
      * rewrite (toFixed2_nonneg _ Hnn).
        assert (Hz : profit seller * rate <= 0).
        { rewrite <- (Qmult_0_l rate). apply Qmult_le_compat_r; assumption. }
        assert (E : round2 0 == 0) by reflexivity. rewrite <- E.
        apply round2_mono. lra.
Qed.

Lemma Part002_calculateBonusByProfit_amount_witness :
  Part002.calculateBonusByProfit 0 1 (initStat sellerA) = 0.
Proof.
  apply (proj1 (Part002_calculateBonusByProfit_amount 0 1 (initStat sellerA))). lia.
Defined.

(** ** The numeric suffix of a SKU *)

Local Open Scope nat_scope.

Lemma substring_all (s : string) : String.substring 0 (String.length s) s = s.
Proof. induction s as [| c t IH]; simpl; [| rewrite IH]; reflexivity. Qed.

Lemma removeFirst_SKU (s : string) : removeFirst "SKU_" ("SKU_" ++ s) = s.
Proof.
  unfold removeFirst. simpl.
  destruct s as [| c t]; simpl.
  - reflexivity.
  - rewrite substring_all. reflexivity.
Qed.

Lemma readDigits_uint (u : Decimal.uint) (acc : option Z) (a : nat) :
  (acc = Some (Z.of_nat a) \/ (acc = None /\ a = 0 /\ u <> Decimal.Nil)) ->
  readDigits (DecimalString.NilEmpty.string_of_uint u) acc
  = Some (Z.of_nat (Nat.of_uint_acc u a)).
Proof.
  revert acc a; induction u; intros acc a H;
    try (cbn [DecimalString.NilEmpty.string_of_uint readDigits Nat.of_uint_acc];
         match goal with
         | |- context [isDigit ?c] => change (isDigit c) with true; cbv iota
         end;
         apply IHu; left; f_equal;
         rewrite Nat.tail_mul_spec;
         match goal with
         | |- context [Z.of_nat (nat_of_ascii ?c - 48)] =>
             let v := eval vm_compute in (Z.of_nat (nat_of_ascii c - 48)) in
             change (Z.of_nat (nat_of_ascii c - 48)) with v
         end;
         destruct H as [-> | (-> & -> & _)]; lia).
  simpl. destruct H as [-> | (_ & _ & Hn)]; [reflexivity | congruence].
Qed.

Lemma parseInt_uint (u : Decimal.uint) :
  u <> Decimal.Nil ->
  parseInt (DecimalString.NilEmpty.string_of_uint u) = Some (Z.of_nat (Nat.of_uint u)).
Proof.
  intros Hn. unfold Nat.of_uint.
  rewrite <- (readDigits_uint u None 0) by auto.
  destruct u; [congruence | | | | | | | | | |]; reflexivity.
Qed.

(** X19. For numbers up to [2^53], which a JavaScript number holds exactly,
    [getNumber] reads back the number written after [SKU_]: for digits [d] it
    returns their decimal value, leading zeros included, and for the SKU of
    [n] it returns [n].  [naturalSKUCompare] of two such SKUs is the
    difference of their numbers, so it orders them as numbers (SKU_12 before
    SKU_100), not as strings. *)
Theorem getNumber_reads_sku_number :
  (forall d, d <> Decimal.Nil ->
             (Z.of_nat (Nat.of_uint d) <= 2 ^ 53)%Z ->
             getNumber (skuOfDigits d) = Some (Z.of_nat (Nat.of_uint d))) /\
  (forall n, (Z.of_nat n <= 2 ^ 53)%Z -> getNumber (skuOf n) = Some (Z.of_nat n)) /\
  (forall m n,
     (Z.of_nat m <= 2 ^ 53)%Z -> (Z.of_nat n <= 2 ^ 53)%Z ->
     Part000Strategies.naturalSKUCompare (skuOf m) (skuOf n)
     = Some (Z.of_nat m - Z.of_nat n)%Z /\
     ((Z.of_nat m - Z.of_nat n < 0)%Z <-> m < n)).
Proof.
  assert (H1 : forall d, d <> Decimal.Nil ->
                         getNumber (skuOfDigits d) = Some (Z.of_nat (Nat.of_uint d))).
  { intros d Hd. unfold getNumber, skuOfDigits.
    rewrite removeFirst_SKU. apply parseInt_uint, Hd. }
  assert (H2 : forall n, getNumber (skuOf n) = Some (Z.of_nat n)).
  { intros n. unfold skuOf. rewrite H1.
    - rewrite DecimalNat.Unsigned.of_to. reflexivity.
    - intros E. pose proof (DecimalNat.Unsigned.of_to n) as Hn.
      rewrite E in Hn. simpl in Hn. subst n. discriminate. }
  split; [intros d Hd _; apply H1, Hd |]. split; [intros n _; apply H2 |].
  intros m n _ _. unfold Part000Strategies.naturalSKUCompare. rewrite !H2.
  split; [reflexivity | lia].
Qed.

Lemma getNumber_reads_sku_number_witness :
  getNumber (skuOfDigits (Decimal.D0 (Decimal.D1 (Decimal.D2 Decimal.Nil)))) = Some 12%Z /\
  Part000Strategies.naturalSKUCompare (skuOf 12) (skuOf 100) = Some (-88)%Z.
Proof.
  destruct getNumber_reads_sku_number as (Hd & _ & Hc).
  split.
  - apply (Hd (Decimal.D0 (Decimal.D1 (Decimal.D2 Decimal.Nil)))); [discriminate |].
    vm_compute. discriminate.
  - apply (Hc 12 100); vm_compute; discriminate.
Defined.

(** ** The pipeline of [part_002] *)

Local Open Scope nat_scope.

Section Part002Facts.
Variable calcRevenue : RevenueStrategy.
Variable productsMap : string -> option Product.
Variable sellersMap : string -> option nat.

Lemma Part002_processItem_agrees (a a' m : SellerStat) (valid : nat) (item : Item) :
  Part002.processItem calcRevenue productsMap a item = Some a' ->
  sameButRevenue a m ->
  sameButRevenue a' (fst (processItem calcRevenue productsMap (m, valid) item)) /\
  (revenue a' == revenue a + itemRevenueOf calcRevenue productsMap item)%Q.
Proof.
  unfold Part002.processItem, processItem, itemRevenueOf, sameButRevenue.
  intros H (H1 & H2 & H3 & H4 & H5).
  destruct (productsMap (item_sku item)) as [product |].
  - destruct (calcRevenue item product) as [r |]; [| discriminate].
    injection H as <-. simpl. rewrite H3, H5. split; [auto | reflexivity].
  - injection H as <-. simpl. split; [auto | lra].
Qed.

Lemma Part002_processItems_agrees (l : list Item) (a a' m : SellerStat) (valid : nat) :
  Part002Pipeline.processItems calcRevenue productsMap a l = Some a' ->
  sameButRevenue a m ->
  sameButRevenue a' (fst (fold_left (processItem calcRevenue productsMap) l (m, valid))) /\
  (revenue a' == revenue a + sumQ (map (itemRevenueOf calcRevenue productsMap) l))%Q.
Proof.
  revert a m valid; induction l as [| item t IH]; intros a m valid H HR;
    cbn [Part002Pipeline.processItems fold_left map sumQ fold_right] in *.
  - injection H as <-. split; [exact HR | lra].
  - destruct (Part002.processItem calcRevenue productsMap a item) as [a1 |] eqn:E;
      [| discriminate].
    destruct (Part002_processItem_agrees a a1 m valid item E HR) as [HR1 Hrev1].
    destruct (processItem calcRevenue productsMap (m, valid) item) as [m1 v1] eqn:Em.
    destruct (IH a1 m1 v1 H HR1) as [HR2 Hrev2].
    split; [exact HR2 |].
    rewrite Hrev2, Hrev1.
    fold (sumQ (map (itemRevenueOf calcRevenue productsMap) t)). lra.
Qed.

Lemma Part002_processItems_throws (l : list Item) (a : SellerStat) (item : Item)
      (product : Product) :
  In item l -> productsMap (item_sku item) = Some product ->
  calcRevenue item product = None ->
  Part002Pipeline.processItems calcRevenue productsMap a l = None.
Proof.
  revert a; induction l as [| x t IH]; intros a Hin Hp Hr; [contradiction |].
  cbn [Part002Pipeline.processItems]. destruct Hin as [-> | Hin].
  - rewrite (Part002_processItem_propagates calcRevenue productsMap a item product Hp Hr).
    reflexivity.
  - destruct (Part002.processItem calcRevenue productsMap a x); [| reflexivity].
    apply IH; assumption.
Qed.

Lemma Part002_processItems_returns (l : list Item) (a : SellerStat) :
  (forall item product, calcRevenue item product <> None) ->
  exists a', Part002Pipeline.processItems calcRevenue productsMap a l = Some a'.
Proof.
  intros Hnever. revert a; induction l as [| x t IH]; intros a;
    cbn [Part002Pipeline.processItems]; [eauto |].
  unfold Part002.processItem.
  destruct (productsMap (item_sku x)) as [product |]; [| apply IH].
  destruct (calcRevenue x product) as [r |] eqn:E; [apply IH |].
  exfalso. eapply Hnever, E.
Qed.

Lemma Forall2_nth_error_l {A B : Type} (R : A -> B -> Prop) (l : list A) (m : list B)
      (k : nat) (a : A) :
  Forall2 R l m -> nth_error l k = Some a ->
  exists b, nth_error m k = Some b /\ R a b.
Proof.
  intros H. revert k. induction H as [| x y l m Hxy H IH]; intros [| k]; simpl;
    try discriminate.
  - intros E. injection E as <-. eauto.
  - apply IH.
Qed.

Lemma Forall2_setAt {A B : Type} (R : A -> B -> Prop) (l : list A) (m : list B)
      (k : nat) (a : A) (b : B) :
  Forall2 R l m -> R a b -> Forall2 R (setAt k a l) (setAt k b m).
Proof.
  intros H Hab. revert k. induction H as [| x y l m Hxy H IH]; intros [| k]; simpl;
    constructor; auto.
Qed.

Lemma Part002_processRecord_agrees (la la' : list SellerStat) (st : AggState)
      (purchase : PurchaseRecord) :
  Part002Pipeline.processRecord calcRevenue productsMap sellersMap la purchase = Some la' ->
  Forall2 sameButRevenue la (sellerStats st) ->
  Forall2 sameButRevenue la'
          (sellerStats (processRecord calcRevenue productsMap sellersMap st purchase)).
Proof.
  unfold Part002Pipeline.processRecord, processRecord. intros H HF.
  destruct (sellersMap (seller_id purchase)) as [k |]; [| injection H as <-; exact HF].
  destruct (nth_error la k) as [a |] eqn:Ea.
  - destruct (Forall2_nth_error_l _ _ _ _ _ HF Ea) as (m & Em & HR).
    rewrite Em.
    destruct (Part002Pipeline.processItems calcRevenue productsMap
                (Part002Pipeline.countReceipt a) (items purchase)) as [a' |] eqn:E;
      [| discriminate].
    injection H as <-.
    assert (HR' : sameButRevenue (Part002Pipeline.countReceipt a) (countReceipt purchase m)).
    { destruct HR as (H1 & H2 & H3 & H4 & H5). unfold sameButRevenue. simpl.
      repeat split; congruence. }
    destruct (Part002_processItems_agrees _ _ _ _ (validPurchasesCount st) E HR')
      as [HR2 _].
    destruct (fold_left _ _ _) as [m' valid]. cbn [fst sellerStats] in *.
    apply Forall2_setAt; assumption.
  - injection H as <-.
    assert (Em : nth_error (sellerStats st) k = None).
    { apply nth_error_None. rewrite <- (Forall2_length HF). apply nth_error_None, Ea. }
    rewrite Em. exact HF.
Qed.

Lemma Part002_processRecord_length (la la' : list SellerStat) (purchase : PurchaseRecord) :
  Part002Pipeline.processRecord calcRevenue productsMap sellersMap la purchase = Some la' ->
  List.length la' = List.length la.
Proof.
  unfold Part002Pipeline.processRecord. intros H.
  destruct (sellersMap (seller_id purchase)) as [k |]; [| congruence].
  destruct (nth_error la k) as [a |]; [| congruence].
  destruct (Part002Pipeline.processItems _ _ _ _); [| discriminate].
  injection H as <-. apply setAt_length.
Qed.


Lemma Part002_processRecords_agrees (prs : list PurchaseRecord) (la la' : list SellerStat)
      (st : AggState) :
  Part002Pipeline.processRecords calcRevenue productsMap sellersMap la prs = Some la' ->
  Forall2 sameButRevenue la (sellerStats st) ->
  Forall2 sameButRevenue la'
          (sellerStats (aggregate calcRevenue productsMap sellersMap st prs)).
Proof.
  revert la st; induction prs as [| r t IH]; intros la st H HF;
    unfold aggregate in *; cbn [Part002Pipeline.processRecords fold_left] in *.
  - injection H as <-. exact HF.
  - destruct (Part002Pipeline.processRecord calcRevenue productsMap sellersMap la r)
      as [la1 |] eqn:E; [| discriminate].
    eapply IH; [exact H |]. eapply Part002_processRecord_agrees; eassumption.
Qed.


Lemma Part002_processRecords_throws (prs : list PurchaseRecord) (la : list SellerStat)
      (record : PurchaseRecord) (item : Item) (product : Product) (k : nat) :
  (forall key j, sellersMap key = Some j -> j < List.length la) ->
  In record prs -> sellersMap (seller_id record) = Some k ->
  In item (items record) -> productsMap (item_sku item) = Some product ->
  calcRevenue item product = None ->
  Part002Pipeline.processRecords calcRevenue productsMap sellersMap la prs = None.
Proof.
  revert la; induction prs as [| r t IH]; intros la Hb Hin Hk Hi Hp Hr; [contradiction |].
  cbn [Part002Pipeline.processRecords].
  destruct (Part002Pipeline.processRecord calcRevenue productsMap sellersMap la r)
    as [la1 |] eqn:E.
  - destruct Hin as [-> | Hin].
    + exfalso. unfold Part002Pipeline.processRecord in E. rewrite Hk in E.
      apply Hb in Hk. apply nth_error_Some in Hk.
      destruct (nth_error la k) as [a |]; [| congruence].
      rewrite (Part002_processItems_throws _ _ item product Hi Hp Hr) in E. discriminate.
    + apply IH; try assumption.
      intros key j Hj. rewrite (Part002_processRecord_length _ _ _ E). eapply Hb, Hj.
  - reflexivity.
Qed.

Lemma Part002_processRecords_returns (prs : list PurchaseRecord) (la : list SellerStat) :
  (forall item product, calcRevenue item product <> None) ->
  exists la', Part002Pipeline.processRecords calcRevenue productsMap sellersMap la prs = Some la'.
Proof.
  intros Hnever. revert la; induction prs as [| r t IH]; intros la;
    cbn [Part002Pipeline.processRecords]; [eauto |].
  unfold Part002Pipeline.processRecord.
  destruct (sellersMap (seller_id r)) as [k |]; [| apply IH].
  destruct (nth_error la k) as [a |]; [| apply IH].
  destruct (Part002_processItems_returns (items r) (Part002Pipeline.countReceipt a) Hnever)
    as (a' & ->).
  apply IH.
Qed.
End Part002Facts.

Lemma toFixed2_comp (x y : Q) : (x == y)%Q -> (Part002.toFixed2 x == Part002.toFixed2 y)%Q.
Proof.
  intros H. destruct (Qlt_le_dec x 0) as [Hn | Hp].
  - rewrite (toFixed2_neg x Hn), (toFixed2_neg y) by lra.
    rewrite (round2_comp (- x) (- y)) by lra. reflexivity.
  - rewrite (toFixed2_nonneg x Hp), (toFixed2_nonneg y) by lra.
    apply round2_comp, H.
Qed.

Lemma toFixed2_mono (x y : Q) : (x <= y)%Q -> (Part002.toFixed2 x <= Part002.toFixed2 y)%Q.
Proof.
  intros H.
  assert (E0 : (round2 0 == 0)%Q) by reflexivity.
  destruct (Qlt_le_dec x 0) as [Hx | Hx], (Qlt_le_dec y 0) as [Hy | Hy].
  - rewrite (toFixed2_neg x Hx), (toFixed2_neg y Hy).
    assert (Hm : (round2 (- y) <= round2 (- x))%Q) by (apply round2_mono; lra). lra.
  - rewrite (toFixed2_neg x Hx), (toFixed2_nonneg y Hy).
    assert (H1 : (round2 0 <= round2 (- x))%Q) by (apply round2_mono; lra).
    assert (H2 : (round2 0 <= round2 y)%Q) by (apply round2_mono; lra). lra.
  - lra.
  - rewrite (toFixed2_nonneg x Hx), (toFixed2_nonneg y Hy). apply round2_mono, H.
Qed.

Section BonusLoop.
Variable calcBonus : Part002Pipeline.BonusStrategy.

Lemma assignBonuses_nth (total i0 : nat) (l out : list Part002Pipeline.Result) :
  Part002Pipeline.assignBonuses calcBonus total i0 l = Some out ->
  List.length out = List.length l /\
  forall i e,
    nth_error out i = Some e ->
    exists seller,
      nth_error l i = Some seller /\
      calcBonus (Z.of_nat (i0 + i)) (Z.of_nat total) seller
      = Some (Part002Pipeline.res_bonus e) /\
      e = Part002Pipeline.withBonus seller (Part002Pipeline.res_bonus e).
Proof.
  revert i0 out; induction l as [| s t IH]; intros i0 out H;
    cbn [Part002Pipeline.assignBonuses] in H.
  - injection H as <-. split; [reflexivity |]. intros [| i] e He; discriminate.
  - destruct (calcBonus (Z.of_nat i0) (Z.of_nat total) s) as [b |] eqn:Eb; [| discriminate].
    destruct (Part002Pipeline.assignBonuses calcBonus total (S i0) t) as [t' |] eqn:Et;
      [| discriminate].
    injection H as <-. destruct (IH _ _ Et) as [Hlen Hnth].
    split; [simpl; congruence |].
    intros [| i] e He; simpl in He.
    + injection He as <-. exists s. rewrite Nat.add_0_r. simpl. auto.
    + destruct (Hnth i e He) as (seller & H1 & H2 & H3).
      exists seller. rewrite Nat.add_succ_r. simpl. auto.
Qed.

Lemma assignBonuses_returns (total i0 : nat) (l : list Part002Pipeline.Result) :
  (forall index n seller, calcBonus index n seller <> None) ->
  exists out, Part002Pipeline.assignBonuses calcBonus total i0 l = Some out.
Proof.
  intros Hnever. revert i0; induction l as [| s t IH]; intros i0;
    cbn [Part002Pipeline.assignBonuses]; [eauto |].
  destruct (calcBonus (Z.of_nat i0) (Z.of_nat total) s) as [b |] eqn:Eb.
  - destruct (IH (S i0)) as (t' & ->). eauto.
  - exfalso. eapply Hnever, Eb.
Qed.
End BonusLoop.

Lemma Part002_report_inr (calcRevenue : RevenueStrategy)
      (calcBonus : Part002Pipeline.BonusStrategy) (ps : list Product) (ss : list Seller)
      (prs : list PurchaseRecord) (out : list Part002Pipeline.Result) :
  Part002Pipeline.report calcRevenue calcBonus ps ss prs = inr out ->
  exists results sorted,
    Part002Pipeline.processRecords calcRevenue (productIndex ps)
                                   (sellerIndex (map initStat ss)) (map initStat ss) prs
    = Some results /\
    sorted = Part002Pipeline.sortByProfit (map Part002Pipeline.format results) /\
    Part002Pipeline.assignBonuses calcBonus (List.length sorted) 0 sorted = Some out /\
    Forall2 sameButRevenue results (sellerStats (aggregateAll calcRevenue ps ss prs)).
Proof.
  unfold Part002Pipeline.report. intros H.
  destruct (Part002Pipeline.processRecords _ _ _ _ _) as [results |] eqn:E; [| discriminate].
  destruct (Part002Pipeline.assignBonuses _ _ _ _) as [out' |] eqn:Eb; [| discriminate].
  injection H as <-. exists results, (Part002Pipeline.sortByProfit (map Part002Pipeline.format results)).
  repeat split; try assumption.
  unfold aggregateAll.
  eapply Part002_processRecords_agrees; [exact E |]. simpl.
  clear. induction ss as [| s t IH]; simpl; constructor; [| exact IH].
  unfold sameButRevenue. auto.
Qed.

Lemma Part002_analyze_inr (data : option Data) (options : option Part002Pipeline.Options)
      (out : list Part002Pipeline.Result) :
  Part002Pipeline.analyzeSalesData data options = inr out ->
  exists cs ps ss prs o,
    data = Some (mkData cs (Some ps) (Some ss) (Some prs)) /\ options = Some o /\
    ps <> [] /\ ss <> [] /\ prs <> [] /\
    Part002Pipeline.report
      (Part002Pipeline.callRevenue (Part002Pipeline.opt_calculateRevenue o))
      (Part002Pipeline.callBonus (Part002Pipeline.opt_calculateBonus o)) ps ss prs
    = inr out.
Proof.
  unfold Part002Pipeline.analyzeSalesData.
  destruct options as [o |]; [| discriminate].
  destruct (isUndefined _ || isUndefined _); [discriminate |].
  destruct data as [[cs [ps |] [ss |] [prs |]] |]; cbn [sellers products purchase_records];
    try discriminate.
  destruct ss as [| s ss]; [discriminate |].
  destruct ps as [| p ps]; [discriminate |].
  destruct prs as [| r prs]; [discriminate |].
  intros H. exists cs, (p :: ps), (s :: ss), (r :: prs), o.
  repeat split; try discriminate. exact H.
Qed.



(** X21. In [part_002] nothing is caught.  On an input that passes the
    checks, an exception of the revenue strategy for a line item of a known
    seller and a known product ends the run; a strategy that is present but
    not a function passes the check and ends the run when it is called; and
    when no strategy throws, no product and no seller is called [__proto__]
    and the receipts name no seller and no SKU by the name of a member of
    [Object.prototype], a report is returned even if no line item was
    processed. *)
Theorem Part002_exceptions_end_the_run
        (cs : option (list Customer)) (ps : list Product) (ss : list Seller)
        (prs : list PurchaseRecord) (calcRevenue : RevenueStrategy)
        (calcBonus : Part002Pipeline.BonusStrategy) :
  ps <> [] -> ss <> [] -> prs <> [] ->
  let data := Some (mkData cs (Some ps) (Some ss) (Some prs)) in
  (revenueThrows calcRevenue ps ss prs ->
   Part002Pipeline.analyzeSalesData
     data (Some (Part002Pipeline.mkOptions (Function calcRevenue) (Function calcBonus)))
   = inl Part002Pipeline.Thrown) /\
  (Part002Pipeline.analyzeSalesData
     data (Some (Part002Pipeline.mkOptions (Function calcRevenue) NotAFunction))
   = inl Part002Pipeline.Thrown) /\
  (assignableKeys ps ss = true -> ownKeysOnly prs = true ->
   (forall item product, calcRevenue item product <> None) ->
   (forall index total seller, calcBonus index total seller <> None) ->
   exists out,
     Part002Pipeline.analyzeSalesData
       data (Some (Part002Pipeline.mkOptions (Function calcRevenue) (Function calcBonus)))
     = inr out).
Proof.
  intros Hp Hs Hr data. subst data.
  assert (Hrun : forall cb,
             isUndefined cb = false ->
             Part002Pipeline.analyzeSalesData
               (Some (mkData cs (Some ps) (Some ss) (Some prs)))
               (Some (Part002Pipeline.mkOptions (Function calcRevenue) cb))
             = Part002Pipeline.report calcRevenue (Part002Pipeline.callBonus cb) ps ss prs).
  { intros cb Hcb. unfold Part002Pipeline.analyzeSalesData.
    cbn [Part002Pipeline.opt_calculateRevenue Part002Pipeline.opt_calculateBonus
         isUndefined orb sellers products purchase_records].
    rewrite Hcb. destruct ss; [congruence |]. destruct ps; [congruence |].
    destruct prs; [congruence |]. reflexivity. }
  split; [| split].
  - intros (record & item & product & Hin & Hknown & Hi & Hprod & Hnone).
    rewrite Hrun by reflexivity. unfold Part002Pipeline.report.
    apply sellerIndex_known in Hknown. destruct Hknown as (k & Hk).
    rewrite (Part002_processRecords_throws calcRevenue (productIndex ps)
               (sellerIndex (map initStat ss)) prs (map initStat ss)
               record item product k); try assumption; [reflexivity |].
    intros key j Hj. rewrite length_map. eapply sellerIndex_bound, Hj.
  - rewrite Hrun by reflexivity. unfold Part002Pipeline.report.
    destruct (Part002Pipeline.processRecords _ _ _ _ _) as [results |] eqn:E;
      [| reflexivity].
    destruct (Part002Pipeline.sortByProfit (map Part002Pipeline.format results))
      as [| x t] eqn:Es; [| reflexivity].
    exfalso.
    assert (Hlen : List.length (Part002Pipeline.sortByProfit
                                  (map Part002Pipeline.format results))
                   = List.length ss).
    { unfold Part002Pipeline.sortByProfit. rewrite sortBy_length, length_map.
      assert (HF : Forall2 sameButRevenue results
                           (sellerStats (aggregateAll calcRevenue ps ss prs))).
      { unfold aggregateAll. eapply Part002_processRecords_agrees; [exact E |]. simpl.
        clear. induction ss as [| s t IH]; simpl; constructor; [| exact IH].
        unfold sameButRevenue. auto. }
      rewrite (Forall2_length HF). apply aggregateAll_length. }
    rewrite Es in Hlen. destruct ss; [congruence | discriminate].
  - intros _ _ Hrev Hbonus. rewrite Hrun by reflexivity. unfold Part002Pipeline.report.
    destruct (Part002_processRecords_returns calcRevenue (productIndex ps)
                (sellerIndex (map initStat ss)) prs (map initStat ss) Hrev)
      as (results & ->).
    cbn [Part002Pipeline.callBonus].
    match goal with |- context [Part002Pipeline.assignBonuses ?cb ?n ?i ?l] =>
      destruct (assignBonuses_returns cb n i l Hbonus) as (out & ->) end.
    eauto.
Qed.

Lemma Part002_exceptions_end_the_run_witness :
  Part002Pipeline.analyzeSalesData
    (Some (twoItemData [itemP; itemR]))
    (Some (Part002Pipeline.mkOptions (Function failingRevenue)
                                     (Function Part002Pipeline.referenceBonus)))
  = inl Part002Pipeline.Thrown /\
  Part002Pipeline.analyzeSalesData
    (Some (mkData someCustomers (Some [productP]) (Some [sellerA]) (Some [soleRecord 40])))
    (Some part002BadBonus)
  = inl Part002Pipeline.Thrown /\
  exists out,
    Part002Pipeline.analyzeSalesData
      (Some (mkData someCustomers (Some [productP]) (Some [sellerA]) (Some [strangerRecord])))
      (Some part002Options)
    = inr out.
Proof.
  split; [| split].
  - refine (proj1 (Part002_exceptions_end_the_run
                     someCustomers [productP; productR] [sellerA]
                     [mkRecord "receipt_1" "seller_1" 56 [itemP; itemR]]
                     failingRevenue Part002Pipeline.referenceBonus _ _ _) _);
      try discriminate.
    exists (mkRecord "receipt_1" "seller_1" 56 [itemP; itemR]), itemR, productR.
    split; [left; reflexivity |]. split; [left; reflexivity |].
    split; [right; left; reflexivity |]. split; reflexivity.
  - refine (proj1 (proj2 (Part002_exceptions_end_the_run
                            someCustomers [productP] [sellerA] [soleRecord 40]
                            referenceRevenue Part002Pipeline.referenceBonus _ _ _)));
      discriminate.
  - refine (proj2 (proj2 (Part002_exceptions_end_the_run
                            someCustomers [productP] [sellerA] [strangerRecord]
                            referenceRevenue Part002Pipeline.referenceBonus _ _ _))
                  _ _ _ _);
      try discriminate; reflexivity.
Defined.



Lemma Part002_bonus_cases (index total : Z) (seller : SellerStat) :
  ((total - 1 <= index)%Z -> Part002.calculateBonusByProfit index total seller = 0%Q) /\
  ((index < total - 1)%Z ->
   forall s,
     Part002.calculateBonusByProfit index total seller
     = Part002.toFixed2 (profit seller * calculateBonusByProfit index total s)).
Proof.
  unfold Part002.calculateBonusByProfit, calculateBonusByProfit. split.
  - intros H. destruct (Z.geb_spec index (total - 1)); [reflexivity | lia].
  - intros H s. destruct (Z.geb_spec index (total - 1)); [lia |].
    destruct (Z.eqb_spec index (total - 1)); [lia |].
    destruct (index =? 0)%Z; [reflexivity |].
    destruct ((index =? 1) || (index =? 2))%Z; reflexivity.
Qed.

(** X23. With the reference bonus of [part_002] the last entry of a report
    has bonus 0 for every number of sellers, a sole seller included; every
    other entry has its reported profit times the rate of its rank, rounded
    by [toFixed(2)]. *)
Theorem Part002_last_place_no_bonus
        (data : option Data) (calcRevenue : JsValue RevenueStrategy)
        (out : list Part002Pipeline.Result) :
  Part002Pipeline.analyzeSalesData
    data (Some (Part002Pipeline.mkOptions calcRevenue
                                          (Function Part002Pipeline.referenceBonus)))
  = inr out ->
  forall i e,
    nth_error out i = Some e ->
    (i = List.length out - 1 -> Part002Pipeline.res_bonus e = 0%Q) /\
    (i < List.length out - 1 ->
     forall s,
       Part002Pipeline.res_bonus e
       = Part002.toFixed2
           (Part002Pipeline.res_profit e
            * calculateBonusByProfit (Z.of_nat i) (Z.of_nat (List.length out)) s)).
Proof.
  intros H i e He. apply Part002_analyze_inr in H.
  destruct H as (cs & ps & ss & prs & o & _ & Ho & _ & _ & _ & H).
  injection Ho as <-.
  cbn [Part002Pipeline.opt_calculateBonus Part002Pipeline.callBonus] in H.
  apply Part002_report_inr in H.
  destruct H as (results & sorted & _ & _ & Hout & _).
  destruct (assignBonuses_nth _ _ _ _ _ Hout) as [Hlen Hnth].
  destruct (Hnth i e He) as (r & Hr & Hb & ->).
  rewrite <- Hlen in Hb. cbn [Nat.add] in Hb.
  unfold Part002Pipeline.referenceBonus in Hb. injection Hb as Hb.
  cbn [Part002Pipeline.withBonus Part002Pipeline.res_bonus Part002Pipeline.res_profit] in *.
  rewrite <- Hb. split.
  - intros Hi. apply (proj1 (Part002_bonus_cases _ _ _)). lia.
  - intros Hi s.
    rewrite (proj2 (Part002_bonus_cases
                      (Z.of_nat i) (Z.of_nat (List.length out))
                      {| stat_id := Part002Pipeline.res_seller_id r;
                         name := Part002Pipeline.res_name r;
                         revenue := Part002Pipeline.res_revenue r;
                         profit := Part002Pipeline.res_profit r;
                         sales_count := Part002Pipeline.res_sales_count r;
                         products_sold := Part002Pipeline.res_top_products r |})
                   ltac:(lia) s).
    reflexivity.
Qed.

Lemma Part002_last_place_no_bonus_witness :
  exists out e,
    Part002Pipeline.analyzeSalesData
      (Some (mkData someCustomers (Some [productP]) (Some [sellerA]) (Some [soleRecord 40])))
      (Some part002Options) = inr out /\
    nth_error out 0 = Some e /\ Part002Pipeline.res_bonus e = 0%Q.
Proof.
  eexists. eexists.
  match goal with |- ?run = inr ?o /\ _ =>
    assert (Hrun : run = inr o) by (vm_compute; reflexivity) end.
  split; [exact Hrun |]. split; [reflexivity |].
  refine (proj1 (Part002_last_place_no_bonus _ _ _ Hrun 0 _ eq_refl) _).
  reflexivity.
Defined.

(** ** The pipeline of [part_000] *)

Local Open Scope nat_scope.

Section Part000Facts.
Variable calcRevenue : RevenueStrategy.
Variable pIndex : string -> option Product.
Variable sIndex : string -> option nat.

Lemma Part000_processItem_agrees (seller seller' : SellerStat) (valid : nat) (item : Item) :
  Part000Pipeline.processItem calcRevenue pIndex seller item = Some seller' ->
  fst (processItem calcRevenue pIndex (seller, valid) item) = seller'.
Proof.
  unfold Part000Pipeline.processItem, processItem.
  destruct (pIndex (item_sku item)) as [product |]; [| intros H; injection H as <-; reflexivity].
  destruct (calcRevenue item product) as [r |]; [| discriminate].
  intros H. injection H as <-. reflexivity.
Qed.

Lemma Part000_processItems_agrees (l : list Item) (seller seller' : SellerStat) (valid : nat) :
  Part000Pipeline.processItems calcRevenue pIndex seller l = Some seller' ->
  fst (fold_left (processItem calcRevenue pIndex) l (seller, valid)) = seller'.
Proof.
  revert seller valid; induction l as [| item t IH]; intros seller valid H;
    cbn [Part000Pipeline.processItems fold_left] in *.
  - injection H as <-. reflexivity.
  - destruct (Part000Pipeline.processItem calcRevenue pIndex seller item) as [s1 |] eqn:E;
      [| discriminate].
    pose proof (Part000_processItem_agrees seller s1 valid item E) as H1.
    destruct (processItem calcRevenue pIndex (seller, valid) item) as [m1 v1].
    cbn [fst] in H1. subst m1. apply IH, H.
Qed.

Lemma Part000_processItems_throws (l : list Item) (seller : SellerStat) (item : Item)
      (product : Product) :
  In item l -> pIndex (item_sku item) = Some product ->
  calcRevenue item product = None ->
  Part000Pipeline.processItems calcRevenue pIndex seller l = None.
Proof.
  revert seller; induction l as [| x t IH]; intros seller Hin Hp Hr; [contradiction |].
  cbn [Part000Pipeline.processItems]. destruct Hin as [-> | Hin].
  - unfold Part000Pipeline.processItem. rewrite Hp, Hr. reflexivity.
  - destruct (Part000Pipeline.processItem calcRevenue pIndex seller x); [| reflexivity].
    apply IH; assumption.
Qed.

Lemma Part000_processItems_returns (l : list Item) (seller : SellerStat) :
  (forall item product, calcRevenue item product <> None) ->
  exists seller', Part000Pipeline.processItems calcRevenue pIndex seller l = Some seller'.
Proof.
  intros Hnever. revert seller; induction l as [| x t IH]; intros seller;
    cbn [Part000Pipeline.processItems]; [eauto |].
  unfold Part000Pipeline.processItem.
  destruct (pIndex (item_sku x)) as [product |]; [| apply IH].
  destruct (calcRevenue x product) as [r |] eqn:E; [apply IH |].
  exfalso. eapply Hnever, E.
Qed.

Lemma Part000_processRecord_agrees (l l' : list SellerStat) (st : AggState)
      (record : PurchaseRecord) :
  Part000Pipeline.processRecord calcRevenue pIndex sIndex l record = Some l' ->
  sellerStats st = l ->
  sellerStats (processRecord calcRevenue pIndex sIndex st record) = l'.
Proof.
  unfold Part000Pipeline.processRecord, processRecord. intros H <-.
  destruct (sIndex (seller_id record)) as [k |]; [| injection H as <-; reflexivity].
  destruct (nth_error (sellerStats st) k) as [seller |]; [| injection H as <-; reflexivity].
  destruct (Part000Pipeline.processItems calcRevenue pIndex (countReceipt record seller)
                                         (items record)) as [seller' |] eqn:E;
    [| discriminate].
  injection H as <-.
  pose proof (Part000_processItems_agrees _ _ _ (validPurchasesCount st) E) as H1.
  destruct (fold_left _ _ _) as [m v]. cbn [fst] in H1. subst m. reflexivity.
Qed.

Lemma Part000_processRecord_length (l l' : list SellerStat) (record : PurchaseRecord) :
  Part000Pipeline.processRecord calcRevenue pIndex sIndex l record = Some l' ->
  List.length l' = List.length l.
Proof.
  unfold Part000Pipeline.processRecord. intros H.
  destruct (sIndex (seller_id record)) as [k |]; [| congruence].
  destruct (nth_error l k) as [a |]; [| congruence].
  destruct (Part000Pipeline.processItems _ _ _ _); [| discriminate].
  injection H as <-. apply setAt_length.
Qed.

Lemma Part000_processRecords_agrees (prs : list PurchaseRecord) (l l' : list SellerStat)
      (st : AggState) :
  Part000Pipeline.processRecords calcRevenue pIndex sIndex l prs = Some l' ->
  sellerStats st = l ->
  sellerStats (aggregate calcRevenue pIndex sIndex st prs) = l'.
Proof.
  revert l st; induction prs as [| r t IH]; intros l st H Hl;
    unfold aggregate in *; cbn [Part000Pipeline.processRecords fold_left] in *.
  - injection H as <-. exact Hl.
  - destruct (Part000Pipeline.processRecord calcRevenue pIndex sIndex l r) as [l1 |] eqn:E;
      [| discriminate].
    eapply IH; [exact H |]. eapply Part000_processRecord_agrees; eassumption.
Qed.

Lemma Part000_processRecords_throws (prs : list PurchaseRecord) (l : list SellerStat)
      (record : PurchaseRecord) (item : Item) (product : Product) (k : nat) :
  (forall key j, sIndex key = Some j -> j < List.length l) ->
  In record prs -> sIndex (seller_id record) = Some k ->
  In item (items record) -> pIndex (item_sku item) = Some product ->
  calcRevenue item product = None ->
  Part000Pipeline.processRecords calcRevenue pIndex sIndex l prs = None.
Proof.
  revert l; induction prs as [| r t IH]; intros l Hb Hin Hk Hi Hp Hr; [contradiction |].
  cbn [Part000Pipeline.processRecords].
  destruct (Part000Pipeline.processRecord calcRevenue pIndex sIndex l r) as [l1 |] eqn:E.
  - destruct Hin as [-> | Hin].
    + exfalso. unfold Part000Pipeline.processRecord in E. rewrite Hk in E.
      apply Hb in Hk. apply nth_error_Some in Hk.
      destruct (nth_error l k) as [a |]; [| congruence].
      rewrite (Part000_processItems_throws _ _ item product Hi Hp Hr) in E. discriminate.
    + apply IH; try assumption.
      intros key j Hj. rewrite (Part000_processRecord_length _ _ _ E). eapply Hb, Hj.
  - reflexivity.
Qed.

Lemma Part000_processRecords_returns (prs : list PurchaseRecord) (l : list SellerStat) :
  (forall item product, calcRevenue item product <> None) ->
  exists l', Part000Pipeline.processRecords calcRevenue pIndex sIndex l prs = Some l'.
Proof.
  intros Hnever. revert l; induction prs as [| r t IH]; intros l;
    cbn [Part000Pipeline.processRecords]; [eauto |].
  unfold Part000Pipeline.processRecord.
  destruct (sIndex (seller_id r)) as [k |]; [| apply IH].
  destruct (nth_error l k) as [a |]; [| apply IH].
  destruct (Part000_processItems_returns (items r) (countReceipt r a) Hnever) as (a' & ->).
  apply IH.
Qed.
End Part000Facts.

Lemma Part000_rank_nth (calcBonus : BonusStrategy) (total i0 : nat) (l : list SellerStat)
      (out : list Part000Pipeline.Result) :
  Part000Pipeline.rank calcBonus total i0 l = Some out ->
  List.length out = List.length l /\
  forall i e,
    nth_error out i = Some e ->
    exists seller b,
      nth_error l i = Some seller /\
      calcBonus (Z.of_nat (i0 + i)) (Z.of_nat total) seller = Some b /\
      e = Part000Pipeline.toResult seller b.
Proof.
  revert i0 out; induction l as [| s t IH]; intros i0 out H;
    cbn [Part000Pipeline.rank] in H.
  - injection H as <-. split; [reflexivity |]. intros [| i] e He; discriminate.
  - destruct (calcBonus (Z.of_nat i0) (Z.of_nat total) s) as [b |] eqn:Eb; [| discriminate].
    destruct (Part000Pipeline.rank calcBonus total (S i0) t) as [t' |] eqn:Et;
      [| discriminate].
    injection H as <-. destruct (IH _ _ Et) as [Hlen Hnth].
    split; [simpl; congruence |].
    intros [| i] e He; simpl in He.
    + injection He as <-. exists s, b. rewrite Nat.add_0_r. auto.
    + destruct (Hnth i e He) as (seller & b' & H1 & H2 & H3).
      exists seller, b'. rewrite Nat.add_succ_r. auto.
Qed.

Lemma Part000_rank_returns (calcBonus : BonusStrategy) (total i0 : nat)
      (l : list SellerStat) :
  (forall index n seller, calcBonus index n seller <> None) ->
  exists out, Part000Pipeline.rank calcBonus total i0 l = Some out.
Proof.
  intros Hnever. revert i0; induction l as [| s t IH]; intros i0;
    cbn [Part000Pipeline.rank]; [eauto |].
  destruct (calcBonus (Z.of_nat i0) (Z.of_nat total) s) as [b |] eqn:Eb.
  - destruct (IH (S i0)) as (t' & ->). eauto.
  - exfalso. eapply Hnever, Eb.
Qed.

Lemma Part000_analyze_valid (cs : list Customer) (ps : list Product) (ss : list Seller)
      (prs : list PurchaseRecord) (calcRevenue : RevenueStrategy) (calcBonus : BonusStrategy) :
  cs <> [] -> ps <> [] -> ss <> [] -> prs <> [] ->
  Part000Pipeline.analyzeSalesData
    (Some (mkData (Some cs) (Some ps) (Some ss) (Some prs)))
    (Some (mkOptions (Function calcRevenue) (Function calcBonus)))
  = Part000Pipeline.report calcRevenue calcBonus ps ss prs.
Proof.
  intros Hc Hp Hs Hr. unfold Part000Pipeline.analyzeSalesData, Part000.checkData.
  cbn [customers products sellers purchase_records calculateRevenue calculateBonus].
  destruct cs; [congruence |]. destruct ps; [congruence |].
  destruct ss; [congruence |]. destruct prs; [congruence |]. reflexivity.
Qed.

Lemma Part000_analyze_inr (data : option Data) (options : option Options)
      (out : list Part000Pipeline.Result) :
  Part000Pipeline.analyzeSalesData data options = inr out ->
  exists cs ps ss prs calcRevenue calcBonus,
    data = Some (mkData (Some cs) (Some ps) (Some ss) (Some prs)) /\
    options = Some (mkOptions (Function calcRevenue) (Function calcBonus)) /\
    cs <> [] /\ ps <> [] /\ ss <> [] /\ prs <> [] /\
    Part000Pipeline.report calcRevenue calcBonus ps ss prs = inr out.
Proof.
  unfold Part000Pipeline.analyzeSalesData, Part000.checkData.
  destruct data as [[[cs |] [ps |] [ss |] [prs |]] |];
    cbn [customers products sellers purchase_records]; try discriminate.
  destruct cs as [| c cs]; [discriminate |].
  destruct ps as [| p ps]; [discriminate |].
  destruct ss as [| s ss]; [discriminate |].
  destruct prs as [| r prs]; [discriminate |].
  cbn [isEmpty List.length Nat.eqb orb].
  destruct options as [[[| | calcRevenue] [| | calcBonus]] |];
    cbn [calculateRevenue calculateBonus]; try discriminate.
  intros H. exists (c :: cs), (p :: ps), (s :: ss), (r :: prs), calcRevenue, calcBonus.
  repeat split; try discriminate. exact H.
Qed.

Lemma Part000_ranks_all_sellers_aux
      (cs : list Customer) (ps : list Product) (ss : list Seller)
      (prs : list PurchaseRecord) (calcRevenue : RevenueStrategy)
      (calcBonus : BonusStrategy) :
  cs <> [] -> ps <> [] -> ss <> [] -> prs <> [] ->
  forall out,
    Part000Pipeline.analyzeSalesData
      (Some (mkData (Some cs) (Some ps) (Some ss) (Some prs)))
      (Some (mkOptions (Function calcRevenue) (Function calcBonus))) = inr out ->
    List.length out = List.length ss /\
    forall i e,
      nth_error out i = Some e ->
      exists seller b,
        nth_error (sortByProfit (sellerStats (aggregateAll calcRevenue ps ss prs))) i
        = Some seller /\
        calcBonus (Z.of_nat i) (Z.of_nat (List.length ss)) seller = Some b /\
        e = Part000Pipeline.toResult seller b.
Proof.
  intros Hc Hp Hs Hr out.
  rewrite Part000_analyze_valid by assumption. unfold Part000Pipeline.report.
  intros H.
  destruct (Part000Pipeline.processRecords _ _ _ _ _) as [stats |] eqn:E; [| discriminate].
  assert (Hstats : sellerStats (aggregateAll calcRevenue ps ss prs) = stats).
  { unfold aggregateAll. eapply Part000_processRecords_agrees; [exact E | reflexivity]. }
  subst stats.
  set (sorted := sortByProfit (sellerStats (aggregateAll calcRevenue ps ss prs))) in *.
  destruct (Part000Pipeline.rank calcBonus (List.length sorted) 0 sorted) as [out' |] eqn:Er;
    [| discriminate].
  injection H as <-. destruct (Part000_rank_nth _ _ _ _ _ Er) as [Hlen Hnth].
  assert (Hsl : List.length sorted = List.length ss).
  { unfold sorted, sortByProfit. rewrite sortBy_length. apply aggregateAll_length. }
  split; [congruence |].
  intros i e He. destruct (Hnth i e He) as (seller & b & H1 & H2 & H3).
  exists seller, b. rewrite <- Hsl. auto.
Qed.

(** X24. In [part_000] nothing is caught and every seller is ranked.  On an
    input that passes the checks and whose receipts name no seller and no SKU
    by the name of a member of [Object.prototype]: the run ends with the
    exception when the revenue strategy throws, whatever it throws, for a
    line item of a known seller and a known product; a report has one entry
    for every seller of [data.sellers], also for a seller without receipts,
    the entry at rank [i] being built from the [i]-th seller by profit and
    the value of the bonus strategy for it; and a report is returned when no
    strategy throws, even if no line item was processed. *)
Theorem Part000_ranks_all_sellers
        (cs : list Customer) (ps : list Product) (ss : list Seller)
        (prs : list PurchaseRecord) (calcRevenue : ThrowingRevenue)
        (calcBonus : BonusStrategy) :
  cs <> [] -> ps <> [] -> ss <> [] -> prs <> [] ->
  ownKeysOnly prs = true ->
  let run := Part000Pipeline.analyzeSalesData
               (Some (mkData (Some cs) (Some ps) (Some ss) (Some prs)))
               (Some (mkOptions (Function (caught calcRevenue)) (Function calcBonus))) in
  ((exists record item product thrown,
      In record prs /\ In (seller_id record) (map id ss) /\ In item (items record) /\
      productIndex ps (item_sku item) = Some product /\
      calcRevenue item product = Threw thrown) ->
   run = inl Part000Pipeline.Thrown) /\
  (forall out,
     run = inr out ->
     let sorted :=
         sortByProfit (sellerStats (aggregateAll (caught calcRevenue) ps ss prs)) in
     List.length out = List.length ss /\
     forall i e,
       nth_error out i = Some e ->
       exists seller b,
         nth_error sorted i = Some seller /\
         calcBonus (Z.of_nat i) (Z.of_nat (List.length ss)) seller = Some b /\
         e = Part000Pipeline.toResult seller b) /\
  ((forall item product, exists itemRevenue,
       calcRevenue item product = Returned itemRevenue) ->
   (forall index total seller, calcBonus index total seller <> None) ->
   exists out, run = inr out).
Proof.
  intros Hc Hp Hs Hr _ run. subst run.
  split; [| split].
  - rewrite Part000_analyze_valid by assumption. unfold Part000Pipeline.report.
    intros (record & item & product & thrown & Hin & Hknown & Hi & Hprod & Hthrew).
    apply sellerIndex_known in Hknown. destruct Hknown as (k & Hk).
    rewrite (Part000_processRecords_throws (caught calcRevenue) (productIndex ps)
               (sellerIndex (map initStat ss)) prs (map initStat ss)
               record item product k); try assumption; [reflexivity | |].
    + intros key j Hj. rewrite length_map. eapply sellerIndex_bound, Hj.
    + unfold caught. rewrite Hthrew. reflexivity.
  - intros out H sorted.
    exact (Part000_ranks_all_sellers_aux cs ps ss prs (caught calcRevenue) calcBonus
             Hc Hp Hs Hr out H).
  - rewrite Part000_analyze_valid by assumption. unfold Part000Pipeline.report.
    intros Hrev Hbonus.
    assert (Hrev' : forall item product, caught calcRevenue item product <> None).
    { intros item product. unfold caught.
      destruct (Hrev item product) as (q & ->). discriminate. }
    destruct (Part000_processRecords_returns (caught calcRevenue) (productIndex ps)
                (sellerIndex (map initStat ss)) prs (map initStat ss) Hrev')
      as (stats & ->).
    match goal with |- context [Part000Pipeline.rank ?cb ?n ?i ?l] =>
      destruct (Part000_rank_returns cb n i l Hbonus) as (out & ->) end.
    eauto.
Qed.

Lemma Part000_ranks_all_sellers_witness :
  Part000Pipeline.analyzeSalesData
    (Some (twoItemData [itemP; itemR]))
    (Some (mkOptions (Function (caught throwingRevenue)) (Function referenceBonus)))
  = inl Part000Pipeline.Thrown /\
  exists out,
    Part000Pipeline.analyzeSalesData
      (Some (mkData (Some [mkCustomer "customer_1"]) (Some [productP])
                    (Some [sellerA; sellerB]) (Some [strangerRecord])))
      (Some (mkOptions (Function (caught (fun item product =>
                                            Returned (calculateSimpleRevenue item product))))
                       (Function referenceBonus)))
    = inr out /\
    List.length out = 2.
Proof.
  split.
  - refine (proj1 (Part000_ranks_all_sellers
                     [mkCustomer "customer_1"] [productP; productR] [sellerA]
                     [mkRecord "receipt_1" "seller_1" 56 [itemP; itemR]]
                     throwingRevenue referenceBonus _ _ _ _ eq_refl) _);
      try discriminate.
    exists (mkRecord "receipt_1" "seller_1" 56 [itemP; itemR]), itemR, productR,
           ThrownValue.
    split; [left; reflexivity |]. split; [left; reflexivity |].
    split; [right; left; reflexivity |]. split; reflexivity.
  - destruct (Part000_ranks_all_sellers
                [mkCustomer "customer_1"] [productP] [sellerA; sellerB] [strangerRecord]
                (fun item product => Returned (calculateSimpleRevenue item product))
                referenceBonus)
      as (_ & Hentries & Hreturns); try discriminate; [reflexivity |].
    destruct Hreturns as (out & Hout); [intros; eexists; reflexivity | discriminate |].
    exists out. split; [exact Hout |]. apply (Hentries out Hout).
Defined.

(** X25. When the receipts name no seller and no SKU by the name of a
    member of [Object.prototype], a report of [part_000] names every seller
    of [data.sellers] once, is sorted by the reported profit, non-increasing,
    and gives for every seller the number of receipts credited to it, the sum
    of their [total_amount] and the sum of revenue minus
    [purchase_price * quantity] over their processed line items, both rounded
    by [toFixed(2)]. *)
Theorem Part000_report_totals
        (d : Data) (options : option Options) (ps : list Product) (ss : list Seller)
        (prs : list PurchaseRecord) (calcRevenue : RevenueStrategy)
        (calcBonus : BonusStrategy) (out : list Part000Pipeline.Result) :
  products d = Some ps -> sellers d = Some ss -> purchase_records d = Some prs ->
  options = Some (mkOptions (Function calcRevenue) (Function calcBonus)) ->
  ownKeysOnly prs = true ->
  Part000Pipeline.analyzeSalesData (Some d) options = inr out ->
  Permutation (map Part000Pipeline.rep_seller_id out) (map id ss) /\
  StronglySorted
    (fun a b => (Part000Pipeline.rep_profit b <= Part000Pipeline.rep_profit a)%Q) out /\
  forall e, In e out ->
    exists k s,
      nth_error ss k = Some s /\
      Part000Pipeline.rep_seller_id e = id s /\
      Part000Pipeline.rep_sales_count e
      = List.length (receiptsCredited (sellerIndex (map initStat ss)) k prs) /\
      (Part000Pipeline.rep_revenue e == Part002.toFixed2 (revenueOf ss prs k))%Q /\
      (Part000Pipeline.rep_profit e
       == Part002.toFixed2 (profitOf calcRevenue ps ss prs k))%Q.
Proof.
  intros Hps Hss Hprs Hopt _ H. apply Part000_analyze_inr in H.
  destruct H as (cs & ps' & ss' & prs' & cr & cb & Hd & Ho & Hc & Hp & Hs & Hr & H).
  injection Hd as ->. simpl in Hps, Hss, Hprs.
  injection Hps as ->. injection Hss as ->. injection Hprs as ->.
  rewrite Hopt in Ho. injection Ho as <- <-.
  rewrite <- (Part000_analyze_valid cs ps ss prs calcRevenue calcBonus Hc Hp Hs Hr) in H.
  destruct (Part000_ranks_all_sellers_aux cs ps ss prs calcRevenue calcBonus
              Hc Hp Hs Hr out H) as [Hlen Hnth].
  set (sorted := sortByProfit (sellerStats (aggregateAll calcRevenue ps ss prs))) in *.
  assert (Hids : map Part000Pipeline.rep_seller_id out = map stat_id sorted).
  { apply nth_error_ext. intros i. rewrite !nth_error_map.
    destruct (nth_error out i) as [e |] eqn:Ee.
    - destruct (Hnth i e Ee) as (seller & b & -> & _ & ->). reflexivity.
    - apply nth_error_None in Ee.
      assert (Hn : nth_error sorted i = None).
      { apply nth_error_None. unfold sorted, sortByProfit.
        rewrite sortBy_length, aggregateAll_length. lia. }
      rewrite Hn. reflexivity. }
  split; [| split].
  - rewrite Hids, <- (aggregateAll_ids calcRevenue ps ss prs).
    apply Permutation_map. unfold sorted, sortByProfit. apply sortBy_perm.
  - assert (Hs' : StronglySorted (fun a b => (profit b <= profit a)%Q) sorted)
      by apply sortByProfit_sorted.
    assert (Hprof : map Part000Pipeline.rep_profit out
                    = map (fun s => Part002.toFixed2 (profit s)) sorted).
    { apply nth_error_ext. intros i. rewrite !nth_error_map.
      destruct (nth_error out i) as [e |] eqn:Ee.
      - destruct (Hnth i e Ee) as (seller & b & -> & _ & ->). reflexivity.
      - apply nth_error_None in Ee.
        assert (Hn : nth_error sorted i = None).
        { apply nth_error_None. unfold sorted, sortByProfit.
          rewrite sortBy_length, aggregateAll_length. lia. }
        rewrite Hn. reflexivity. }
    assert (Hm : StronglySorted (fun a b => (b <= a)%Q)
                                (map Part000Pipeline.rep_profit out)).
    { rewrite Hprof.
      apply (StronglySorted_map (fun a b => (profit b <= profit a)%Q)); [| exact Hs'].
      intros x y Hxy. apply toFixed2_mono, Hxy. }
    clear - Hm. induction out as [| e t IH]; simpl in *; [constructor |].
    inversion Hm as [| ? ? Ht Hall]; subst.
    constructor; [apply IH, Ht |].
    rewrite Forall_map in Hall. exact Hall.
  - intros e He. apply In_nth_error in He. destruct He as (i & He).
    destruct (Hnth i e He) as (seller & b & Hsel & Hb & ->).
    apply nth_error_In in Hsel. unfold sorted, sortByProfit in Hsel.
    eapply Permutation_in in Hsel; [| apply sortBy_perm].
    apply In_nth_error in Hsel. destruct Hsel as (k & Hk).
    destruct (aggregateAll_money _ _ _ _ _ _ Hk) as (s & Hs1 & Hid & Hcnt & Hrev & Hprof & _).
    exists k, s.
    cbn [Part000Pipeline.toResult Part000Pipeline.rep_seller_id
         Part000Pipeline.rep_sales_count Part000Pipeline.rep_revenue
         Part000Pipeline.rep_profit Part000Pipeline.rep_bonus].
    split; [exact Hs1 |]. split; [exact Hid |]. split; [exact Hcnt |].
    split; [apply toFixed2_comp, Hrev | apply toFixed2_comp, Hprof].
Qed.

Lemma Part000_report_totals_witness :
  exists out,
    Part000Pipeline.analyzeSalesData
      (Some (mkData (Some [mkCustomer "customer_1"]) (Some [productP])
                    (Some [sellerA; sellerB]) (Some [soleRecord 40])))
      (Some defaultOptions) = inr out /\
    Permutation (map Part000Pipeline.rep_seller_id out) (map id [sellerA; sellerB]) /\
    StronglySorted
      (fun a b => (Part000Pipeline.rep_profit b <= Part000Pipeline.rep_profit a)%Q) out.
Proof.
  eexists.
  match goal with |- ?run = inr ?o /\ _ =>
    assert (Hrun : run = inr o) by (vm_compute; reflexivity) end.
  split; [exact Hrun |].
  destruct (Part000_report_totals
              (mkData (Some [mkCustomer "customer_1"]) (Some [productP])
                      (Some [sellerA; sellerB]) (Some [soleRecord 40]))
              (Some defaultOptions) [productP] [sellerA; sellerB] [soleRecord 40]
              referenceRevenue referenceBonus _
              eq_refl eq_refl eq_refl eq_refl eq_refl Hrun) as (Hperm & Hsorted & _).
  split; [exact Hperm | exact Hsorted].
Defined.

(** X26. The checks of [part_000] are made in a fixed order: first [data],
    which must hold the four collections, [customers] included, all of them
    non-empty; then [options]; then the revenue strategy, which must be a
    function; then the bonus strategy. *)
Theorem Part000_checks_in_order (data : option Data) (options : option Options) :
  let run := Part000Pipeline.analyzeSalesData data options in
  (forall e, run = inl (Part000Pipeline.InvalidData e) <-> Part000.checkData data = Some e) /\
  (Part000.checkData data = None <->
   exists cs ps ss prs,
     data = Some (mkData (Some cs) (Some ps) (Some ss) (Some prs)) /\
     cs <> [] /\ ps <> [] /\ ss <> [] /\ prs <> []) /\
  (run = inl Part000Pipeline.OptionsRequired <->
   Part000.checkData data = None /\ options = None) /\
  (run = inl Part000Pipeline.RevenueRequired <->
   Part000.checkData data = None /\
   exists o, options = Some o /\ isFunction (calculateRevenue o) = false) /\
  (run = inl Part000Pipeline.BonusRequired <->
   Part000.checkData data = None /\
   exists o, options = Some o /\ isFunction (calculateRevenue o) = true /\
             isFunction (calculateBonus o) = false).
Proof.
  cbv zeta.
  assert (Hreport : forall cr cb ps ss prs,
             (exists out, Part000Pipeline.report cr cb ps ss prs = inr out) \/
             Part000Pipeline.report cr cb ps ss prs = inl Part000Pipeline.Thrown).
  { intros cr cb ps ss prs. unfold Part000Pipeline.report.
    destruct (Part000Pipeline.processRecords _ _ _ _ _); [| auto].
    destruct (Part000Pipeline.rank _ _ _ _); eauto. }
  assert (Hcheck : Part000.checkData data = None <->
                   exists cs ps ss prs,
                     data = Some (mkData (Some cs) (Some ps) (Some ss) (Some prs)) /\
                     cs <> [] /\ ps <> [] /\ ss <> [] /\ prs <> []).
  { unfold Part000.checkData.
    destruct data as [[[cs |] [ps |] [ss |] [prs |]] |];
      cbn [customers products sellers purchase_records];
      try (split; [discriminate | intros (? & ? & ? & ? & E & _); discriminate]).
    destruct cs as [| c cs], ps as [| p ps], ss as [| s ss], prs as [| r prs];
      cbn [isEmpty List.length Nat.eqb orb];
      try (split; [discriminate
                  | intros (? & ? & ? & ? & E & ? & ? & ? & ?);
                    injection E as <- <- <- <-; congruence]).
    split; [intros _ | reflexivity].
    exists (c :: cs), (p :: ps), (s :: ss), (r :: prs).
    repeat split; discriminate. }
  split; [| split; [exact Hcheck |]].
  - intros e. unfold Part000Pipeline.analyzeSalesData.
    destruct (Part000.checkData data) as [e' |] eqn:E.
    + split; intros H; injection H as <-; reflexivity.
    + split; [| discriminate].
      destruct (proj1 Hcheck eq_refl) as (cs & ps & ss & prs & -> & _).
      destruct options as [[[| | cr] [| | cb]] |];
        cbn [calculateRevenue calculateBonus products sellers purchase_records];
        try discriminate.
      destruct (Hreport cr cb ps ss prs) as [(out & ->) | ->]; discriminate.
  - unfold Part000Pipeline.analyzeSalesData.
    destruct (Part000.checkData data) as [e' |] eqn:E.
    + split; [| split]; (split; [discriminate | intros [HH _]; discriminate]).
    + destruct (proj1 Hcheck eq_refl) as (cs & ps & ss & prs & -> & _).
      assert (Hrun : forall cr cb X,
                 X <> Part000Pipeline.Thrown ->
                 Part000Pipeline.report cr cb ps ss prs <> inl X).
      { intros cr cb X HX HH.
        destruct (Hreport cr cb ps ss prs) as [(out & Ho) | Ho]; congruence. }
      destruct options as [[[| | cr] [| | cb]] |];
        cbn [calculateRevenue calculateBonus products sellers purchase_records
             isFunction];
        (split; [| split]); (split; [intros HH | intros [_ HH]]);
        try reflexivity; try discriminate;
        try (exfalso; eapply Hrun; [| exact HH]; discriminate);
        try (destruct HH as (o & Ho & _); discriminate);
        try (split; [reflexivity | eexists; repeat split; reflexivity]);
        try (destruct HH as (o & Ho & HH'); injection Ho as <-;
             cbn [calculateRevenue calculateBonus isFunction] in HH';
             intuition discriminate).
Qed.

(** X27. The checks of [part_002] are made in the reverse order of
    [main.js]: first the two strategies, which only have to be present, then
    [data] with its three collections, then their emptiness; [customers] is
    not looked at. *)
Theorem Part002_checks_in_order (data : option Data)
        (options : option Part002Pipeline.Options) :
  let run := Part002Pipeline.analyzeSalesData data options in
  (run = inl Part002Pipeline.StrategiesRequired <-> strategiesPresent options = false) /\
  (run = inl Part002Pipeline.DataMissing <->
   strategiesPresent options = true /\
   match data with
   | Some d => sellers d = None \/ products d = None \/ purchase_records d = None
   | None => True
   end) /\
  (run = inl Part002Pipeline.ArraysEmpty <->
   strategiesPresent options = true /\
   exists d ss ps prs,
     data = Some d /\ sellers d = Some ss /\ products d = Some ps /\
     purchase_records d = Some prs /\ (ss = [] \/ ps = [] \/ prs = [])).
Proof.
  cbv zeta.
  assert (Hreport : forall cr cb ps ss prs X,
             X <> Part002Pipeline.Thrown ->
             Part002Pipeline.report cr cb ps ss prs <> inl X).
  { intros cr cb ps ss prs X HX. unfold Part002Pipeline.report.
    destruct (Part002Pipeline.processRecords _ _ _ _ _); [| congruence].
    destruct (Part002Pipeline.assignBonuses _ _ _ _); congruence. }
  unfold Part002Pipeline.analyzeSalesData, strategiesPresent.
  destruct options as [o |]; cbn [isUndefined orb].
  2:{ split; [| split]; (split; [intros HH | intros HH]);
        try reflexivity; try discriminate; destruct HH; discriminate. }
  destruct (isUndefined (Part002Pipeline.opt_calculateRevenue o)
            || isUndefined (Part002Pipeline.opt_calculateBonus o)); cbn [negb].
  { split; [| split]; (split; [intros HH | intros HH]);
      try reflexivity; try discriminate; destruct HH; discriminate. }
  assert (Hex : forall (d : Data) (dss : option (list Seller)) (dps : option (list Product))
                       (dprs : option (list PurchaseRecord)),
             sellers d = dss -> products d = dps -> purchase_records d = dprs ->
             dss = None \/ dps = None \/ dprs = None ->
             ~ exists d' ss ps prs,
                 Some d = Some d' /\ sellers d' = Some ss /\ products d' = Some ps /\
                 purchase_records d' = Some prs /\ (ss = [] \/ ps = [] \/ prs = [])).
  { intros d dss dps dprs H1 H2 H3 Hn (d' & ss & ps & prs & Hd & G1 & G2 & G3 & _).
    injection Hd as <-. destruct Hn as [-> | [-> | ->]]; congruence. }
  destruct data as [d |].
  2:{ split; [| split]; split; intros HH; try discriminate; auto.
      destruct HH as [_ (d & ss & ps & prs & Hd & _)]. discriminate. }
  destruct (sellers d) as [ss |] eqn:Ess, (products d) as [ps |] eqn:Eps,
    (purchase_records d) as [prs |] eqn:Eprs.
  2-8: (split; [| split]; split; intros HH; try discriminate; auto;
        exfalso; destruct HH as [_ HH];
        eapply (Hex d _ _ _ Ess Eps Eprs); eauto).
  assert (Hempty : isEmpty ss || isEmpty ps || isEmpty prs = true <->
                   ss = [] \/ ps = [] \/ prs = []).
  { rewrite !orb_true_iff, !isEmpty_nil. tauto. }
  destruct (isEmpty ss || isEmpty ps || isEmpty prs) eqn:Ee.
  - split; [| split]; split; intros HH; try discriminate; try reflexivity.
    + destruct HH as [_ [HH | [HH | HH]]]; discriminate.
    + split; [reflexivity |]. exists d, ss, ps, prs.
      repeat (split; [assumption || reflexivity |]). apply Hempty. reflexivity.
  - split; [| split]; split; intros HH; try discriminate;
      try (exfalso; eapply Hreport; [| exact HH]; discriminate).
    + destruct HH as [_ [HH | [HH | HH]]]; discriminate.
    + exfalso. destruct HH as [_ (d' & ss' & ps' & prs' & Hd & H1 & H2 & H3 & HH)].
      injection Hd as <-. rewrite Ess in H1. rewrite Eps in H2. rewrite Eprs in H3.
      injection H1 as <-. injection H2 as <-. injection H3 as <-.
      apply Hempty in HH. discriminate.
Qed.

(** ** The top products of [part_002] *)

Section SortFactsOn.
Context {A : Type}.
Variable cmp_le : A -> A -> bool.
Variable P : A -> Prop.
Variable R : A -> A -> Prop.
Hypothesis R_trans : forall x y z, P x -> P y -> P z -> R x y -> R y z -> R x z.
Hypothesis cmp_le_true : forall x y, P x -> P y -> cmp_le x y = true -> R x y.
Hypothesis cmp_le_false : forall x y, P x -> P y -> cmp_le x y = false -> R y x.

Lemma insertSorted_sorted_on (x : A) (l : list A) :
  P x -> Forall P l -> StronglySorted R l -> StronglySorted R (insertSorted cmp_le x l).
Proof.
  intros Hx HP Hs. induction Hs as [| y t Hs IH Hall]; simpl.
  - constructor; constructor.
  - inversion HP as [| ? ? Hy Ht]; subst.
    destruct (cmp_le x y) eqn:E.
    + constructor; [constructor; assumption |].
      constructor; [apply cmp_le_true; assumption |].
      rewrite Forall_forall in *. intros z Hz.
      apply (R_trans x y z); auto.
    + constructor; [apply IH, Ht |].
      eapply Permutation_Forall; [apply Permutation_sym, insertSorted_perm |].
      constructor; [apply cmp_le_false; assumption | exact Hall].
Qed.

Lemma sortBy_sorted_on (l : list A) : Forall P l -> StronglySorted R (sortBy cmp_le l).
Proof.
  induction 1 as [| x t Hx Ht IH]; simpl; [constructor |].
  apply insertSorted_sorted_on; [exact Hx | | exact IH].
  eapply Permutation_Forall; [apply Permutation_sym, sortBy_perm | exact Ht].
Qed.
End SortFactsOn.

(** X28. When every SKU has a numeric suffix of at most [2^53] in absolute
    value, the top products of [part_002] are the first ten of the entries
    [sold] of the seller's sold products in the order of a stable sort by
    quantity, descending, and among equal quantities by the number of the
    SKU, descending: followed by the pairs left out, they list every pair
    once in that order, and the pairs of one quantity and one number keep the
    order they had among the entries. *)
Theorem Part002_topProducts_order (sold : list (string * Z)) :
  (forall p, In p sold ->
             exists n, getNumber (fst p) = Some n /\ (Z.abs n <= 2 ^ 53)%Z) ->
  List.length (Part002.topProducts sold) = Nat.min 10 (List.length sold) /\
  exists rest,
    Permutation (Part002.topProducts sold ++ rest) sold /\
    StronglySorted rankedBefore (Part002.topProducts sold ++ rest) /\
    forall q n,
      filter (sameRank q n) (Part002.topProducts sold ++ rest)
      = filter (sameRank q n) sold.
Proof.
  intros Hnum. unfold Part002.topProducts.
  split; [rewrite length_firstn, sortBy_length; reflexivity |].
  match goal with |- context [sortBy ?cmp sold] => set (sorted := sortBy cmp sold) end.
  exists (skipn 10 sorted). rewrite firstn_skipn.
  split; [apply sortBy_perm |]. split.
  - apply (sortBy_sorted_on _ (fun p => getNumber (fst p) <> None)).
    + intros x y z Hx Hy Hz. unfold rankedBefore.
      destruct (getNumber (fst x)), (getNumber (fst y)), (getNumber (fst z));
        try congruence. intros [H1 | [H1 H1']] [H2 | [H2 H2']]; [left | left | left | right]; lia.
    + intros x y Hx Hy. unfold rankedBefore.
      destruct (getNumber (fst x)), (getNumber (fst y)); try congruence.
      destruct (Z.eqb_spec (snd y) (snd x)) as [E | E]; cbn [negb]; intros H.
      * right. apply Z.leb_le in H. lia.
      * left. apply Z.leb_le in H. lia.
    + intros x y Hx Hy. unfold rankedBefore.
      destruct (getNumber (fst x)), (getNumber (fst y)); try congruence.
      destruct (Z.eqb_spec (snd y) (snd x)) as [E | E]; cbn [negb]; intros H.
      * right. apply Z.leb_gt in H. lia.
      * left. apply Z.leb_gt in H. lia.
    + apply Forall_forall. intros p Hp.
      destruct (Hnum p Hp) as (n & -> & _). discriminate.
  - intros q n. apply sortBy_stable. intros x y Hx Hy.
    unfold sameRank in Hx, Hy.
    apply andb_true_iff in Hx, Hy. destruct Hx as [Hx1 Hx2], Hy as [Hy1 Hy2].
    apply Z.eqb_eq in Hx1, Hy1.
    destruct (getNumber (fst x)) as [a |]; [| discriminate].
    destruct (getNumber (fst y)) as [b |]; [| discriminate].
    apply Z.eqb_eq in Hx2, Hy2. subst a b.
    replace (snd y =? snd x)%Z with true by (symmetry; apply Z.eqb_eq; lia).
    cbn [negb]. apply Z.leb_le. lia.
Qed.

Lemma Part002_topProducts_order_witness :
  Part002.topProducts [(skuOf 12, 2%Z); (skuOf 100, 2%Z); (skuOf 7, 5%Z)]
  = [(skuOf 7, 5%Z); (skuOf 100, 2%Z); (skuOf 12, 2%Z)] /\
  exists rest,
    Permutation
      (Part002.topProducts [(skuOf 12, 2%Z); (skuOf 100, 2%Z); (skuOf 7, 5%Z)] ++ rest)
      [(skuOf 12, 2%Z); (skuOf 100, 2%Z); (skuOf 7, 5%Z)] /\
    StronglySorted
      rankedBefore
      (Part002.topProducts [(skuOf 12, 2%Z); (skuOf 100, 2%Z); (skuOf 7, 5%Z)] ++ rest).
Proof.
  split; [vm_compute; reflexivity |].
  destruct (Part002_topProducts_order
              [(skuOf 12, 2%Z); (skuOf 100, 2%Z); (skuOf 7, 5%Z)])
    as (_ & rest & Hperm & Hsorted & _).
  - intros p [<- | [<- | [<- | []]]]; eexists;
      (split; [vm_compute; reflexivity | vm_compute; discriminate]).
  - exists rest. split; [exact Hperm | exact Hsorted].
Defined.
